(** * musicbot/entry.py: playlist entries, their download life cycle,
      readiness futures and persistence.

    A shallow embedding of [BasePlaylistEntry], [URLPlaylistEntry] and
    [StreamPlaylistEntry].

    - Python values are dynamically typed, so the fields an entry
      receives from a decoded JSON record or from a caller are kept as
      [pyval]; an operation that Python would refuse raises the
      corresponding exception.  Floating-point numbers are left out:
      the code only passes numbers through.
    - An entry is an object with an identity ([self_id]); a future is
      named by its index in a heap of futures, and the result of a
      future is a reference to the entry, not a copy.
    - Coroutines are resumptions: a coroutine runs atomically up to its
      next [await], where the event loop may run something else, and
      resumes in the world as it is then.  [run] is the coroutine alone
      on the loop; [exec] is the loop with its ready queue.
    - The file system is a list of paths with their nodes, in the order
      [os.listdir] reports them; paths follow the POSIX rules of
      [os.path] and are compared as strings.
    - What [entry.py] imports and does not define (the extractor, the
      header probe, [md5sum], [prepare_filename], [int] on strings,
      [_enclose_json], [_bad], the resolver of owners) is a parameter: class
      [Environment] and record [Playlist].  The extractor and the probe
      answer as functions of the request and of the file system. *)

From Stdlib Require Import ZArith Lia Ascii String.
From stdpp Require Import base list strings.

Open Scope string_scope.
Open Scope Z_scope.

(** ** Python strings *)

Module PyStr.

(** [s.rsplit(c, 1)] when [c] occurs in [s]: the text before and after
    the last occurrence. *)
Fixpoint rsplit_last (c : ascii) (s : string) : option (string * string) :=
  match s with
  | EmptyString => None
  | String a s' =>
      match rsplit_last c s' with
      | Some (l, r) => Some (String a l, r)
      | None => if decide (a = c) then Some (EmptyString, s') else None
      end
  end.

(** [s.rsplit(c, 1)]: a list of one or two strings. *)
Definition rsplit1 (c : ascii) (s : string) : list string :=
  match rsplit_last c s with
  | Some (l, r) => [l; r]
  | None => [s]
  end.

(** [s.split(c)] for a one-character separator. *)
Fixpoint split (c : ascii) (s : string) : list string :=
  match s with
  | EmptyString => [EmptyString]
  | String a s' =>
      if decide (a = c) then EmptyString :: split c s'
      else match split c s' with
           | [] => [String a EmptyString]
           | x :: xs => String a x :: xs
           end
  end.

(** [sep.join(parts)]. *)
Fixpoint join (sep : string) (parts : list string) : string :=
  match parts with
  | [] => EmptyString
  | [x] => x
  | x :: rest => x +:+ sep +:+ join sep rest
  end.

(** Iterating over a string yields its one-character substrings. *)
Fixpoint chars (s : string) : list string :=
  match s with
  | EmptyString => []
  | String a s' => String a EmptyString :: chars s'
  end.

(** [l[0]] and [l[-1]] on the non-empty lists that [split] and
    [rsplit] return. *)
Definition first (l : list string) : string := hd EmptyString l.
Definition final (l : list string) : string := List.last l EmptyString.

Fixpoint prefix (p s : string) : bool :=
  match p, s with
  | EmptyString, _ => true
  | String a p', String b s' => if decide (a = b) then prefix p' s' else false
  | String _ _, EmptyString => false
  end.

Fixpoint drop (n : nat) (s : string) : string :=
  match n, s with
  | O, _ => s
  | S n', String _ s' => drop n' s'
  | S _, EmptyString => EmptyString
  end.

(** [sub in s] on strings. *)
Fixpoint contains (sub s : string) : bool :=
  prefix sub s ||
  match s with
  | EmptyString => false
  | String _ s' => contains sub s'
  end.

Definition has_char (c : ascii) (s : string) : bool :=
  match rsplit_last c s with Some _ => true | None => false end.

Definition eqb (a b : string) : bool := bool_decide (a = b).

(** [x in l] and [l.index(x)] on a list of strings. *)
Definition mem (x : string) (l : list string) : bool :=
  existsb (eqb x) l.

Fixpoint index (x : string) (l : list string) : option nat :=
  match l with
  | [] => None
  | y :: l' => if eqb x y then Some O else S <$> index x l'
  end.

End PyStr.

(** ** POSIX [os.path] *)

Module OsPath.

Definition sep : ascii := "/"%char.

(** [os.path.basename(p)]: what follows the last slash. *)
Definition basename (p : string) : string :=
  PyStr.final (PyStr.rsplit1 sep p).

Definition ends_with_sep (a : string) : bool :=
  match PyStr.rsplit_last sep a with
  | Some (_, EmptyString) => true
  | _ => false
  end.

(** [os.path.join(a, b)]. *)
Definition join (a b : string) : string :=
  if PyStr.prefix "/" b then b
  else if PyStr.eqb a "" || ends_with_sep a then a +:+ b
  else a +:+ "/" +:+ b.

End OsPath.

(** ** Python values and exceptions *)

(** The values a decoded JSON document is made of.  Entry fields that
    come from a record or from a caller ([url], [title], [duration],
    [filename], [expected_filename]) hold such values. *)
#[warnings="-register-all"]
Inductive pyval : Type :=
| VNone
| VBool (b : bool)
| VInt (z : Z)
| VStr (s : string)
| VList (l : list pyval)
| VDict (d : list (string * pyval)).

(** Exceptions.  [Foreign name is_exc] is an exception raised by a
    collaborator (extractor, HTTP session, resolver); [is_exc] tells
    whether its class derives from [Exception] (what [except Exception]
    catches) or only from [BaseException]. *)
Inductive exn : Type :=
| KeyError (key : string)
| TypeError
| ValueError
| AttributeError
| IndexError
| OSError
| AssertionError
| InvalidStateError
| ExtractionError (cause : exn)
| ExtractionErrorMsg (msg : string)
| Foreign (name : string) (is_exc : bool).

Definition is_Exception (e : exn) : bool :=
  match e with
  | Foreign _ b => b
  | _ => true
  end.

(** The outcome of a Python expression: a value or a raised exception. *)
Definition result (A : Type) : Type := exn + A.

Abbreviation ok := (@inr exn _).
Abbreviation raise := (@inl exn _).

Definition rbind {A B} (r : result A) (f : A -> result B) : result B :=
  match r with
  | inl e => inl e
  | inr a => f a
  end.

Module Py.

(** [bool(v)]. *)
Definition truthy (v : pyval) : bool :=
  match v with
  | VNone => false
  | VBool b => b
  | VInt z => negb (z =? 0)
  | VStr s => negb (PyStr.eqb s "")
  | VList l => match l with [] => false | _ => true end
  | VDict d => match d with [] => false | _ => true end
  end.

(** Dictionaries are association lists; a key occurs at most once in
    a dictionary built with [dict_set]. *)
Fixpoint dict_get (k : string) (d : list (string * pyval)) : option pyval :=
  match d with
  | [] => None
  | (k', v) :: d' => if PyStr.eqb k k' then Some v else dict_get k d'
  end.

(** [container[key]] for a string key. *)
Definition getitem (container : pyval) (key : string) : result pyval :=
  match container with
  | VDict d =>
      match dict_get key d with
      | Some v => ok v
      | None => raise (KeyError key)
      end
  | _ => raise TypeError
  end.

Definition is_str (s : string) (v : pyval) : bool :=
  match v with VStr s' => PyStr.eqb s s' | _ => false end.

(** [key in container] for a string key: key membership in a
    dictionary, element membership in a list, substring test in a
    string; the other values are not containers. *)
Definition contains (key : string) (container : pyval) : result bool :=
  match container with
  | VDict d => ok (match dict_get key d with Some _ => true | None => false end)
  | VList l => ok (existsb (is_str key) l)
  | VStr s => ok (PyStr.contains key s)
  | _ => raise TypeError
  end.

(** A string argument of [os.path.basename]. *)
Definition as_str (v : pyval) : result string :=
  match v with
  | VStr s => ok s
  | _ => raise TypeError
  end.

(** [a, b = parts]. *)
Definition unpack2 (parts : list string) : result (string * string) :=
  match parts with
  | [a; b] => ok (a, b)
  | _ => raise ValueError
  end.

(** [l[i]]. *)
Definition list_item {A} (l : list A) (i : nat) : result A :=
  match l !! i with
  | Some x => ok x
  | None => raise IndexError
  end.

End Py.

(** ** The objects of the chat library that entries carry as metadata *)

Record Member : Type := {
  member_id : string;
  member_name : string;
}.

(** [server_get_member] is [channel.server.get_member]; it returns
    [None] for an id it does not know. *)
Record Channel : Type := {
  channel_id : string;
  channel_name : string;
  server_get_member : pyval -> result (option Member);
}.

(** A value of the [meta] dictionary. *)
Inductive pyobj : Type :=
| OVal (v : pyval)
| OChannel (c : Channel)
| OMember (m : Member).

Module Obj.

(** [obj.__class__.__name__]. *)
Definition class_name (o : pyobj) : string :=
  match o with
  | OChannel _ => "Channel"
  | OMember _ => "Member"
  | OVal VNone => "NoneType"
  | OVal (VBool _) => "bool"
  | OVal (VInt _) => "int"
  | OVal (VStr _) => "str"
  | OVal (VList _) => "list"
  | OVal (VDict _) => "dict"
  end.

(** [obj.id] and [obj.name]. *)
Definition id (o : pyobj) : result pyval :=
  match o with
  | OChannel c => ok (VStr (channel_id c))
  | OMember m => ok (VStr (member_id m))
  | OVal _ => raise AttributeError
  end.

Definition name (o : pyobj) : result pyval :=
  match o with
  | OChannel c => ok (VStr (channel_name c))
  | OMember m => ok (VStr (member_name m))
  | OVal _ => raise AttributeError
  end.

Fixpoint meta_get (k : string) (d : list (string * pyobj)) : option pyobj :=
  match d with
  | [] => None
  | (k', v) :: d' => if PyStr.eqb k k' then Some v else meta_get k d'
  end.

(** [meta[k] = v]. *)
Fixpoint meta_set (k : string) (v : pyobj) (d : list (string * pyobj))
  : list (string * pyobj) :=
  match d with
  | [] => [(k, v)]
  | (k', v') :: d' =>
      if PyStr.eqb k k' then (k, v) :: d' else (k', v') :: meta_set k v d'
  end.

(** [meta[k]]. *)
Definition meta_item (d : list (string * pyobj)) (k : string) : result pyobj :=
  match meta_get k d with
  | Some v => ok v
  | None => raise (KeyError k)
  end.

End Obj.

(** ** The file system *)

Module Fs.

Inductive node : Type :=
| File (content : string)
| Dir (st_size : Z).

(** Paths are compared as strings; the list is in directory order,
    the order in which [os.listdir] reports the names. *)
Definition t : Type := list (string * node).

Fixpoint lookup (p : string) (fs : t) : option node :=
  match fs with
  | [] => None
  | (q, n) :: fs' => if PyStr.eqb p q then Some n else lookup p fs'
  end.

Definition remove (p : string) (fs : t) : t :=
  List.filter (fun e => negb (PyStr.eqb p (fst e))) fs.

Definition exists_ (p : string) (fs : t) : bool :=
  match lookup p fs with Some _ => true | None => false end.

Definition isfile (p : string) (fs : t) : bool :=
  match lookup p fs with Some (File _) => true | _ => false end.

(** The name under which [q] is listed in [folder], when [q] lies
    directly in it. *)
Definition child_name (folder q : string) : option string :=
  let pre :=
    if PyStr.eqb folder "" || OsPath.ends_with_sep folder then folder
    else folder +:+ "/" in
  if PyStr.prefix pre q then
    let rest := PyStr.drop (String.length pre) q in
    if PyStr.eqb rest "" || PyStr.has_char OsPath.sep rest then None
    else Some rest
  else None.

(** [os.listdir(folder)]. *)
Definition listdir (folder : string) (fs : t) : result (list string) :=
  match lookup folder fs with
  | Some (Dir _) => ok (omap (fun e => child_name folder (fst e)) fs)
  | _ => raise OSError
  end.

(** [os.path.getsize(p)]. *)
Definition getsize (p : string) (fs : t) : result Z :=
  match lookup p fs with
  | Some (File c) => ok (Z.of_nat (String.length c))
  | Some (Dir n) => ok n
  | None => raise OSError
  end.

(** The directory a path lies in: the text before its last slash.  A
    path without a slash lies in the current directory, and a path
    whose only slash comes first lies in the root; both are always
    there. *)
Definition dirname (p : string) : option string :=
  match PyStr.rsplit_last OsPath.sep p with
  | Some (head, _) => Some head
  | None => None
  end.

Definition in_directory (p : string) (fs : t) : bool :=
  match dirname p with
  | None => true
  | Some head =>
      PyStr.eqb head ""
      || match lookup head fs with Some (Dir _) => true | _ => false end
  end.

(** [os.mkdir(p)]: the path is not empty, nothing is there yet, and
    the directory it lies in is there.  The size the system reports
    for the new directory is never read. *)
Definition mkdir (p : string) (fs : t) : result t :=
  if PyStr.eqb p "" then raise OSError
  else if exists_ p fs then raise OSError
  else if in_directory p fs then ok (fs ++ [(p, Dir 0)])%list
  else raise OSError.

(** [os.makedirs(p)] makes the missing directories above [p], from the
    top, and then [p]; [n] bounds the depth. *)
Fixpoint makedirs_upto (n : nat) (p : string) (fs : t) : result t :=
  match n with
  | O => mkdir p fs
  | S n' =>
      match dirname p with
      | Some head =>
          if negb (PyStr.eqb head "") && negb (exists_ head fs) then
            match makedirs_upto n' head fs with
            | inl e => raise e
            | inr fs' => mkdir p fs'
            end
          else mkdir p fs
      | None => mkdir p fs
      end
  end.

(** [os.makedirs(p)]: it raises when [p] is empty or exists, and when
    a path above [p] is a file.  Paths are taken as written: a
    trailing slash or a [.] component is not normalised away. *)
Definition makedirs (p : string) (fs : t) : result t :=
  makedirs_upto (String.length p) p fs.

(** [os.unlink(p)]. *)
Definition unlink (p : string) (fs : t) : result t :=
  match lookup p fs with
  | Some (File _) => ok (remove p fs)
  | _ => raise OSError
  end.

(** [os.rename(src, dst)] of a regular file: renaming a file to
    itself does nothing; otherwise the directory [dst] lies in must be
    there, a file at [dst] is replaced and a directory there is
    refused.  Renaming a directory is not modelled (it raises here):
    the program renames only a file whose content it has just read. *)
Definition rename (src dst : string) (fs : t) : result t :=
  match lookup src fs with
  | Some (File c) =>
      if PyStr.eqb src dst then ok fs
      else if PyStr.eqb dst "" || negb (in_directory dst fs) then raise OSError
      else
        match lookup dst fs with
        | Some (Dir _) => raise OSError
        | _ =>
            ok (map (fun e => if PyStr.eqb src (fst e) then (dst, snd e) else e)
                  (remove dst fs))
        end
  | _ => raise OSError
  end.

(** The bytes [open(p, "rb")] gives access to. *)
Definition read (p : string) (fs : t) : result string :=
  match lookup p fs with
  | Some (File c) => ok c
  | _ => raise OSError
  end.

End Fs.

(** ** Collaborators *)

(** What a coroutine awaits: the extractor client
    ([playlist.downloader.extract_info(loop, url, download=...)]) and the
    content-length prober ([get_header(session, url, header)]). *)
Inductive request : Type :=
| ExtractInfo (url : pyval) (download : bool)
| GetHeader (url : pyval) (header : string).

Inductive response : Type :=
| Raised (e : exn)
| Returned (v : pyval).

(** Everything [entry.py] imports or is handed and does not define.
    The extractor may write files; the header probe does not.
    [md5sum content n] is [utils.md5sum(path, n)] on a file with that
    content, [int_of_str] is the builtin [int] on a string,
    [_enclose_json] is [Serializable._enclose_json], and [_bad] is
    [Serializable._bad], which gives the message of a failed assertion
    or raises. *)
Class Environment : Type := {
  extract_info : pyval -> bool -> Fs.t -> response * Fs.t;
  get_header : pyval -> string -> response;
  prepare_filename : pyval -> string;
  md5sum : string -> nat -> string;
  int_of_str : string -> option Z;
  _enclose_json : pyval -> pyval;
  _bad : string -> result pyval;
}.

(** [playlist.downloader.download_folder] and [playlist.bot.get_channel],
    the resolver of owner ids; it returns [None] for an unknown id. *)
Record Playlist : Type := {
  download_folder : string;
  bot_get_channel : pyval -> result (option Channel);
}.

(** ** Entries *)

(** The fields a subclass adds to [BasePlaylistEntry]. *)
Inductive Variant : Type :=
| UrlFields (url : pyval) (expected_filename : pyval)
| StreamFields (_url : pyval) (source_url : pyval) (direct : pyval).

Record Entry : Type := {
  playlist : Playlist;
  variant : Variant;
  title : pyval;
  duration : pyval;
  meta : list (string * pyobj);
  filename : pyval;
  _is_downloading : bool;
  _waiting_futures : list nat;
}.

Definition with_filename (v : pyval) (e : Entry) : Entry :=
  {| playlist := playlist e; variant := variant e; title := title e;
     duration := duration e; meta := meta e; filename := v;
     _is_downloading := _is_downloading e;
     _waiting_futures := _waiting_futures e |}.

Definition with_is_downloading (b : bool) (e : Entry) : Entry :=
  {| playlist := playlist e; variant := variant e; title := title e;
     duration := duration e; meta := meta e; filename := filename e;
     _is_downloading := b;
     _waiting_futures := _waiting_futures e |}.

Definition with_waiting_futures (l : list nat) (e : Entry) : Entry :=
  {| playlist := playlist e; variant := variant e; title := title e;
     duration := duration e; meta := meta e; filename := filename e;
     _is_downloading := _is_downloading e;
     _waiting_futures := l |}.

(** ** Futures, the log and the world *)

(** An [asyncio.Future]: a result is a reference to an entry. *)
Inductive Future : Type :=
| FPending
| FCancelled
| FResult (entry : nat)
| FException (e : exn).

Inductive level : Type := INFO | DEBUG | ERROR | CRITICAL.

(** What the program leaves behind: log records (the format string, its
    arguments and [exc_info]), tracebacks printed by
    [traceback.print_exc], and the calls made to collaborators. *)
Inductive event : Type :=
| Log (lvl : level) (msg : string) (args : list pyval) (exc_info : option exn)
| PrintExc (e : exn)
| Call (req : request).

(** A coroutine object handed to [asyncio.ensure_future]. *)
Inductive coroutine : Type :=
| Download (entry : nat).

(** The state one entry lives in.  [self] is the entry object and
    [self_id] its identity; [futures] is the heap of futures, a future
    being named by its index; [scheduled] holds the coroutines given to
    the event loop and not started yet. *)
Record World : Type := {
  self_id : nat;
  self : Entry;
  futures : list Future;
  scheduled : list coroutine;
  fs : Fs.t;
  log : list event;
}.

Definition with_self (e : Entry) (w : World) : World :=
  {| self_id := self_id w; self := e; futures := futures w;
     scheduled := scheduled w; fs := fs w; log := log w |}.

Definition with_futures (l : list Future) (w : World) : World :=
  {| self_id := self_id w; self := self w; futures := l;
     scheduled := scheduled w; fs := fs w; log := log w |}.

Definition with_scheduled (l : list coroutine) (w : World) : World :=
  {| self_id := self_id w; self := self w; futures := futures w;
     scheduled := l; fs := fs w; log := log w |}.

Definition with_fs (f : Fs.t) (w : World) : World :=
  {| self_id := self_id w; self := self w; futures := futures w;
     scheduled := scheduled w; fs := f; log := log w |}.

Definition with_log (l : list event) (w : World) : World :=
  {| self_id := self_id w; self := self w; futures := futures w;
     scheduled := scheduled w; fs := fs w; log := l |}.

Definition emit (ev : event) (w : World) : World :=
  with_log (log w ++ [ev])%list w.

(** ** Coroutines *)

(** A computation either finishes, with a value or an exception, or is
    suspended at an [await]: it resumes with the collaborator's answer
    in the world as it is then. *)
Inductive res (A : Type) : Type :=
| Done (r : result A) (w : World)
| Susp (req : request) (w : World) (k : response -> World -> res A).

Arguments Done {A} r w.
Arguments Susp {A} req w k.

Definition coro (A : Type) : Type := World -> res A.

Module Coro.

Definition ret {A} (a : A) : coro A := fun w => Done (ok a) w.

Definition throw {A} (e : exn) : coro A := fun w => Done (raise e) w.

Fixpoint bind_res {A B} (r : res A) (f : A -> coro B) : res B :=
  match r with
  | Done (inr a) w => f a w
  | Done (inl e) w => Done (inl e) w
  | Susp req w k => Susp req w (fun resp w' => bind_res (k resp w') f)
  end.

Definition bind {A B} (m : coro A) (f : A -> coro B) : coro B :=
  fun w => bind_res (m w) f.

(** [try: m except <classes sel>: h]. *)
Fixpoint catch_res {A} (r : res A) (sel : exn -> bool) (h : exn -> coro A) : res A :=
  match r with
  | Done (inl e) w => if sel e then h e w else Done (inl e) w
  | Done (inr a) w => Done (inr a) w
  | Susp req w k => Susp req w (fun resp w' => catch_res (k resp w') sel h)
  end.

Definition try_except {A} (m : coro A) (sel : exn -> bool) (h : exn -> coro A)
  : coro A :=
  fun w => catch_res (m w) sel h.

(** [try: m finally: fin]; [fin] does not await. *)
Fixpoint finally_res {A} (r : res A) (fin : World -> World) : res A :=
  match r with
  | Done x w => Done x (fin w)
  | Susp req w k => Susp req w (fun resp w' => finally_res (k resp w') fin)
  end.

Definition try_finally {A} (m : coro A) (fin : World -> World) : coro A :=
  fun w => finally_res (m w) fin.

Definition of_result {A} (r : result A) : coro A := fun w => Done r w.

Definition gets {A} (f : World -> A) : coro A := fun w => Done (ok (f w)) w.

Definition modify (f : World -> World) : coro unit := fun w => Done (ok tt) (f w).

(** [await] of a collaborator: the call is recorded, the coroutine
    is suspended, and the answer is the value of the expression or
    the exception it raises. *)
Definition await (req : request) : coro pyval :=
  fun w =>
    Susp req (emit (Call req) w)
      (fun resp w' =>
         match resp with
         | Raised e => Done (raise e) w'
         | Returned v => Done (ok v) w'
         end).

End Coro.

Declare Scope coro_scope.
Delimit Scope coro_scope with coro.
Notation "x <- m ;; k" := (Coro.bind m (fun x => k))
  (at level 100, m at next level, right associativity) : coro_scope.
Notation "m ;; k" := (Coro.bind m (fun _ => k))
  (at level 100, right associativity) : coro_scope.

Declare Scope result_scope.
Delimit Scope result_scope with result.
Notation "x <- m ;; k" := (rbind m (fun x => k))
  (at level 100, m at next level, right associativity) : result_scope.
Notation "m ;; k" := (rbind m (fun _ => k))
  (at level 100, right associativity) : result_scope.

(** ** Running a coroutine to completion *)

Section Run.
Context `{Environment}.

(** How the collaborators answer a request, and what they do to the
    file system meanwhile. *)
Definition answer (req : request) (f : Fs.t) : response * Fs.t :=
  match req with
  | ExtractInfo u d => extract_info u d f
  | GetHeader u h => (get_header u h, f)
  end.

(** The coroutine alone on the loop: every [await] is answered at
    once. *)
Fixpoint run_res {A} (r : res A) : result A * World :=
  match r with
  | Done x w => (x, w)
  | Susp req w k =>
      let '(resp, f) := answer req (fs w) in
      run_res (k resp (with_fs f w))
  end.

Definition run {A} (m : coro A) (w : World) : result A * World :=
  run_res (m w).

End Run.

(** ** Statements shared by the entry classes *)

Module Stmt.

Definition set_filename (v : pyval) : coro unit :=
  Coro.modify (fun w => with_self (with_filename v (self w)) w).

Definition set_is_downloading (b : bool) (w : World) : World :=
  with_self (with_is_downloading b (self w)) w.

Definition logging (lvl : level) (msg : string) (args : list pyval) : coro unit :=
  Coro.modify (emit (Log lvl msg args None)).

Definition on_fs {A} (f : Fs.t -> result A) : coro A :=
  fun w => Done (f (fs w)) w.

Definition change_fs (f : Fs.t -> result Fs.t) : coro unit :=
  fun w =>
    match f (fs w) with
    | inl e => Done (raise e) w
    | inr f' => Done (ok tt) (with_fs f' w)
    end.

Definition os_path_exists (p : string) : coro bool :=
  Coro.gets (fun w => Fs.exists_ p (fs w)).

Definition os_path_isfile (p : string) : coro bool :=
  Coro.gets (fun w => Fs.isfile p (fs w)).

Definition os_makedirs (p : string) : coro unit := change_fs (Fs.makedirs p).
Definition os_listdir (p : string) : coro (list string) := on_fs (Fs.listdir p).
Definition os_path_getsize (p : string) : coro Z := on_fs (Fs.getsize p).
Definition os_unlink (p : string) : coro unit := change_fs (Fs.unlink p).
Definition os_rename (src dst : string) : coro unit := change_fs (Fs.rename src dst).

End Stmt.

(** ** [asyncio.Future] *)

Module Fut.

(** [future.cancelled()]. *)
Definition cancelled (f : nat) (w : World) : bool :=
  match futures w !! f with
  | Some FCancelled => true
  | _ => false
  end.

(** A method of the future [f] that changes its state and may raise.
    A name that denotes no future does not occur in a program. *)
Definition update (act : Future -> result unit * Future) (f : nat) (w : World)
  : result unit * World :=
  match futures w !! f with
  | Some s =>
      let '(r, s') := act s in
      (r, with_futures (<[f := s']> (futures w)) w)
  | None => (raise InvalidStateError, w)
  end.

(** Resolving a future that is already done (resolved or cancelled)
    raises [InvalidStateError]. *)
Definition resolving (v : Future) (s : Future) : result unit * Future :=
  match s with
  | FPending => (ok tt, v)
  | _ => (raise InvalidStateError, s)
  end.

(** [future.set_result(entry)] and [future.set_exception(e)]. *)
Definition set_result (entry : nat) : nat -> World -> result unit * World :=
  update (resolving (FResult entry)).

Definition set_exception (e : exn) : nat -> World -> result unit * World :=
  update (resolving (FException e)).

(** [future.cancel()], which a consumer may call on its handle. *)
Definition cancel (f : nat) (w : World) : World :=
  match futures w !! f with
  | Some FPending => with_futures (<[f := FCancelled]> (futures w)) w
  | _ => w
  end.

(** [asyncio.Future()]. *)
Definition create (w : World) : nat * World :=
  (length (futures w), with_futures (futures w ++ [FPending])%list w).

End Fut.

(** ** [BasePlaylistEntry] *)

Module BasePlaylistEntry.

Definition __init__ (pl : Playlist) (v : Variant) (title duration : pyval)
    (meta : list (string * pyobj)) : Entry :=
  {| playlist := pl; variant := v; title := title; duration := duration;
     meta := meta; filename := VNone; _is_downloading := false;
     _waiting_futures := [] |}.

Definition is_downloaded (e : Entry) : bool :=
  if _is_downloading e then false else Py.truthy (filename e).

(** [get_ready_future]: the new future, resolved with the entry when
    the entry is downloaded; otherwise [_download()] is handed to
    [asyncio.ensure_future] and the future joins the waiting ones. *)
Definition get_ready_future (w : World) : result nat * World :=
  let '(future, w1) := Fut.create w in
  if is_downloaded (self w1) then
    match Fut.set_result (self_id w1) future w1 with
    | (inl e, w2) => (raise e, w2)
    | (inr _, w2) => (ok future, w2)
    end
  else
    let w2 := with_scheduled (scheduled w1 ++ [Download (self_id w1)])%list w1 in
    let w3 :=
      with_self (with_waiting_futures (_waiting_futures (self w2) ++ [future])%list
                   (self w2)) w2 in
    (ok future, w3).

(** The loop of [_for_each_future]: a cancelled future is skipped,
    whatever the callback raises is printed and dropped. *)
Fixpoint notify (cb : nat -> World -> result unit * World)
    (futs : list nat) (w : World) : World :=
  match futs with
  | [] => w
  | future :: rest =>
      if Fut.cancelled future w then notify cb rest w
      else
        match cb future w with
        | (inl e, w') => notify cb rest (emit (PrintExc e) w')
        | (inr _, w') => notify cb rest w'
        end
  end.

Definition _for_each_future (cb : nat -> World -> result unit * World)
    (w : World) : World :=
  let futs := _waiting_futures (self w) in
  let w1 := with_self (with_waiting_futures [] (self w)) w in
  notify cb futs w1.

End BasePlaylistEntry.

(** ** [URLPlaylistEntry] *)

Module URLPlaylistEntry.

Definition __init__ (pl : Playlist) (url title duration expected_filename : pyval)
    (meta : list (string * pyobj)) : Entry :=
  BasePlaylistEntry.__init__ pl (UrlFields url expected_filename) title duration meta.

Local Open Scope result_scope.

(** The owner of [key] as the record names it: the [id] stored under
    [data['meta'][key]]. *)
Definition stored_id (data : pyval) (key : string) : result pyval :=
  m <- Py.getitem data "meta" ;;
  o <- Py.getitem m key ;;
  Py.getitem o "id".

Definition of_lookup {A} (inj : A -> pyobj) (r : option A) : pyobj :=
  match r with
  | Some a => inj a
  | None => OVal VNone
  end.

(** [meta['author'] = meta['channel'].server.get_member(data['meta']['author']['id'])]:
    the callee is evaluated before its argument. *)
Definition resolve_author (data : pyval) (meta : list (string * pyobj))
  : result (list (string * pyobj)) :=
  ch <- Obj.meta_item meta "channel" ;;
  match ch with
  | OChannel c =>
      id <- stored_id data "author" ;;
      r <- server_get_member c id ;;
      ok (Obj.meta_set "author" (of_lookup OMember r) meta)
  | _ => raise AttributeError
  end.

(** The body of the [try] of [_deserialize]. *)
Definition load (data : pyval) (pl : Playlist) : result Entry :=
  url <- Py.getitem data "url" ;;
  title <- Py.getitem data "title" ;;
  duration <- Py.getitem data "duration" ;;
  downloaded <- Py.getitem data "downloaded" ;;
  filename <- (if Py.truthy downloaded then Py.getitem data "filename" else ok VNone) ;;
  expected_filename <- Py.getitem data "expected_filename" ;;
  let meta := [] in
  m <- Py.getitem data "meta" ;;
  has_channel <- Py.contains "channel" m ;;
  meta <- (if has_channel : bool then
             id <- stored_id data "channel" ;;
             r <- bot_get_channel pl id ;;
             ok (Obj.meta_set "channel" (of_lookup OChannel r) meta)
           else ok meta) ;;
  m <- Py.getitem data "meta" ;;
  has_author <- Py.contains "author" m ;;
  meta <- (if has_author : bool then resolve_author data meta else ok meta) ;;
  let entry := __init__ pl url title duration expected_filename meta in
  let entry := with_filename filename entry in
  let entry := with_is_downloading false entry in
  ok entry.

Section Deserialize.
Context `{Environment}.

(** [assert playlist is not None, cls._bad('playlist')]: the message
    is evaluated when the assertion fails, and what it raises leaves
    in place of the [AssertionError]. *)
Definition assert_playlist {A} : result A :=
  match _bad "playlist" with
  | inl e => raise e
  | inr _ => raise AssertionError
  end.

(** [_deserialize(data, playlist)]: the entry, or [None] after logging
    what went wrong; the records logged come second.  An exception
    that [except Exception] does not catch leaves the method. *)
Definition _deserialize (data : pyval) (pl : option Playlist)
  : result (option Entry) * list event :=
  match pl with
  | None => (assert_playlist, [])
  | Some pl =>
      match load data pl with
      | inr entry => (ok (Some entry), [])
      | inl e =>
          if is_Exception e then
            (ok None,
             [Log ERROR "Could not load {}" [VStr "URLPlaylistEntry"] (Some e)])
          else (raise e, [])
      end
  end.

End Deserialize.

(** The [meta] block of a record: type, id and name of each owner. *)
Fixpoint meta_json (meta : list (string * pyobj)) : result (list (string * pyval)) :=
  match meta with
  | [] => ok []
  | (name, obj) :: rest =>
      id <- Obj.id obj ;;
      nm <- Obj.name obj ;;
      tl <- meta_json rest ;;
      ok ((name, VDict [("type", VStr (Obj.class_name obj)); ("id", id); ("name", nm)])
            :: tl)
  end.

(** The dictionary [__json__] gives to [_enclose_json]. *)
Definition json_data (url expected_filename : pyval) (e : Entry) : result pyval :=
  m <- meta_json (meta e) ;;
  ok (VDict [("version", VInt 1);
             ("url", url);
             ("title", title e);
             ("duration", duration e);
             ("downloaded", VBool (BasePlaylistEntry.is_downloaded e));
             ("expected_filename", expected_filename);
             ("filename", filename e);
             ("meta", VDict m)]).

Section WithEnvironment.
Context `{Environment}.

Definition __json__ (url expected_filename : pyval) (e : Entry) : result pyval :=
  d <- json_data url expected_filename e ;;
  ok (_enclose_json d).

(** [int(v)]. *)
Definition int (v : pyval) : result Z :=
  match v with
  | VInt z => ok z
  | VBool b => ok (if b then 1 else 0)%Z
  | VStr s =>
      match int_of_str s with
      | Some z => ok z
      | None => raise ValueError
      end
  | _ => raise TypeError
  end.

(** [md5sum(path, n)]: it opens and reads the file. *)
Definition md5sum_of (path : string) (n : nat) : coro string :=
  Stmt.on_fs (fun f => c <- Fs.read path f ;; ok (md5sum c n)).

Local Open Scope coro_scope.

Definition _really_download (url : pyval) (hash : bool) : coro unit :=
  Stmt.logging INFO "Download started: {}" [url] ;;
  result <- Coro.try_except (Coro.await (ExtractInfo url true)) is_Exception
              (fun e => Coro.throw (ExtractionError e)) ;;
  Stmt.logging INFO "Download complete: {}" [url] ;;
  match result with
  | VNone =>
      Stmt.logging CRITICAL "YTDL has failed, everyone panic" [] ;;
      Coro.throw (ExtractionErrorMsg "ytdl broke and hell if I know why")
  | _ =>
      let unhashed_fname := prepare_filename result in
      Stmt.set_filename (VStr unhashed_fname) ;;
      if hash then
        h <- md5sum_of unhashed_fname 8 ;;
        let fname :=
          PyStr.join (PyStr.join h (PyStr.chars "-."))
            (PyStr.rsplit1 "."%char unhashed_fname) in
        Stmt.set_filename (VStr fname) ;;
        isfile <- Stmt.os_path_isfile fname ;;
        if isfile : bool then Stmt.os_unlink unhashed_fname
        else Stmt.os_rename unhashed_fname fname
      else Coro.ret tt
  end.

(** The branch of the generic extractor. *)
Definition generic_branch (url : pyval) (folder expected : string) : coro unit :=
  names <- Stmt.os_listdir folder ;;
  let flistdir := map (fun f => PyStr.first (PyStr.rsplit1 "-"%char f)) names in
  parts <- Coro.of_result (Py.unpack2 (PyStr.rsplit1 "."%char (OsPath.basename expected))) ;;
  let expected_fname_noex := fst parts in
  if PyStr.mem expected_fname_noex flistdir then
    rsize <- Coro.try_except
               (h <- Coro.await (GetHeader url "CONTENT-LENGTH") ;;
                Coro.of_result (int h))
               (fun _ => true)
               (fun _ => Coro.ret 0%Z) ;;
    names' <- Stmt.os_listdir folder ;;
    i <- Coro.of_result (match PyStr.index expected_fname_noex flistdir with
                         | Some i => ok i
                         | None => raise ValueError
                         end) ;;
    name <- Coro.of_result (Py.list_item names' i) ;;
    let lfile := OsPath.join folder name in
    lsize <- Stmt.os_path_getsize lfile ;;
    if negb (lsize =? rsize)%Z then _really_download url true
    else Stmt.set_filename (VStr lfile)
  else _really_download url true.

(** The branch of every other extractor. *)
Definition named_branch (url : pyval) (folder expected : string) : coro unit :=
  ldir <- Stmt.os_listdir folder ;;
  let flistdir := map (fun f => PyStr.first (PyStr.rsplit1 "."%char f)) ldir in
  let expected_fname_base := OsPath.basename expected in
  let expected_fname_noex := PyStr.first (PyStr.rsplit1 "."%char expected_fname_base) in
  if PyStr.mem expected_fname_base ldir then
    Stmt.set_filename (VStr (OsPath.join folder expected_fname_base)) ;;
    Stmt.logging INFO "Download cached: {}" [url]
  else if PyStr.mem expected_fname_noex flistdir then
    Stmt.logging INFO "Download cached (different extension): {}" [url] ;;
    i <- Coro.of_result (match PyStr.index expected_fname_noex flistdir with
                         | Some i => ok i
                         | None => raise ValueError
                         end) ;;
    name <- Coro.of_result (Py.list_item ldir i) ;;
    let fname := OsPath.join folder name in
    Stmt.set_filename (VStr fname) ;;
    Stmt.logging DEBUG "Expected {}, got {}"
      [VStr (PyStr.final (PyStr.rsplit1 "."%char expected));
       VStr (PyStr.final (PyStr.rsplit1 "."%char fname))]
  else _really_download url false.

(** The statements of the [try] of [_download], up to the ready
    callbacks. *)
Definition fetch_or_reuse (url expected_filename : pyval) : coro unit :=
  folder <- Coro.gets (fun w => download_folder (playlist (self w))) ;;
  present <- Stmt.os_path_exists folder ;;
  (if present : bool then Coro.ret tt else Stmt.os_makedirs folder) ;;
  expected <- Coro.of_result (Py.as_str expected_filename) ;;
  let extractor := PyStr.first (PyStr.split "-"%char (OsPath.basename expected)) in
  if PyStr.eqb extractor "generic" then generic_branch url folder expected
  else named_branch url folder expected.

Definition trigger_ready : coro unit :=
  Coro.modify (fun w =>
    BasePlaylistEntry._for_each_future (Fut.set_result (self_id w)) w).

Definition trigger_failed (e : exn) : coro unit :=
  Coro.modify (fun w =>
    BasePlaylistEntry._for_each_future (Fut.set_exception e)
      (emit (PrintExc e) w)).

Definition _download (url expected_filename : pyval) : coro unit :=
  downloading <- Coro.gets (fun w => _is_downloading (self w)) ;;
  if downloading : bool then Coro.ret tt
  else
    Coro.modify (Stmt.set_is_downloading true) ;;
    Coro.try_finally
      (Coro.try_except
         (fetch_or_reuse url expected_filename ;; trigger_ready)
         is_Exception
         trigger_failed)
      (Stmt.set_is_downloading false).

End WithEnvironment.

End URLPlaylistEntry.

(** ** [StreamPlaylistEntry] *)

Module StreamPlaylistEntry.

Definition __init__ (pl : Playlist) (url title direct source_url : pyval)
    (meta : list (string * pyobj)) : Entry :=
  let e := BasePlaylistEntry.__init__ pl (StreamFields url source_url direct)
             title (VInt 0) meta in
  if Py.truthy direct then with_filename url e else e.

(** The [url] property: [self.source_url or self._url]. *)
Definition url (_url source_url : pyval) : pyval :=
  if Py.truthy source_url then source_url else _url.

Local Open Scope result_scope.

(** [ch or data['meta']['channel']['name']]. *)
Definition channel_or_name (data : pyval) (r : option Channel) : result pyobj :=
  match r with
  | Some c => ok (OChannel c)
  | None =>
      m <- Py.getitem data "meta" ;;
      o <- Py.getitem m "channel" ;;
      n <- Py.getitem o "name" ;;
      ok (OVal n)
  end.

Definition load (data : pyval) (pl : Playlist) : result Entry :=
  url <- Py.getitem data "url" ;;
  title <- Py.getitem data "title" ;;
  direct <- Py.getitem data "direct" ;;
  let meta := [] in
  m <- Py.getitem data "meta" ;;
  has_channel <- Py.contains "channel" m ;;
  meta <- (if has_channel : bool then
             id <- URLPlaylistEntry.stored_id data "channel" ;;
             ch <- bot_get_channel pl id ;;
             v <- channel_or_name data ch ;;
             ok (Obj.meta_set "channel" v meta)
           else ok meta) ;;
  m <- Py.getitem data "meta" ;;
  has_author <- Py.contains "author" m ;;
  meta <- (if has_author : bool then URLPlaylistEntry.resolve_author data meta
           else ok meta) ;;
  ok (__init__ pl url title direct VNone meta).

Section Deserialize.
Context `{Environment}.

Definition _deserialize (data : pyval) (pl : option Playlist)
  : result (option Entry) * list event :=
  match pl with
  | None => (URLPlaylistEntry.assert_playlist, [])
  | Some pl =>
      match load data pl with
      | inr entry => (ok (Some entry), [])
      | inl e =>
          if is_Exception e then
            (ok None,
             [Log ERROR "Could not load {}" [VStr "StreamPlaylistEntry"] (Some e)])
          else (raise e, [])
      end
  end.

End Deserialize.

Definition json_data (_url direct : pyval) (e : Entry) : result pyval :=
  m <- URLPlaylistEntry.meta_json (meta e) ;;
  ok (VDict [("version", VInt 1);
             ("url", _url);
             ("title", title e);
             ("direct", direct);
             ("meta", VDict m)]).

Section WithEnvironment.
Context `{Environment}.

Definition __json__ (_url direct : pyval) (e : Entry) : result pyval :=
  d <- json_data _url direct e ;;
  ok (_enclose_json d).

Local Open Scope coro_scope.

Definition _download (_url : pyval) : coro unit :=
  Coro.modify (Stmt.set_is_downloading true) ;;
  Coro.try_finally
    (result <- Coro.try_except (Coro.await (ExtractInfo _url false)) is_Exception
                 (fun e => Coro.throw (ExtractionError e)) ;;
     u <- Coro.of_result (Py.getitem result "url") ;;
     Stmt.set_filename u)
    (Stmt.set_is_downloading false).

End WithEnvironment.

End StreamPlaylistEntry.

(** ** Dispatch on the class of the entry *)

Section Dispatch.
Context `{Environment}.

(** [self._download()]. *)
Definition _download : coro unit :=
  fun w =>
    match variant (self w) with
    | UrlFields url expected_filename =>
        URLPlaylistEntry._download url expected_filename w
    | StreamFields _url _ _ => StreamPlaylistEntry._download _url w
    end.

(** [entry.__json__()]. *)
Definition __json__ (e : Entry) : result pyval :=
  match variant e with
  | UrlFields url expected_filename =>
      URLPlaylistEntry.__json__ url expected_filename e
  | StreamFields _url _ direct => StreamPlaylistEntry.__json__ _url direct e
  end.

(** The dictionary inside the enclosure. *)
Definition json_data (e : Entry) : result pyval :=
  match variant e with
  | UrlFields url expected_filename =>
      URLPlaylistEntry.json_data url expected_filename e
  | StreamFields _url _ direct => StreamPlaylistEntry.json_data _url direct e
  end.

End Dispatch.

(** ** The event loop *)

(** The loop holds the callbacks that are ready to run, in the order in
    which they became ready, and the coroutines suspended at an
    [await]. *)
Record Loop : Type := {
  world : World;
  ready : list (coro unit);
  blocked : list (request * (response -> coro unit));
  finished : list (result unit);
}.

Inductive action : Type :=
| RunNext                      (* the loop runs the first ready callback *)
| Complete (i : nat)           (* the i-th awaited call completes *)
| RequestReady                 (* a consumer calls get_ready_future *)
| CancelFuture (f : nat).      (* a consumer cancels its handle *)

Section EventLoop.
Context `{Environment}.

Definition start (c : coroutine) : coro unit :=
  match c with
  | Download _ => _download
  end.

(** Coroutines given to [ensure_future] join the ready queue. *)
Definition collect (l : Loop) : Loop :=
  {| world := with_scheduled [] (world l);
     ready := (ready l ++ map start (scheduled (world l)))%list;
     blocked := blocked l;
     finished := finished l |}.

Definition settle (l : Loop) (rest : list (coro unit)) (r : res unit) : Loop :=
  match r with
  | Done x w =>
      collect {| world := w; ready := rest; blocked := blocked l;
                 finished := (finished l ++ [x])%list |}
  | Susp req w k =>
      collect {| world := w; ready := rest;
                 blocked := (blocked l ++ [(req, k)])%list;
                 finished := finished l |}
  end.

Definition step (a : action) (l : Loop) : Loop :=
  match a with
  | RunNext =>
      match ready l with
      | [] => l
      | c :: rest => settle l rest (c (world l))
      end
  | Complete i =>
      match blocked l !! i with
      | None => l
      | Some (req, k) =>
          let '(resp, f) := answer req (fs (world l)) in
          {| world := with_fs f (world l);
             ready := (ready l ++ [k resp])%list;
             blocked := delete i (blocked l);
             finished := finished l |}
      end
  | RequestReady =>
      let '(_, w) := BasePlaylistEntry.get_ready_future (world l) in
      collect {| world := w; ready := ready l; blocked := blocked l;
                 finished := finished l |}
  | CancelFuture f =>
      {| world := Fut.cancel f (world l); ready := ready l;
         blocked := blocked l; finished := finished l |}
  end.

Definition exec (schedule : list action) (l : Loop) : Loop :=
  fold_left (fun l a => step a l) schedule l.

Definition idle (w : World) : Loop :=
  {| world := w; ready := []; blocked := []; finished := [] |}.

(** The number of calls of the extractor in a log. *)
Definition is_extract (ev : event) : bool :=
  match ev with
  | Call (ExtractInfo _ _) => true
  | _ => false
  end.

Definition extract_calls (w : World) : nat :=
  length (List.filter is_extract (log w)).

Definition is_fetch (ev : event) : bool :=
  match ev with
  | Call (ExtractInfo _ true) => true
  | _ => false
  end.

Definition fetch_calls (w : World) : nat :=
  length (List.filter is_fetch (log w)).

End EventLoop.

(** ** A small playlist to run the definitions on *)

Module Demo.

(** A stand-in for the digest: the length of the content, as eight
    characters. *)
Definition md5sum (content : string) (n : nat) : string :=
  match String.length content with
  | 5%nat => "0000005a"
  | _ => "0a1b2c3d"
  end.

Definition int_of_str (s : string) : option Z :=
  if PyStr.eqb s "5" then Some 5%Z
  else if PyStr.eqb s "7" then Some 7%Z
  else None.

(** The extractor: it knows one track and one live stream; asked to
    download, it writes the track where [prepare_filename] says.  For
    [ghost] it reports a result and writes nothing; for [none] it
    returns [None]; anything else makes it raise. *)
Definition extract_info (url : pyval) (download : bool) (f : Fs.t) : response * Fs.t :=
  match url with
  | VStr "http://host/track.mp3" =>
      (Returned (VDict [("url", VStr "http://host/track.mp3");
                        ("id", VStr "track")]),
       if download then (f ++ [("audio_cache/generic-track.mp3", Fs.File "hello")])%list
       else f)
  | VStr "http://host/live" =>
      (Returned (VDict [("url", VStr "http://cdn/live.m3u8")]), f)
  | VStr "http://host/none" => (Returned VNone, f)
  | VStr "http://host/ghost" => (Returned (VDict [("id", VStr "ghost")]), f)
  | _ => (Raised (Foreign "DownloadError" true), f)
  end.

Definition get_header (url : pyval) (header : string) : response :=
  match url with
  | VStr "http://host/track.mp3" => Returned (VStr "5")
  | _ => Raised (Foreign "TimeoutError" true)
  end.

Definition prepare_filename (result : pyval) : string :=
  "audio_cache/generic-track.mp3".

Definition _enclose_json (d : pyval) : pyval :=
  VDict [("__class__", VStr "Entry"); ("data", d)].

(** A [_bad] that raises for every argument. *)
Definition _bad (arg : string) : result pyval := raise TypeError.

Definition env : Environment :=
  Build_Environment extract_info get_header prepare_filename md5sum int_of_str
    _enclose_json _bad.

Definition alice : Member := {| member_id := "m1"; member_name := "alice" |}.

Definition lounge : Channel :=
  {| channel_id := "c1"; channel_name := "lounge";
     server_get_member := fun id =>
       match id with
       | VStr "m1" => ok (Some alice)
       | _ => ok None
       end |}.

Definition playlist : Playlist :=
  {| download_folder := "audio_cache";
     bot_get_channel := fun id =>
       match id with
       | VStr "c1" => ok (Some lounge)
       | _ => ok None
       end |}.

Definition owners : list (string * pyobj) :=
  [("channel", OChannel lounge); ("author", OMember alice)].

(** Entries: a track of the generic extractor, a track of a named
    extractor, a live stream. *)
Definition generic_track : Entry :=
  URLPlaylistEntry.__init__ playlist (VStr "http://host/track.mp3") (VStr "Track")
    (VInt 180) (VStr "audio_cache/generic-track.mp3") owners.

Definition named_track : Entry :=
  URLPlaylistEntry.__init__ playlist (VStr "http://host/track.mp3") (VStr "Track")
    (VInt 180) (VStr "audio_cache/youtube-track.m4a") owners.

Definition ghost_track : Entry :=
  URLPlaylistEntry.__init__ playlist (VStr "http://host/ghost") (VStr "Ghost")
    (VInt 0) (VStr "audio_cache/generic-ghost.mp3") [].

Definition gone_track : Entry :=
  URLPlaylistEntry.__init__ playlist (VStr "http://host/gone") (VStr "Gone")
    (VInt 0) (VStr "audio_cache/generic-gone.mp3") [].

Definition live : Entry :=
  StreamPlaylistEntry.__init__ playlist (VStr "http://host/live") (VStr "Live")
    (VBool false) VNone owners.

Definition in_world (e : Entry) (futs : list Future) (f : Fs.t) : World :=
  {| self_id := 7; self := e; futures := futs; scheduled := []; fs := f; log := [] |}.

Definition empty_cache : Fs.t := [("audio_cache", Fs.Dir 4096)].

Definition cache : Fs.t :=
  [("audio_cache", Fs.Dir 4096);
   ("audio_cache/generic-track-0000005a.mp3", Fs.File "hello");
   ("audio_cache/youtube-track.webm", Fs.File "opus data");
   ("audio_cache/youtube-other.m4a", Fs.File "aac data")].

(** Records: one whose channel the resolver does not know, and one
    that names an author as well. *)
Definition owner (type id name : string) : pyval :=
  VDict [("type", VStr type); ("id", VStr id); ("name", VStr name)].

Definition url_record (meta : list (string * pyval)) : list (string * pyval) :=
  [("version", VInt 1); ("url", VStr "http://host/track.mp3");
   ("title", VStr "Track"); ("duration", VInt 180); ("downloaded", VBool false);
   ("expected_filename", VStr "audio_cache/generic-track.mp3");
   ("filename", VNone); ("meta", VDict meta)].

Definition stream_record (meta : list (string * pyval)) : list (string * pyval) :=
  [("version", VInt 1); ("url", VStr "http://host/live");
   ("title", VStr "Live"); ("direct", VBool false); ("meta", VDict meta)].

Definition known : list (string * pyval) :=
  [("channel", owner "Channel" "c1" "lounge"); ("author", owner "Member" "m1" "alice")].

Definition unknown_channel : list (string * pyval) :=
  [("channel", owner "Channel" "c404" "gone")].

Definition unknown_author : list (string * pyval) :=
  [("channel", owner "Channel" "c1" "lounge"); ("author", owner "Member" "m404" "bob")].

Definition author_of_unknown_channel : list (string * pyval) :=
  [("channel", owner "Channel" "c404" "gone"); ("author", owner "Member" "m1" "alice")].

End Demo.

(** ** An extractor whose files have no extension *)

Module Plain.

(** The output template of this extractor has no extension: the track
    is written to a name without a dot. *)
Definition prepare_filename (result : pyval) : string :=
  "audio_cache/generic-track".

Definition extract_info (url : pyval) (download : bool) (f : Fs.t) : response * Fs.t :=
  match url with
  | VStr "http://host/track" =>
      (Returned (VDict [("url", VStr "http://host/track"); ("id", VStr "track")]),
       if download then (f ++ [("audio_cache/generic-track", Fs.File "hello")])%list
       else f)
  | _ => (Raised (Foreign "DownloadError" true), f)
  end.

Definition env : Environment :=
  Build_Environment extract_info Demo.get_header prepare_filename Demo.md5sum
    Demo.int_of_str Demo._enclose_json Demo._bad.

Definition track : Entry :=
  URLPlaylistEntry.__init__ Demo.playlist (VStr "http://host/track") (VStr "Track")
    (VInt 180) (VStr "audio_cache/generic-track") [].

End Plain.

(** * Specification vocabulary *)

(** ** Futures *)

(** The tracebacks [notify] prints for the futures [futs]: one for
    every future that is not cancelled and whose callback raises. *)
Definition tracebacks (act : Future -> result unit * Future) (w : World)
    (futs : list nat) : list event :=
  omap (fun f =>
          match futures w !! f with
          | Some FCancelled => None
          | Some s =>
              match fst (act s) with
              | inl e => Some (PrintExc e)
              | inr _ => None
              end
          | None => Some (PrintExc InvalidStateError)
          end) futs.

(** The waiting futures of an entry are distinct futures of the heap. *)
Definition waiting_wf (w : World) : Prop :=
  NoDup (_waiting_futures (self w))
  /\ forall f, f ∈ _waiting_futures (self w) -> (f < length (futures w))%nat.

(** The state a waiting future is left in by a callback that resolves
    it with [outcome]. *)
Definition resolved_with (outcome : Future) (w w' : World) : Prop :=
  _waiting_futures (self w') = []
  /\ (forall f, f ∈ _waiting_futures (self w) -> futures w !! f = Some FPending ->
        futures w' !! f = Some outcome)
  /\ (forall f, f ∈ _waiting_futures (self w) -> futures w !! f = Some FCancelled ->
        futures w' !! f = Some FCancelled)
  /\ (forall f, f ∉ _waiting_futures (self w) -> futures w' !! f = futures w !! f).

(** ** The cache *)

Section RemoteSizeDef.
Context `{Environment}.


End RemoteSizeDef.

(** ** Persistence *)

(** The record of one owner in the [meta] block. *)
Definition owner_json (o : pyobj) (i n : pyval) : pyval :=
  VDict [("type", VStr (Obj.class_name o)); ("id", i); ("name", n)].

(** The resolver finds every owner a record of [meta] names: the
    channel by its id, and the author by its id in the server of that
    channel. *)
Definition owners_resolve (pl : Playlist) (meta : list (string * pyobj)) : Prop :=
  (forall o, Obj.meta_get "channel" meta = Some o ->
     exists i c, Obj.id o = ok i /\ bot_get_channel pl i = ok (Some c))
  /\ (forall a, Obj.meta_get "author" meta = Some a ->
       exists o i c ia m,
         Obj.meta_get "channel" meta = Some o
         /\ Obj.id o = ok i
         /\ bot_get_channel pl i = ok (Some c)
         /\ Obj.id a = ok ia
         /\ server_get_member c ia = ok (Some m)).

(** Modelled from the spec: the loop that reads a batch of records,
    which [entry.py] does not contain.  A record for which
    [_deserialize] returns [None] is dropped and the rest of the batch
    continues. *)
Fixpoint load_batch
    (deserialize : pyval -> option Playlist -> result (option Entry) * list event)
    (pl : Playlist) (records : list pyval) : result (list Entry) :=
  match records with
  | [] => ok []
  | d :: rest =>
      match fst (deserialize d (Some pl)) with
      | inl e => raise e
      | inr o =>
          match load_batch deserialize pl rest with
          | inl e => raise e
          | inr l => ok (match o with Some x => x :: l | None => l end)
          end
      end
  end.

Section DeserializerDef.
Context `{Environment}.

(** [_deserialize] and the name of the class, by variant. *)
Definition deserializer (stream : bool)
  : pyval -> option Playlist -> result (option Entry) * list event :=
  if stream then StreamPlaylistEntry._deserialize else URLPlaylistEntry._deserialize.

End DeserializerDef.

Definition class_of (stream : bool) : string :=
  if stream then "StreamPlaylistEntry" else "URLPlaylistEntry".

(** The fields [_deserialize] reads from every record. *)
Definition required_fields (stream : bool) : list string :=
  if stream then ["url"; "title"; "direct"; "meta"]
  else ["url"; "title"; "duration"; "downloaded"; "expected_filename"; "meta"].

(** A required field is absent: one of [required_fields], or
    [filename] in a URL record whose [downloaded] is true. *)
Definition lacks_field (stream : bool) (d : list (string * pyval)) : Prop :=
  (exists k, k ∈ required_fields stream /\ Py.dict_get k d = None)
  \/ (stream = false
      /\ exists dl, Py.dict_get "downloaded" d = Some dl
                    /\ Py.truthy dl = true
                    /\ Py.dict_get "filename" d = None).

(** The record names an author, and its channel is absent from the
    record or unknown to the resolver. *)
Definition author_without_channel (pl : Playlist) (d : list (string * pyval)) : Prop :=
  exists m,
    Py.dict_get "meta" d = Some (VDict m)
    /\ Py.dict_get "author" m <> None
    /\ (Py.dict_get "channel" m = None
        \/ exists c i, Py.dict_get "channel" m = Some c
                       /\ Py.getitem c "id" = ok i
                       /\ bot_get_channel pl i = ok None).

Definition rejected (stream : bool) (pl : Playlist) (d : list (string * pyval)) : Prop :=
  lacks_field stream d \/ author_without_channel pl d.

(** The record has every field [_deserialize] reads, and its [meta]
    block is the dictionary [m]. *)
Definition complete_record (stream : bool) (d m : list (string * pyval)) : Prop :=
  (forall k, k ∈ required_fields stream -> Py.dict_get k d <> None)
  /\ (stream = false ->
      forall dl, Py.dict_get "downloaded" d = Some dl -> Py.truthy dl = true ->
                 Py.dict_get "filename" d <> None)
  /\ Py.dict_get "meta" d = Some (VDict m).

(** ** Properties kept along a coroutine *)

Section UntilDef.
Variables (P Q : World -> Prop).

(** [until r]: [P] holds whenever [r] is suspended and [Q] when it is
    done, as long as [P] holds whenever it is resumed. *)
Fixpoint until {A} (r : res A) : Prop :=
  match r with
  | Done _ w => Q w
  | Susp _ w k => P w /\ forall resp w', P w' -> until (k resp w')
  end.

End UntilDef.

Section KeepsDef.
Variable P : World -> Prop.

(** [P] holds whenever the coroutine is suspended or done. *)
Definition always {A} (r : res A) : Prop := until P P r.

(** A coroutine keeps [P] when it runs in a world where [P] holds and
    is resumed only in such worlds. *)
Definition keeps {A} (m : coro A) : Prop := forall w, P w -> always (m w).

End KeepsDef.

(** What [fetch_or_reuse] leaves alone. *)
Definition same_base (w w' : World) : Prop :=
  self_id w' = self_id w
  /\ futures w' = futures w
  /\ scheduled w' = scheduled w
  /\ variant (self w') = variant (self w)
  /\ _is_downloading (self w') = _is_downloading (self w)
  /\ _waiting_futures (self w') = _waiting_futures (self w).

(** ** One download at a time *)

Section FlightDef.
Context `{Environment}.
Variables (url expected_filename : pyval).

(** The entry is a URL entry whose downloading flag is [b], and the
    loop has taken over every coroutine given to it. *)
Definition holding (b : bool) (w : World) : Prop :=
  _is_downloading (self w) = b
  /\ variant (self w) = UrlFields url expected_filename
  /\ scheduled w = [].

(** A [_download] that has passed the guard: the flag is set whenever
    it is suspended and cleared when it is done. *)
Definition active_res (r : res unit) : Prop := until (holding true) (holding false) r.

(** The same of a continuation and of a callback of the loop. *)
Definition active_k (k : response -> coro unit) : Prop :=
  forall resp w, holding true w -> active_res (k resp w).

Definition active_c (c : coro unit) : Prop :=
  forall w, holding true w -> active_res (c w).

(** A [_download] that has not started. *)
Definition fresh (c : coro unit) : Prop := c = _download.

(** At most one [_download] is past the guard: none when the flag is
    clear, and exactly one, suspended or ready to resume, when it is
    set; everything else on the loop has not started. *)
Inductive single_flight (l : Loop) : Prop :=
| sf_idle :
    holding false (world l) -> Forall fresh (ready l) -> blocked l = [] ->
    single_flight l
| sf_blocked req k :
    holding true (world l) -> Forall fresh (ready l) -> blocked l = [(req, k)] ->
    active_k k -> single_flight l
| sf_ready pre c post :
    holding true (world l) -> ready l = (pre ++ c :: post)%list ->
    Forall fresh pre -> Forall fresh post -> active_c c -> blocked l = [] ->
    single_flight l.

End FlightDef.

(** ** The waiting list on the event loop *)

(** The waiting futures are distinct, and each is still pending or has
    been cancelled by its consumer. *)
Definition waiting_live (w : World) : Prop :=
  NoDup (_waiting_futures (self w))
  /\ forall f, f ∈ _waiting_futures (self w) ->
       futures w !! f = Some FPending \/ futures w !! f = Some FCancelled.

Section LoopKeepsDef.
Variable P : World -> Prop.

(** [P] holds of the world of the loop, and everything on the loop
    keeps it. *)
Definition loop_keeps (l : Loop) : Prop :=
  P (world l)
  /\ Forall (keeps P) (ready l)
  /\ Forall (fun b => forall resp, keeps P (snd b resp)) (blocked l).

End LoopKeepsDef.

(** ** Restoring the owners of an entry *)

(** The owners [_deserialize] gives the entry read from the record of
    an entry whose owners are [original]: the channel and the author
    the resolver returns for their ids, and nothing under another
    key. *)
Definition restored_owners (pl : Playlist) (original restored : list (string * pyobj))
  : Prop :=
  match Obj.meta_get "channel" original with
  | None => restored = []
  | Some o =>
      exists i c,
        Obj.id o = ok i /\ bot_get_channel pl i = ok (Some c)
        /\ match Obj.meta_get "author" original with
           | None => restored = [("channel", OChannel c)]
           | Some a =>
               exists ia m,
                 Obj.id a = ok ia /\ server_get_member c ia = ok (Some m)
                 /\ restored = [("channel", OChannel c); ("author", OMember m)]
           end
  end.

(** What the resolver of owners raises derives from [Exception]. *)
Definition resolver_raises_exceptions (pl : Playlist) : Prop :=
  (forall i e, bot_get_channel pl i = raise e -> is_Exception e = true)
  /\ (forall i c id e,
        bot_get_channel pl i = ok (Some c) -> server_get_member c id = raise e ->
        is_Exception e = true).

(** ** Calls of the extractor *)

Section FetchesDef.
Context `{Environment}.

(** Running [m] adds at most [k] calls of the extractor with
    [download=True]. *)
Definition fetches_at_most {A} (k : nat) (m : coro A) : Prop :=
  forall w, (fetch_calls (snd (run m w)) <= fetch_calls w + k)%nat.

(** Running [m] adds exactly [k] such calls, whether it returns or
    raises. *)
Definition fetches_exactly {A} (k : nat) (m : coro A) : Prop :=
  forall w, fetch_calls (snd (run m w)) = (fetch_calls w + k)%nat.

End FetchesDef.

(** * Properties *)

(** ** Strings *)

Section StringFacts.

Example rsplit1_name :
  PyStr.rsplit1 "."%char "youtube-9R8aSKwTEMg-NOMA_-_Brain_Power.m4a"
  = ["youtube-9R8aSKwTEMg-NOMA_-_Brain_Power"; "m4a"].
Proof. reflexivity. Qed.

Example rsplit1_no_dot : PyStr.rsplit1 "."%char "README" = ["README"].
Proof. reflexivity. Qed.

Example rsplit1_dash :
  PyStr.first (PyStr.rsplit1 "-"%char "generic-track-0000005a.mp3") = "generic-track".
Proof. reflexivity. Qed.

Example split_extractor :
  PyStr.first (PyStr.split "-"%char "generic-abc-def.mp3") = "generic".
Proof. reflexivity. Qed.

Example split_parts : PyStr.split "-"%char "a-b--c" = ["a"; "b"; ""; "c"].
Proof. reflexivity. Qed.

Example join_hash :
  PyStr.join (PyStr.join "0a1b2c3d" (PyStr.chars "-."))
    (PyStr.rsplit1 "."%char "dir/name.ext")
  = "dir/name-0a1b2c3d.ext".
Proof. reflexivity. Qed.

Example basename_path : OsPath.basename "audio_cache/generic-x.mp3" = "generic-x.mp3".
Proof. reflexivity. Qed.

Example join_path : OsPath.join "audio_cache" "a.mp3" = "audio_cache/a.mp3".
Proof. reflexivity. Qed.

Example join_absolute : OsPath.join "audio_cache" "/tmp/a.mp3" = "/tmp/a.mp3".
Proof. reflexivity. Qed.

Example listdir_cache :
  Fs.listdir "audio_cache" Demo.cache
  = ok ["generic-track-0000005a.mp3"; "youtube-track.webm"; "youtube-other.m4a"].
Proof. reflexivity. Qed.

Example listdir_missing : Fs.listdir "elsewhere" Demo.cache = raise OSError.
Proof. reflexivity. Qed.

Lemma eqb_true (a b : string) : PyStr.eqb a b = true <-> a = b.
Proof. unfold PyStr.eqb. apply bool_decide_eq_true. Qed.

Lemma eqb_false (a b : string) : PyStr.eqb a b = false <-> a <> b.
Proof. unfold PyStr.eqb. apply bool_decide_eq_false. Qed.

Lemma eqb_refl (a : string) : PyStr.eqb a a = true.
Proof. by apply eqb_true. Qed.

Lemma append_nil (b : string) : "" +:+ b = b.
Proof. reflexivity. Qed.

Lemma append_cons (x : ascii) (a b : string) :
  String x a +:+ b = String x (a +:+ b).
Proof. reflexivity. Qed.

Lemma append_assoc (a b c : string) : (a +:+ b) +:+ c = a +:+ (b +:+ c).
Proof.
  induction a as [|x a IH]; [by rewrite !append_nil|].
  by rewrite !append_cons, IH.
Qed.

Lemma rsplit_last_app (c : ascii) (name ext : string) :
  PyStr.rsplit_last c ext = None ->
  PyStr.rsplit_last c (name +:+ String c ext) = Some (name, ext).
Proof.
  intros Hext. induction name as [|a name IH].
  - rewrite append_nil. simpl. rewrite Hext. by rewrite decide_True.
  - rewrite append_cons. simpl. by rewrite IH.
Qed.

(** A name with an extension splits into both. *)
Lemma rsplit1_ext (name ext : string) :
  PyStr.has_char "."%char ext = false ->
  PyStr.rsplit1 "."%char (name +:+ "." +:+ ext) = [name; ext].
Proof.
  unfold PyStr.has_char, PyStr.rsplit1. intros Hext.
  destruct (PyStr.rsplit_last "." ext) eqn:E; [done|].
  change (name +:+ "." +:+ ext) with (name +:+ String "."%char ext).
  by rewrite (rsplit_last_app _ _ _ E).
Qed.

(** The hashed file name: [md5sum(..).join('-.').join(name.rsplit('.', 1))]. *)
Lemma hashed_name (h name ext : string) :
  PyStr.has_char "."%char ext = false ->
  PyStr.join (PyStr.join h (PyStr.chars "-."))
    (PyStr.rsplit1 "."%char (name +:+ "." +:+ ext))
  = name +:+ "-" +:+ h +:+ "." +:+ ext.
Proof.
  intros Hext. rewrite (rsplit1_ext _ _ Hext).
  unfold PyStr.chars, PyStr.join.
  by rewrite !append_assoc, !append_cons, !append_nil.
Qed.

(** Without a dot nothing is inserted. *)
Lemma hashed_name_no_ext (h name : string) :
  PyStr.has_char "."%char name = false ->
  PyStr.join (PyStr.join h (PyStr.chars "-.")) (PyStr.rsplit1 "."%char name) = name.
Proof.
  unfold PyStr.has_char, PyStr.rsplit1. intros Hn.
  by destruct (PyStr.rsplit_last "." name).
Qed.

Lemma mem_index (x : string) (l : list string) :
  PyStr.mem x l = true -> exists i, PyStr.index x l = Some i /\ l !! i = Some x.
Proof.
  induction l as [|y l IH]; simpl; [done|].
  destruct (PyStr.eqb x y) eqn:E.
  - intros _. exists O. apply eqb_true in E. by subst.
  - simpl. intros Hm. destruct (IH Hm) as (i & Hi & Hl).
    exists (S i). by rewrite Hi.
Qed.

Lemma index_lookup (x : string) (l : list string) (i : nat) :
  PyStr.index x l = Some i -> l !! i = Some x.
Proof.
  revert i. induction l as [|y l IH]; simpl; intros i; [done|].
  destruct (PyStr.eqb x y) eqn:E.
  - intros [= <-]. apply eqb_true in E. by subst.
  - destruct (PyStr.index x l) as [j|]; simpl; [|done].
    intros [= <-]. by apply IH.
Qed.

Lemma index_mem (x : string) (l : list string) (i : nat) :
  PyStr.index x l = Some i -> PyStr.mem x l = true.
Proof.
  revert i. induction l as [|y l IH]; simpl; intros i; [done|].
  destruct (PyStr.eqb x y); [done|]. simpl.
  destruct (PyStr.index x l) as [j|]; simpl; [|done].
  intros _. by apply (IH j).
Qed.

Lemma mem_false_index (x : string) (l : list string) :
  PyStr.mem x l = false -> PyStr.index x l = None.
Proof.
  destruct (PyStr.index x l) as [i|] eqn:E; [|done].
  rewrite (index_mem _ _ _ E). done.
Qed.

Lemma mem_elem_of (x : string) (l : list string) :
  PyStr.mem x l = true <-> x ∈ l.
Proof.
  induction l as [|y l IH]; simpl.
  - split; [done|]. by intros ?%elem_of_nil.
  - rewrite elem_of_cons, orb_true_iff, IH, eqb_true. done.
Qed.

End StringFacts.

(** ** Worlds *)

Section WorldFacts.


Lemma fs_emit (ev : event) (w : World) : fs (emit ev w) = fs w.
Proof. done. Qed.


End WorldFacts.

(** ** Running coroutines *)

Section RunFacts.
Context `{Environment}.

Lemma run_ret {A} (a : A) (w : World) : run (Coro.ret a) w = (ok a, w).
Proof. done. Qed.

Lemma run_throw {A} (e : exn) (w : World) : run (Coro.throw (A:=A) e) w = (raise e, w).
Proof. done. Qed.

Lemma run_bind {A B} (m : coro A) (f : A -> coro B) (w : World) :
  run (Coro.bind m f) w =
  match run m w with
  | (inr a, w') => run (f a) w'
  | (inl e, w') => (inl e, w')
  end.
Proof.
  unfold run, Coro.bind. generalize (m w) as r.
  induction r as [[e|a] w'|req w' k IH]; simpl; [done|done|].
  destruct (answer req (fs w')) as [resp f']. apply IH.
Qed.

Lemma run_try_except {A} (m : coro A) (sel : exn -> bool) (h : exn -> coro A)
    (w : World) :
  run (Coro.try_except m sel h) w =
  match run m w with
  | (inl e, w') => if sel e then run (h e) w' else (inl e, w')
  | (inr a, w') => (inr a, w')
  end.
Proof.
  unfold run, Coro.try_except. generalize (m w) as r.
  induction r as [[e|a] w'|req w' k IH]; simpl; [|done|].
  - by destruct (sel e).
  - destruct (answer req (fs w')) as [resp f']. apply IH.
Qed.

Lemma run_try_finally {A} (m : coro A) (fin : World -> World) (w : World) :
  run (Coro.try_finally m fin) w = (fst (run m w), fin (snd (run m w))).
Proof.
  unfold run, Coro.try_finally. generalize (m w) as r.
  induction r as [x w'|req w' k IH]; simpl; [done|].
  destruct (answer req (fs w')) as [resp f']. apply IH.
Qed.

Lemma run_await (req : request) (w : World) :
  run (Coro.await req) w =
  (match fst (answer req (fs w)) with
   | Raised e => raise e
   | Returned v => ok v
   end,
   with_fs (snd (answer req (fs w))) (emit (Call req) w)).
Proof.
  unfold run, Coro.await. simpl.
  destruct (answer req (fs w)) as [[e|v] f']; done.
Qed.

Lemma run_of_result {A} (r : result A) (w : World) : run (Coro.of_result r) w = (r, w).
Proof. done. Qed.

Lemma run_gets {A} (f : World -> A) (w : World) : run (Coro.gets f) w = (ok (f w), w).
Proof. done. Qed.

Lemma run_modify (f : World -> World) (w : World) : run (Coro.modify f) w = (ok tt, f w).
Proof. done. Qed.

Lemma run_on_fs {A} (f : Fs.t -> result A) (w : World) :
  run (Stmt.on_fs f) w = (f (fs w), w).
Proof. done. Qed.

Lemma run_change_fs (f : Fs.t -> result Fs.t) (w : World) :
  run (Stmt.change_fs f) w =
  match f (fs w) with
  | inl e => (raise e, w)
  | inr f' => (ok tt, with_fs f' w)
  end.
Proof. unfold run, Stmt.change_fs. by destruct (f (fs w)). Qed.

Lemma run_logging (lvl : level) (msg : string) (args : list pyval) (w : World) :
  run (Stmt.logging lvl msg args) w = (ok tt, emit (Log lvl msg args None) w).
Proof. done. Qed.

Lemma run_set_filename (v : pyval) (w : World) :
  run (Stmt.set_filename v) w = (ok tt, with_self (with_filename v (self w)) w).
Proof. done. Qed.

End RunFacts.

Create Rewrite HintDb run.
#[global] Hint Rewrite @run_ret @run_throw @run_bind @run_try_except
  @run_try_finally @run_await @run_of_result @run_gets @run_modify
  @run_logging @run_set_filename : run.

(** ** [BasePlaylistEntry]: readiness futures *)

Section ReadyFuture.

Lemma insert_snoc {A} (l : list A) (x v : A) :
  <[length l := v]> (l ++ [x])%list = (l ++ [v])%list.
Proof. induction l as [|y l IH]; cbn; [done|]. by f_equal. Qed.

Lemma lookup_snoc {A} (l : list A) (x : A) : (l ++ [x])%list !! length l = Some x.
Proof. induction l as [|y l IH]; cbn; done. Qed.

(** C3.  On an entry that is downloaded ([filename] set, not
    downloading), [get_ready_future] returns a new future that is
    already resolved with the entry itself; the entry (so its list of
    waiting futures) stays as it is, no [_download] is scheduled, the
    file system and the log (so the calls to collaborators) stay as
    they are, and the other futures are untouched. *)
Theorem get_ready_future_downloaded (w : World) :
  BasePlaylistEntry.is_downloaded (self w) = true ->
  let future := length (futures w) in
  let w' := snd (BasePlaylistEntry.get_ready_future w) in
  fst (BasePlaylistEntry.get_ready_future w) = ok future
  /\ futures w' !! future = Some (FResult (self_id w))
  /\ futures w' = (futures w ++ [FResult (self_id w)])%list
  /\ self w' = self w
  /\ scheduled w' = scheduled w
  /\ fs w' = fs w
  /\ log w' = log w.
Proof.
  intros Hready. unfold BasePlaylistEntry.get_ready_future, Fut.create.
  cbn [self with_futures]. rewrite Hready.
  unfold Fut.set_result, Fut.update. cbn [futures with_futures self_id].
  rewrite lookup_snoc. cbn. rewrite insert_snoc, lookup_snoc. done.
Qed.

Lemma tracebacks_ext act w1 w2 futs :
  (forall f, f ∈ futs -> futures w1 !! f = futures w2 !! f) ->
  tracebacks act w1 futs = tracebacks act w2 futs.
Proof.
  induction futs as [|f futs IH]; intros Hagree; [done|].
  unfold tracebacks in *. cbn [omap list_omap].
  rewrite (Hagree f) by (by left).
  rewrite IH; [done|]. intros g Hg. apply Hagree. by right.
Qed.

Lemma cancelled_lookup f w :
  Fut.cancelled f w = true <-> futures w !! f = Some FCancelled.
Proof.
  unfold Fut.cancelled. destruct (futures w !! f) as [[]|]; split; done.
Qed.

Lemma notify_spec act futs : forall w,
  NoDup futs ->
  let w' := BasePlaylistEntry.notify (Fut.update act) futs w in
  self w' = self w
  /\ self_id w' = self_id w
  /\ scheduled w' = scheduled w
  /\ fs w' = fs w
  /\ length (futures w') = length (futures w)
  /\ (forall f, f ∉ futs -> futures w' !! f = futures w !! f)
  /\ (forall f, f ∈ futs -> Fut.cancelled f w = true ->
        futures w' !! f = futures w !! f)
  /\ (forall f s, f ∈ futs -> futures w !! f = Some s -> s <> FCancelled ->
        futures w' !! f = Some (snd (act s)))
  /\ log w' = (log w ++ tracebacks act w futs)%list.
Proof.
  induction futs as [|f futs IH]; intros w Hnd.
  { cbn. rewrite app_nil_r. repeat split; try done.
    all: intros; exfalso;
      match goal with Hin : _ ∈ [] |- _ => by apply elem_of_nil in Hin end. }
  apply NoDup_cons in Hnd as [Hf Hnd].
  cbn [BasePlaylistEntry.notify].
  destruct (Fut.cancelled f w) eqn:Hc.
  { destruct (IH w Hnd) as (H1 & H2 & H3 & H4 & H5 & H6 & H7 & H8 & H9).
    apply cancelled_lookup in Hc as Hl.
    repeat split; try done.
    - intros g Hg. apply H6. intros Hin. apply Hg. by right.
    - intros g [->|Hg]%elem_of_cons Hgc; [by apply H6|by apply H7].
    - intros g s [->|Hg]%elem_of_cons Hs Hne; [congruence|by apply H8].
    - rewrite H9. unfold tracebacks. cbn [omap list_omap]. by rewrite Hl. }
  destruct (futures w !! f) as [s|] eqn:Hl.
  - destruct (act s) as [r s'] eqn:Hact.
    set (w1 := with_futures (<[f:=s']> (futures w)) w).
    assert (Hupd : Fut.update act f w = (r, w1)).
    { unfold Fut.update. by rewrite Hl, Hact. }
    rewrite Hupd.
    assert (Hagree : forall g, g ∈ futs -> futures w1 !! g = futures w !! g).
    { intros g Hg. unfold w1. cbn. apply list_lookup_insert_ne. by intros ->. }
    assert (Hs : s <> FCancelled).
    { intros ->. unfold Fut.cancelled in Hc. by rewrite Hl in Hc. }
    assert (Hfin : forall w2, futures w2 = futures w1 -> self w2 = self w ->
              self_id w2 = self_id w -> scheduled w2 = scheduled w ->
              fs w2 = fs w ->
              log w2 = (log w ++ match r with inl e => [PrintExc e] | inr _ => [] end)%list ->
              let w' := BasePlaylistEntry.notify (Fut.update act) futs w2 in
              self w' = self w /\ self_id w' = self_id w
              /\ scheduled w' = scheduled w /\ fs w' = fs w
              /\ length (futures w') = length (futures w)
              /\ (forall g, g ∉ f :: futs -> futures w' !! g = futures w !! g)
              /\ (forall g, g ∈ f :: futs -> Fut.cancelled g w = true ->
                    futures w' !! g = futures w !! g)
              /\ (forall g t, g ∈ f :: futs -> futures w !! g = Some t ->
                    t <> FCancelled -> futures w' !! g = Some (snd (act t)))
              /\ log w' = (log w ++ tracebacks act w (f :: futs))%list).
    { intros w2 E1 E2 E3 E4 E5 E6.
      destruct (IH w2 Hnd) as (H1 & H2 & H3 & H4 & H5 & H6 & H7 & H8 & H9).
      assert (Hagree2 : forall g, g ∈ futs -> futures w2 !! g = futures w !! g).
      { intros g Hg. rewrite E1. by apply Hagree. }
      assert (Hself : futures w2 !! f = Some s').
      { rewrite E1. unfold w1. cbn. apply list_lookup_insert_eq.
        by eapply lookup_lt_Some. }
      repeat split.
      - congruence.
      - congruence.
      - congruence.
      - congruence.
      - rewrite H5, E1. unfold w1. cbn. apply length_insert.
      - intros g Hg. rewrite H6 by (intros Hin; apply Hg; by right).
        rewrite E1. unfold w1. cbn.
        apply list_lookup_insert_ne. intros ->. apply Hg. by left.
      - intros g [->|Hg]%elem_of_cons Hgc; [congruence|].
        rewrite H7; [by apply Hagree2|done|].
        unfold Fut.cancelled in *. by rewrite Hagree2.
      - intros g t [->|Hg]%elem_of_cons Hgt Hne.
        + rewrite H6 by done. rewrite Hself.
          assert (t = s) as -> by congruence. by rewrite Hact.
        + apply H8; [done| |done]. by rewrite Hagree2.
      - rewrite H9, E6, <- app_assoc. f_equal.
        unfold tracebacks at 2. cbn [omap list_omap]. rewrite Hl, Hact. cbn [fst].
        rewrite (tracebacks_ext act w2 w futs Hagree2).
        destruct s; try done; by destruct r. }
    destruct r as [e|[]]; cbv beta iota zeta.
    + by apply (Hfin (emit (PrintExc e) w1)).
    + apply (Hfin w1); try done. by rewrite app_nil_r.
  - assert (Hupd : Fut.update act f w = (inl InvalidStateError, w)).
    { unfold Fut.update. by rewrite Hl. }
    rewrite Hupd. cbv beta iota zeta.
    destruct (IH (emit (PrintExc InvalidStateError) w) Hnd)
      as (H1 & H2 & H3 & H4 & H5 & H6 & H7 & H8 & H9).
    repeat split; try done.
    + intros g Hg. apply H6. intros Hin. apply Hg. by right.
    + intros g [->|Hg]%elem_of_cons Hgc; [by apply H6|by apply H7].
    + intros g t [->|Hg]%elem_of_cons Hgt Hne; [congruence|by apply H8].
    + rewrite H9. cbn [log emit with_log]. rewrite <- app_assoc. f_equal.
      unfold tracebacks at 2. cbn [omap list_omap]. by rewrite Hl.
Qed.

(** C9.  [_for_each_future] empties the list of waiting futures and
    calls the callback on the futures it held: a cancelled future
    keeps its state (no callback, no error), every other one gets the
    callback's effect whether or not an earlier callback raised, the
    exceptions raised are printed to the log and go no further, and
    nothing else changes. *)
Theorem for_each_future_notifies (act : Future -> result unit * Future) (w : World) :
  NoDup (_waiting_futures (self w)) ->
  let futs := _waiting_futures (self w) in
  let w' := BasePlaylistEntry._for_each_future (Fut.update act) w in
  _waiting_futures (self w') = []
  /\ self w' = with_waiting_futures [] (self w)
  /\ (forall f, f ∈ futs -> Fut.cancelled f w = true ->
        futures w' !! f = Some FCancelled)
  /\ (forall f s, f ∈ futs -> futures w !! f = Some s -> s <> FCancelled ->
        futures w' !! f = Some (snd (act s)))
  /\ (forall f, f ∉ futs -> futures w' !! f = futures w !! f)
  /\ log w' = (log w ++ tracebacks act w futs)%list
  /\ fs w' = fs w /\ scheduled w' = scheduled w.
Proof.
  intros Hnd futs w'. unfold w', BasePlaylistEntry._for_each_future.
  set (w1 := with_self (with_waiting_futures [] (self w)) w).
  destruct (notify_spec act futs w1 Hnd)
    as (H1 & H2 & H3 & H4 & H5 & H6 & H7 & H8 & H9).
  fold futs. repeat split; try done.
  - by rewrite H1.
  - intros f Hf Hc. rewrite H7 by done. by apply cancelled_lookup.
Qed.

(** Whatever the futures are, [notify] leaves the entry and the loop
    alone. *)
Lemma notify_base (act : Future -> result unit * Future) (futs : list nat) :
  forall w,
    self (BasePlaylistEntry.notify (Fut.update act) futs w) = self w
    /\ scheduled (BasePlaylistEntry.notify (Fut.update act) futs w) = scheduled w.
Proof.
  induction futs as [|f futs IH]; intros w; [done|].
  cbn [BasePlaylistEntry.notify]. destruct (Fut.cancelled f w); [apply IH|].
  destruct (Fut.update act f w) as [r w1] eqn:Hupd.
  assert (Hw1 : self w1 = self w /\ scheduled w1 = scheduled w).
  { revert Hupd. unfold Fut.update. destruct (futures w !! f) as [s|].
    - destruct (act s) as [r' s']. by intros [= _ <-].
    - by intros [= _ <-]. }
  destruct Hw1 as [Hself Hsched].
  destruct r as [e|[]].
  - destruct (IH (emit (PrintExc e) w1)) as [-> ->]. done.
  - destruct (IH w1) as [-> ->]. done.
Qed.

Lemma waiting_wf_init (w : World) : _waiting_futures (self w) = [] -> waiting_wf w.
Proof.
  intros Hnil. unfold waiting_wf. rewrite Hnil. split; [constructor|].
  by intros f ?%elem_of_nil.
Qed.

(** [get_ready_future] keeps them so: the future it adds is new. *)
Lemma get_ready_future_wf (w : World) :
  waiting_wf w -> waiting_wf (snd (BasePlaylistEntry.get_ready_future w)).
Proof.
  intros [Hnd Hlt]. unfold BasePlaylistEntry.get_ready_future, Fut.create.
  cbn [self with_futures].
  destruct (BasePlaylistEntry.is_downloaded (self w)).
  - unfold Fut.set_result, Fut.update. cbn [futures with_futures].
    rewrite lookup_snoc. cbn. split; [done|].
    intros f Hf. cbn [futures with_futures]. rewrite length_insert, length_app. cbn.
    specialize (Hlt f Hf). lia.
  - cbn. split.
    + apply NoDup_app. split; [done|]. split; [|apply NoDup_singleton].
      intros f Hf ->%list_elem_of_singleton. specialize (Hlt _ Hf). lia.
    + intros f [Hf| ->%list_elem_of_singleton]%elem_of_app;
        cbn [futures with_futures with_self with_scheduled]; rewrite length_app; cbn.
      * specialize (Hlt f Hf). lia.
      * lia.
Qed.

Lemma cancel_wf (f : nat) (w : World) : waiting_wf w -> waiting_wf (Fut.cancel f w).
Proof.
  intros [Hnd Hlt]. unfold Fut.cancel.
  destruct (futures w !! f) as [[]|]; try done.
  split; [done|]. intros g Hg. cbn. rewrite length_insert. by apply Hlt.
Qed.

End ReadyFuture.

(** ** [URLPlaylistEntry]: the cache and the fetch *)

Ltac run_steps :=
  repeat (progress (autorewrite with run; cbv beta iota zeta)).

Section UrlDownload.
Context `{Environment}.

Lemma listdir_exists (folder : string) (f : Fs.t) (names : list string) :
  Fs.listdir folder f = ok names -> Fs.exists_ folder f = true.
Proof.
  unfold Fs.listdir, Fs.exists_. by destruct (Fs.lookup folder f) as [[]|].
Qed.

Lemma fetch_calls_emit_log lvl msg args exc (w : World) :
  fetch_calls (emit (Log lvl msg args exc) w) = fetch_calls w.
Proof.
  unfold fetch_calls, emit. cbn [log with_log].
  rewrite List.filter_app. cbn. by rewrite app_nil_r.
Qed.

Lemma fetch_calls_with_self e (w : World) : fetch_calls (with_self e w) = fetch_calls w.
Proof. done. Qed.

Lemma fetch_calls_probe url h (w : World) :
  fetch_calls (emit (Call (GetHeader url h)) w) = fetch_calls w.
Proof.
  unfold fetch_calls, emit. cbn [log with_log].
  rewrite List.filter_app. cbn. by rewrite app_nil_r.
Qed.

(** The start of [fetch_or_reuse] when the folder is there. *)
Lemma run_fetch_or_reuse (w : World) (url : pyval) (expected : string)
    (names : list string) :
  let folder := download_folder (playlist (self w)) in
  Fs.listdir folder (fs w) = ok names ->
  run (URLPlaylistEntry.fetch_or_reuse url (VStr expected)) w =
  if PyStr.eqb (PyStr.first (PyStr.split "-"%char (OsPath.basename expected))) "generic"
  then run (URLPlaylistEntry.generic_branch url folder expected) w
  else run (URLPlaylistEntry.named_branch url folder expected) w.
Proof.
  intros folder Hdir. unfold URLPlaylistEntry.fetch_or_reuse.
  run_steps. unfold Stmt.os_path_exists. run_steps.
  fold folder. rewrite (listdir_exists _ _ _ Hdir). run_steps.
  cbn [Py.as_str]. run_steps.
  by destruct (PyStr.eqb _ "generic").
Qed.

(** [_really_download] up to the extractor's answer. *)
Lemma run_really_download (w : World) (url : pyval) (hash : bool) :
  let started :=
    emit (Call (ExtractInfo url true))
      (emit (Log INFO "Download started: {}" [url] None) w) in
  let ans := extract_info url true (fs w) in
  let fetched := with_fs (snd ans) started in
  let complete := emit (Log INFO "Download complete: {}" [url] None) fetched in
  run (URLPlaylistEntry._really_download url hash) w =
  match fst ans with
  | Raised e =>
      if is_Exception e then (inl (ExtractionError e), fetched) else (inl e, fetched)
  | Returned VNone =>
      (inl (ExtractionErrorMsg "ytdl broke and hell if I know why"),
       emit (Log CRITICAL "YTDL has failed, everyone panic" [] None) complete)
  | Returned r =>
      run (Coro.bind (Stmt.set_filename (VStr (prepare_filename r)))
             (fun _ =>
                if hash then
                  Coro.bind (URLPlaylistEntry.md5sum_of (prepare_filename r) 8)
                    (fun h =>
                       let fname :=
                         PyStr.join (PyStr.join h (PyStr.chars "-."))
                           (PyStr.rsplit1 "."%char (prepare_filename r)) in
                       Coro.bind (Stmt.set_filename (VStr fname))
                         (fun _ =>
                            Coro.bind (Stmt.os_path_isfile fname)
                              (fun isfile : bool =>
                                 if isfile then Stmt.os_unlink (prepare_filename r)
                                 else Stmt.os_rename (prepare_filename r) fname)))
                else Coro.ret tt)) complete
  end.
Proof.
  intros started ans fetched complete.
  unfold URLPlaylistEntry._really_download.
  rewrite run_bind, run_logging. cbv beta iota.
  rewrite run_bind, run_try_except, run_await. unfold answer.
  cbn [fs emit with_log]. fold ans. fold started. fold fetched.
  destruct (fst ans) as [e|r].
  - cbv beta iota. destruct (is_Exception e); [|done].
    by rewrite run_throw.
  - cbv beta iota. rewrite run_bind, run_logging.
    cbv beta iota. fold complete.
    by destruct r.
Qed.

(** ** Counting the calls of the extractor *)

Lemma exactly_bind {A B} (k : nat) (m : coro A) (f : A -> coro B) :
  fetches_exactly k m -> (forall a, fetches_exactly 0 (f a)) ->
  fetches_exactly k (Coro.bind m f).
Proof.
  intros Hm Hf w. rewrite run_bind. specialize (Hm w).
  destruct (run m w) as [[e|a] w1]; cbn [snd] in *; [done|].
  rewrite (Hf a w1). lia.
Qed.

Lemma exactly_try_except {A} (k : nat) (m : coro A) (sel : exn -> bool)
    (h : exn -> coro A) :
  fetches_exactly k m -> (forall e, fetches_exactly 0 (h e)) ->
  fetches_exactly k (Coro.try_except m sel h).
Proof.
  intros Hm Hh w. rewrite run_try_except. specialize (Hm w).
  destruct (run m w) as [[e|a] w1]; cbn [snd] in *; [|done].
  destruct (sel e); cbn [snd]; [|done]. rewrite (Hh e w1). lia.
Qed.

Lemma exactly_ret {A} (a : A) : fetches_exactly 0 (Coro.ret a).
Proof. intros w. rewrite run_ret. cbn. lia. Qed.

Lemma exactly_throw {A} (e : exn) : fetches_exactly 0 (Coro.throw (A:=A) e).
Proof. intros w. rewrite run_throw. cbn. lia. Qed.

Lemma exactly_gets {A} (f : World -> A) : fetches_exactly 0 (Coro.gets f).
Proof. intros w. rewrite run_gets. cbn. lia. Qed.

Lemma exactly_logging lvl msg args : fetches_exactly 0 (Stmt.logging lvl msg args).
Proof. intros w. rewrite run_logging. cbn [snd]. rewrite fetch_calls_emit_log. lia. Qed.

Lemma exactly_set_filename v : fetches_exactly 0 (Stmt.set_filename v).
Proof. intros w. rewrite run_set_filename. cbn [snd]. rewrite fetch_calls_with_self. lia. Qed.

Lemma exactly_on_fs {A} (f : Fs.t -> result A) : fetches_exactly 0 (Stmt.on_fs f).
Proof. intros w. rewrite run_on_fs. cbn. lia. Qed.

Lemma exactly_change_fs (f : Fs.t -> result Fs.t) : fetches_exactly 0 (Stmt.change_fs f).
Proof.
  intros w. rewrite run_change_fs. destruct (f (fs w)); cbn [snd]; [lia|].
  change (fetch_calls (with_fs t w)) with (fetch_calls w). lia.
Qed.

Lemma exactly_fetch (url : pyval) :
  fetches_exactly 1 (Coro.await (ExtractInfo url true)).
Proof.
  intros w. rewrite run_await. cbn [snd].
  change (fetch_calls (with_fs ?f ?w0)) with (fetch_calls w0).
  unfold fetch_calls, emit. cbn [log with_log].
  rewrite List.filter_app, length_app. cbn. lia.
Qed.

Ltac exact_step :=
  first
    [ apply exactly_bind; [|intros ?]
    | apply exactly_ret
    | apply exactly_throw
    | apply exactly_gets
    | apply exactly_logging
    | apply exactly_set_filename
    | apply exactly_on_fs
    | apply exactly_change_fs
    | match goal with
      | |- fetches_exactly _ (if ?b then _ else _) => destruct b
      | |- fetches_exactly _ (match ?x with _ => _ end) => destruct x
      end ].

(** [_really_download] calls the extractor once, with [download=True],
    whatever comes of it. *)
Lemma really_download_fetches (url : pyval) (hash : bool) :
  fetches_exactly 1 (URLPlaylistEntry._really_download url hash).
Proof.
  intros w. unfold URLPlaylistEntry._really_download, URLPlaylistEntry.md5sum_of,
    Stmt.os_path_isfile, Stmt.os_unlink, Stmt.os_rename.
  cbv zeta. rewrite run_bind, run_logging. cbv beta iota.
  match goal with
  | |- fetch_calls (snd (run ?m ?w1)) = _ =>
      assert (Hm : fetches_exactly 1 m); [|rewrite (Hm w1)]
  end.
  - apply exactly_bind.
    + apply exactly_try_except; [apply exactly_fetch|intros e; apply exactly_throw].
    + intros result. repeat exact_step.
  - by rewrite fetch_calls_emit_log.
Qed.

Lemma strip_lookup (c : ascii) (ldir : list string) (x : string) (i : nat) :
  PyStr.index x (map (fun f => PyStr.first (PyStr.rsplit1 c f)) ldir) = Some i ->
  exists name, ldir !! i = Some name /\ PyStr.first (PyStr.rsplit1 c name) = x.
Proof.
  intros Hi%index_lookup. rewrite list_lookup_fmap in Hi.
  destruct (ldir !! i) as [name|]; [|done].
  exists name. split; [done|]. by injection Hi.
Qed.

(** C5.  With an extractor other than the generic one and the download
    folder listed as [ldir]: when the expected base name is in the
    listing, it becomes [filename] (joined to the folder), one info
    record is logged and the extractor is not called; else, when a
    listed name has the expected name without its extension, the first
    such name is taken instead, an info and a debug record are logged,
    nothing is raised and the extractor is not called; otherwise
    [_really_download] runs without hashing: the extractor is called
    once with [download=True], and when it returns a result
    [filename] is the name prepared for it and the files are as the
    extractor left them. *)
Theorem named_extractor_cache (w : World) (url : pyval) (expected : string)
    (ldir : list string) :
  let folder := download_folder (playlist (self w)) in
  let base := OsPath.basename expected in
  let noex := PyStr.first (PyStr.rsplit1 "."%char base) in
  let flistdir := map (fun f => PyStr.first (PyStr.rsplit1 "."%char f)) ldir in
  let body := URLPlaylistEntry.fetch_or_reuse url (VStr expected) in
  let ans := extract_info url true (fs w) in
  PyStr.first (PyStr.split "-"%char base) <> "generic" ->
  Fs.listdir folder (fs w) = ok ldir ->
  (base ∈ ldir ->
     run body w =
     (ok tt,
      emit (Log INFO "Download cached: {}" [url] None)
        (with_self (with_filename (VStr (OsPath.join folder base)) (self w)) w))
     /\ fetch_calls (snd (run body w)) = fetch_calls w)
  /\ (base ∉ ldir -> noex ∈ flistdir ->
       exists i name,
         PyStr.index noex flistdir = Some i
         /\ ldir !! i = Some name
         /\ name <> base
         /\ PyStr.first (PyStr.rsplit1 "."%char name) = noex
         /\ run body w =
            (ok tt,
             emit (Log DEBUG "Expected {}, got {}"
                     [VStr (PyStr.final (PyStr.rsplit1 "."%char expected));
                      VStr (PyStr.final
                              (PyStr.rsplit1 "."%char (OsPath.join folder name)))]
                     None)
               (with_self (with_filename (VStr (OsPath.join folder name)) (self w))
                  (emit (Log INFO "Download cached (different extension): {}" [url] None)
                     w)))
         /\ fetch_calls (snd (run body w)) = fetch_calls w)
  /\ (base ∉ ldir -> noex ∉ flistdir ->
       run body w = run (URLPlaylistEntry._really_download url false) w
       /\ fetch_calls (snd (run body w)) = S (fetch_calls w)
       /\ (forall r,
             fst ans = Returned r -> r <> VNone ->
             fst (run body w) = ok tt
             /\ filename (self (snd (run body w))) = VStr (prepare_filename r)
             /\ fs (snd (run body w)) = snd ans)).
Proof.
  intros folder base noex flistdir body ans Hext Hdir.
  assert (Hrun : run body w = run (URLPlaylistEntry.named_branch url folder expected) w).
  { unfold body. rewrite (run_fetch_or_reuse w url expected ldir Hdir).
    fold base. by apply eqb_false in Hext as ->. }
  rewrite Hrun. unfold URLPlaylistEntry.named_branch.
  unfold Stmt.os_listdir. rewrite run_bind, run_on_fs, Hdir.
  cbv beta iota zeta. fold base noex flistdir.
  split; [|split].
  - intros Hin%mem_elem_of. rewrite Hin. run_steps.
    split; [done|]. cbn [snd]. by rewrite fetch_calls_emit_log.
  - intros Hbase Hin%mem_elem_of.
    destruct (PyStr.mem base ldir) eqn:Hb; [by apply mem_elem_of in Hb|].
    rewrite Hin. destruct (mem_index _ _ Hin) as (i & Hi & _).
    destruct (strip_lookup _ _ _ _ Hi) as (name & Hname & Hstrip).
    exists i, name. run_steps. rewrite Hi. run_steps.
    unfold Py.list_item. rewrite Hname. run_steps.
    repeat split; try done.
    + intros ->. apply Hbase. by eapply list_elem_of_lookup_2.
    + cbn [snd].
      by rewrite fetch_calls_emit_log, fetch_calls_with_self, fetch_calls_emit_log.
  - intros Hbase Hno.
    destruct (PyStr.mem base ldir) eqn:Hb; [by apply mem_elem_of in Hb|].
    destruct (PyStr.mem noex flistdir) eqn:Hn; [by apply mem_elem_of in Hn|].
    split; [done|]. split.
    + rewrite (really_download_fetches url false w). lia.
    + intros r Hr Hnone.
      pose proof (run_really_download w url false) as Hstart.
      cbv zeta in Hstart. fold ans in Hstart. rewrite Hstart, Hr.
      assert (Htail : forall w0,
        run (Coro.bind (Stmt.set_filename (VStr (prepare_filename r)))
               (fun _ => Coro.ret tt)) w0
        = (ok tt, with_self (with_filename (VStr (prepare_filename r)) (self w0)) w0)).
      { intros w0. rewrite run_bind, run_set_filename. cbv beta iota.
        by rewrite run_ret. }
      destruct r; try done; by rewrite Htail.
Qed.








Lemma lookup_remove_eq (p : string) (f : Fs.t) : Fs.lookup p (Fs.remove p f) = None.
Proof.
  induction f as [|[q n] f IH]; [done|]. cbn.
  destruct (PyStr.eqb p q) eqn:E; cbn; [done|]. by rewrite E.
Qed.

Lemma lookup_remove_ne (p q : string) (f : Fs.t) :
  p <> q -> Fs.lookup q (Fs.remove p f) = Fs.lookup q f.
Proof.
  intros Hne. induction f as [|[r n] f IH]; [done|]. cbn.
  destruct (PyStr.eqb p r) eqn:E; cbn.
  - apply eqb_true in E as <-.
    by apply not_eq_sym, eqb_false in Hne as ->.
  - destruct (PyStr.eqb q r); [done|apply IH].
Qed.

Lemma lookup_rekey (src dst : string) (f : Fs.t) :
  src <> dst -> Fs.lookup dst f = None ->
  let f' := map (fun e => if PyStr.eqb src (fst e) then (dst, snd e) else e) f in
  Fs.lookup dst f' = Fs.lookup src f /\ Fs.lookup src f' = None.
Proof.
  intros Hne. induction f as [|[r n] f IH]; [done|]. cbn.
  destruct (PyStr.eqb dst r) eqn:Edr; [done|]. intros Hdst.
  destruct (IH Hdst) as [IH1 IH2].
  destruct (PyStr.eqb src r) eqn:Esr; cbn.
  - rewrite eqb_refl. apply eqb_false in Hne as ->. done.
  - by rewrite Edr, Esr.
Qed.

(** What [os.rename] leaves behind when nothing is at the target and
    the target lies in a directory that is there. *)
Lemma rename_fresh (src dst content : string) (f : Fs.t) :
  src <> dst -> dst <> "" -> Fs.in_directory dst f = true ->
  Fs.lookup src f = Some (Fs.File content) -> Fs.lookup dst f = None ->
  exists f', Fs.rename src dst f = ok f'
             /\ Fs.lookup dst f' = Some (Fs.File content)
             /\ Fs.lookup src f' = None.
Proof.
  intros Hne Hdst0 Hdir Hsrc Hdst. unfold Fs.rename. rewrite Hsrc, Hdst, Hdir.
  apply eqb_false in Hdst0 as ->. rewrite (proj2 (eqb_false src dst) Hne).
  cbn [orb negb].
  eexists. split; [done|].
  destruct (lookup_rekey src dst (Fs.remove dst f) Hne (lookup_remove_eq dst f))
    as [H1 H2].
  split; [|done]. rewrite H1, lookup_remove_ne by done. done.
Qed.

Lemma append_length (a b : string) :
  String.length (a +:+ b) = (String.length a + String.length b)%nat.
Proof.
  induction a as [|x a IH]; [done|]. rewrite append_cons. cbn. by rewrite IH.
Qed.

(** A suffix without [c] does not move the last [c]. *)
Lemma rsplit_last_suffix (c : ascii) (name suffix : string) :
  PyStr.has_char c suffix = false ->
  PyStr.rsplit_last c (name +:+ suffix)
  = match PyStr.rsplit_last c name with
    | Some (l, r) => Some (l, r +:+ suffix)
    | None => None
    end.
Proof.
  unfold PyStr.has_char. intros Hs.
  induction name as [|a name IH].
  - rewrite append_nil. cbn. by destruct (PyStr.rsplit_last c suffix).
  - rewrite append_cons. cbn [PyStr.rsplit_last]. rewrite IH.
    destruct (PyStr.rsplit_last c name) as [[l r]|]; [done|].
    by destruct (decide (a = c)).
Qed.

Lemma has_char_suffix (c : ascii) (a b : string) :
  PyStr.has_char c b = false -> PyStr.has_char c (a +:+ b) = PyStr.has_char c a.
Proof.
  intros Hb. pose proof (rsplit_last_suffix c a b Hb) as Hsplit.
  unfold PyStr.has_char in *. rewrite Hsplit.
  by destruct (PyStr.rsplit_last c a) as [[l r]|].
Qed.

Lemma has_char_other (c a : ascii) (s : string) :
  a <> c -> PyStr.has_char c (String a s) = PyStr.has_char c s.
Proof.
  intros Hne. unfold PyStr.has_char. cbn [PyStr.rsplit_last].
  destruct (PyStr.rsplit_last c s) as [[l r]|]; [done|]. by rewrite decide_False.
Qed.

(** The hashed name lies in the directory of the prepared name, when
    neither the fragment nor the extension holds a slash. *)
Lemma hashed_dirname (name h ext : string) :
  PyStr.has_char "/"%char h = false ->
  PyStr.has_char "/"%char ext = false ->
  Fs.dirname (name +:+ "-" +:+ h +:+ "." +:+ ext) = Fs.dirname (name +:+ "." +:+ ext).
Proof.
  intros Hh Hext.
  assert (Hdot : PyStr.has_char "/"%char ("." +:+ ext) = false).
  { change ("." +:+ ext) with (String "."%char ext).
    by rewrite has_char_other. }
  assert (Hdash : PyStr.has_char "/"%char ("-" +:+ h +:+ "." +:+ ext) = false).
  { change ("-" +:+ h +:+ "." +:+ ext) with (String "-"%char (h +:+ "." +:+ ext)).
    rewrite has_char_other by done. by rewrite has_char_suffix. }
  unfold Fs.dirname, OsPath.sep.
  rewrite (rsplit_last_suffix _ name _ Hdot), (rsplit_last_suffix _ name _ Hdash).
  by destruct (PyStr.rsplit_last "/" name) as [[l r]|].
Qed.

Lemma hashed_differs (name h ext : string) :
  name +:+ "." +:+ ext <> name +:+ "-" +:+ h +:+ "." +:+ ext.
Proof.
  intros Heq. apply (f_equal String.length) in Heq.
  rewrite !append_length in Heq. cbn in Heq. lia.
Qed.

Lemma isfile_lookup (p : string) (f : Fs.t) :
  Fs.isfile p f = true <-> exists c, Fs.lookup p f = Some (Fs.File c).
Proof.
  unfold Fs.isfile. destruct (Fs.lookup p f) as [[c|n]|]; split; try done.
  - intros _. by exists c.
  - by intros [c ?].
  - by intros [c ?].
Qed.

(** C6.  [_really_download] calls the extractor once, with
    [download=True].  An exception of the extractor that derives from
    [Exception] leaves as [ExtractionError] of it; a [None] result
    raises an [ExtractionError] after a critical log record.
    Otherwise, with hashing and a prepared file name [name.ext] that the
    extractor has written: [filename] becomes [name-h.ext], where [h]
    is [md5sum] of the fetched file cut to 8 characters; when a file
    is already at that path the fetched file is unlinked and that file
    stays; and when nothing is there, [ext] is an extension of the
    file (it holds no slash), [h] holds no slash and the fetched file
    lies in a directory that is there, the fetched file is renamed to
    that path. *)
Theorem really_download_spec (w : World) (url : pyval) :
  let started :=
    emit (Call (ExtractInfo url true))
      (emit (Log INFO "Download started: {}" [url] None) w) in
  let ans := extract_info url true (fs w) in
  let fetched := with_fs (snd ans) started in
  let complete := emit (Log INFO "Download complete: {}" [url] None) fetched in
  (forall hash e,
      fst ans = Raised e -> is_Exception e = true ->
      run (URLPlaylistEntry._really_download url hash) w
      = (raise (ExtractionError e), fetched))
  /\ (forall hash,
        fst ans = Returned VNone ->
        run (URLPlaylistEntry._really_download url hash) w
        = (raise (ExtractionErrorMsg "ytdl broke and hell if I know why"),
           emit (Log CRITICAL "YTDL has failed, everyone panic" [] None) complete))
  /\ (forall r name ext content,
        fst ans = Returned r -> r <> VNone ->
        let unhashed := prepare_filename r in
        let hashed := name +:+ "-" +:+ md5sum content 8 +:+ "." +:+ ext in
        let named := with_self (with_filename (VStr hashed) (self w)) complete in
        unhashed = name +:+ "." +:+ ext ->
        PyStr.has_char "."%char ext = false ->
        Fs.lookup unhashed (snd ans) = Some (Fs.File content) ->
        (forall other,
            Fs.lookup hashed (snd ans) = Some (Fs.File other) ->
            run (URLPlaylistEntry._really_download url true) w
            = (ok tt, with_fs (Fs.remove unhashed (snd ans)) named)
            /\ Fs.lookup unhashed (Fs.remove unhashed (snd ans)) = None
            /\ Fs.lookup hashed (Fs.remove unhashed (snd ans)) = Some (Fs.File other))
        /\ (Fs.lookup hashed (snd ans) = None ->
             PyStr.has_char "/"%char ext = false ->
             PyStr.has_char "/"%char (md5sum content 8) = false ->
             Fs.in_directory unhashed (snd ans) = true ->
             exists renamed,
               Fs.rename unhashed hashed (snd ans) = ok renamed
               /\ run (URLPlaylistEntry._really_download url true) w
                  = (ok tt, with_fs renamed named)
               /\ Fs.lookup hashed renamed = Some (Fs.File content)
               /\ Fs.lookup unhashed renamed = None)).
Proof.
  intros started ans fetched complete.
  pose proof (fun hash => run_really_download w url hash) as Hstart.
  cbv zeta in Hstart. fold ans started fetched complete in Hstart.
  split; [|split].
  - intros hash e He Hexc. by rewrite Hstart, He, Hexc.
  - intros hash Hn. by rewrite Hstart, Hn.
  - intros r name ext content Hr Hnone unhashed hashed named Hname Hext Hfile.
    assert (Hne : unhashed <> hashed).
    { rewrite Hname. apply hashed_differs. }
    assert (Hrun : run (URLPlaylistEntry._really_download url true) w =
                   if Fs.isfile hashed (snd ans) then
                     match Fs.unlink unhashed (snd ans) with
                     | inl e => (inl e, named)
                     | inr f' => (inr tt, with_fs f' named)
                     end
                   else
                     match Fs.rename unhashed hashed (snd ans) with
                     | inl e => (inl e, named)
                     | inr f' => (inr tt, with_fs f' named)
                     end).
    { rewrite Hstart, Hr.
      transitivity
        (run (Coro.bind (Stmt.set_filename (VStr (prepare_filename r)))
                (fun _ =>
                   Coro.bind (URLPlaylistEntry.md5sum_of (prepare_filename r) 8)
                     (fun h =>
                        let fname :=
                          PyStr.join (PyStr.join h (PyStr.chars "-."))
                            (PyStr.rsplit1 "."%char (prepare_filename r)) in
                        Coro.bind (Stmt.set_filename (VStr fname))
                          (fun _ =>
                             Coro.bind (Stmt.os_path_isfile fname)
                               (fun isfile : bool =>
                                  if isfile then Stmt.os_unlink (prepare_filename r)
                                  else Stmt.os_rename (prepare_filename r) fname)))))
           complete).
      { by destruct r. }
      fold unhashed.
      assert (Hfs : fs complete = snd ans) by done.
      rewrite run_bind, run_set_filename. cbv beta iota.
      unfold URLPlaylistEntry.md5sum_of.
      rewrite run_bind, run_on_fs. cbn [fs with_self].
      rewrite Hfs. unfold Fs.read. rewrite Hfile. unfold rbind.
      cbv beta iota zeta.
      rewrite Hname. rewrite (hashed_name _ _ _ Hext). fold hashed.
      rewrite run_bind, run_set_filename. cbv beta iota.
      unfold Stmt.os_path_isfile. rewrite run_bind, run_gets.
      cbv beta iota. cbn [fs with_self]. rewrite Hfs.
      destruct (Fs.isfile hashed (snd ans)).
      - unfold Stmt.os_unlink. rewrite run_change_fs.
        cbn [fs with_self]. rewrite Hfs.
        by destruct (Fs.unlink unhashed (snd ans)).
      - unfold Stmt.os_rename. rewrite run_change_fs.
        cbn [fs with_self]. rewrite Hfs.
        by destruct (Fs.rename unhashed hashed (snd ans)). }
    split.
    + intros other Hother.
      assert (Hisfile : Fs.isfile hashed (snd ans) = true).
      { apply isfile_lookup. by exists other. }
      rewrite Hrun, Hisfile. unfold Fs.unlink. rewrite Hfile.
      split; [done|]. split; [apply lookup_remove_eq|].
      by rewrite lookup_remove_ne.
    + intros Habsent Hslash Hfragment Hdir.
      assert (Hnonempty : hashed <> "").
      { intros Heq. apply (f_equal String.length) in Heq. unfold hashed in Heq.
        rewrite !append_length in Heq. cbn in Heq. lia. }
      assert (Hthere : Fs.in_directory hashed (snd ans) = true).
      { unfold Fs.in_directory in *. unfold hashed.
        rewrite (hashed_dirname _ _ _ Hfragment Hslash). by rewrite <- Hname. }
      destruct (rename_fresh unhashed hashed content (snd ans) Hne Hnonempty Hthere
                  Hfile Habsent)
        as (renamed & Hren & H1 & H2).
      exists renamed. split; [done|]. split; [|done].
      rewrite Hrun. unfold Fs.isfile. by rewrite Habsent, Hren.
Qed.

(** A prepared file name without a dot gets no hash: [filename] stays
    the prepared name, a file is found there (the one just fetched), and
    the fetched file is unlinked. *)
Lemma really_download_no_extension (w : World) (url r : pyval) (content : string) :
  let ans := extract_info url true (fs w) in
  let complete :=
    emit (Log INFO "Download complete: {}" [url] None)
      (with_fs (snd ans)
         (emit (Call (ExtractInfo url true))
            (emit (Log INFO "Download started: {}" [url] None) w))) in
  let unhashed := prepare_filename r in
  fst ans = Returned r -> r <> VNone ->
  PyStr.has_char "."%char unhashed = false ->
  Fs.lookup unhashed (snd ans) = Some (Fs.File content) ->
  run (URLPlaylistEntry._really_download url true) w
  = (ok tt,
     with_fs (Fs.remove unhashed (snd ans))
       (with_self (with_filename (VStr unhashed) (self w)) complete))
  /\ Fs.lookup unhashed (Fs.remove unhashed (snd ans)) = None.
Proof.
  intros ans complete unhashed Hr Hnone Hext Hfile.
  split; [|apply lookup_remove_eq].
  pose proof (run_really_download w url true) as Hstart. cbv zeta in Hstart.
  fold ans in Hstart. fold complete in Hstart. rewrite Hstart, Hr.
  transitivity
    (run (Coro.bind (Stmt.set_filename (VStr unhashed))
            (fun _ =>
               Coro.bind (URLPlaylistEntry.md5sum_of unhashed 8)
                 (fun h =>
                    let fname :=
                      PyStr.join (PyStr.join h (PyStr.chars "-."))
                        (PyStr.rsplit1 "."%char unhashed) in
                    Coro.bind (Stmt.set_filename (VStr fname))
                      (fun _ =>
                         Coro.bind (Stmt.os_path_isfile fname)
                           (fun isfile : bool =>
                              if isfile then Stmt.os_unlink unhashed
                              else Stmt.os_rename unhashed fname)))))
       complete).
  { by destruct r. }
  assert (Hfs : fs complete = snd ans) by done.
  rewrite run_bind, run_set_filename. cbv beta iota.
  unfold URLPlaylistEntry.md5sum_of.
  rewrite run_bind, run_on_fs. cbn [fs with_self].
  rewrite Hfs. unfold Fs.read. rewrite Hfile. unfold rbind. cbv beta iota zeta.
  rewrite (hashed_name_no_ext _ _ Hext).
  rewrite run_bind, run_set_filename. cbv beta iota.
  unfold Stmt.os_path_isfile. rewrite run_bind, run_gets.
  cbv beta iota. cbn [fs with_self]. rewrite Hfs.
  unfold Fs.isfile. rewrite Hfile.
  unfold Stmt.os_unlink. rewrite run_change_fs. cbn [fs with_self]. rewrite Hfs.
  unfold Fs.unlink. by rewrite Hfile.
Qed.

End UrlDownload.

(** ** Persistence *)

Section Persistence.
Context `{Environment}.

Lemma meta_json_get (meta : list (string * pyobj)) (m : list (string * pyval)) :
  URLPlaylistEntry.meta_json meta = ok m ->
  forall k,
    match Obj.meta_get k meta with
    | None => Py.dict_get k m = None
    | Some o =>
        exists i n, Obj.id o = ok i /\ Obj.name o = ok n
                    /\ Py.dict_get k m = Some (owner_json o i n)
    end.
Proof.
  revert m. induction meta as [|[name obj] meta IH]; intros m Hm k.
  { injection Hm as <-. done. }
  cbn in Hm. unfold rbind in Hm.
  destruct (Obj.id obj) as [|i] eqn:Hi; [done|].
  destruct (Obj.name obj) as [|n] eqn:Hn; [done|].
  destruct (URLPlaylistEntry.meta_json meta) as [|tl] eqn:Htl; [done|].
  injection Hm as <-. cbn.
  destruct (PyStr.eqb k name).
  - by exists i, n.
  - by apply IH.
Qed.

Lemma url_json_fields (url expected : pyval) (e : Entry) (data : pyval) :
  URLPlaylistEntry.json_data url expected e = ok data ->
  exists m,
    URLPlaylistEntry.meta_json (meta e) = ok m
    /\ Py.getitem data "url" = ok url
    /\ Py.getitem data "title" = ok (title e)
    /\ Py.getitem data "duration" = ok (duration e)
    /\ Py.getitem data "downloaded" = ok (VBool (BasePlaylistEntry.is_downloaded e))
    /\ Py.getitem data "filename" = ok (filename e)
    /\ Py.getitem data "expected_filename" = ok expected
    /\ Py.getitem data "meta" = ok (VDict m).
Proof.
  unfold URLPlaylistEntry.json_data, rbind.
  destruct (URLPlaylistEntry.meta_json (meta e)) as [|m]; [done|].
  intros [= <-]. exists m. repeat split; reflexivity.
Qed.

Lemma meta_item_head (k : string) (v : pyobj) (d : list (string * pyobj)) :
  Obj.meta_item ((k, v) :: d) k = ok v.
Proof. unfold Obj.meta_item. cbn. by rewrite eqb_refl. Qed.

Lemma stored_id_json (data : pyval) (m : list (string * pyval)) (k : string)
    (o : pyobj) (i n : pyval) :
  Py.getitem data "meta" = ok (VDict m) ->
  Py.dict_get k m = Some (owner_json o i n) ->
  URLPlaylistEntry.stored_id data k = ok i.
Proof.
  intros Hm Hk. unfold URLPlaylistEntry.stored_id, rbind. rewrite Hm.
  cbn [Py.getitem]. by rewrite Hk.
Qed.

(** What [_deserialize] builds, whatever the record. *)
Lemma url_deserialize_shape (record : pyval) (pl : option Playlist) (e' : Entry)
    (lg : list event) :
  URLPlaylistEntry._deserialize record pl = (ok (Some e'), lg) ->
  _is_downloading e' = false
  /\ _waiting_futures e' = []
  /\ (filename e' <> VNone ->
       exists d, Py.getitem record "downloaded" = ok d /\ Py.truthy d = true).
Proof.
  unfold URLPlaylistEntry._deserialize, URLPlaylistEntry.assert_playlist.
  destruct pl as [pl|]; [|by destruct (_bad "playlist")].
  destruct (URLPlaylistEntry.load record pl) as [e|entry] eqn:Hload.
  { by destruct (is_Exception e). }
  intros [= <- <-]. revert Hload. unfold URLPlaylistEntry.load, rbind.
  destruct (Py.getitem record "url") as [|url]; [done|].
  destruct (Py.getitem record "title") as [|title]; [done|].
  destruct (Py.getitem record "duration") as [|duration]; [done|].
  destruct (Py.getitem record "downloaded") as [|downloaded]; [done|].
  destruct (if Py.truthy downloaded then Py.getitem record "filename" else ok VNone)
    as [|fname] eqn:Hfname; [done|].
  destruct (Py.getitem record "expected_filename") as [|expected]; [done|].
  destruct (Py.getitem record "meta") as [|m]; [done|].
  destruct (Py.contains "channel" m) as [|has_channel]; [done|].
  destruct (if has_channel then _ else _) as [|meta1]; [done|].
  destruct (Py.contains "author" m) as [|has_author]; [done|].
  destruct (if has_author then _ else _) as [|meta2]; [done|].
  intros [= <-]. cbn. repeat split; try done.
  intros Hne. exists downloaded. split; [done|].
  destruct (Py.truthy downloaded); [done|]. by injection Hfname as <-.
Qed.

(** C7.  A downloaded [URLPlaylistEntry] whose record is written and
    read back, with a resolver that finds every owner the record
    names, gives an entry that is downloaded at once, with the same
    [filename], not downloading and with no waiting future.  And
    whatever the record, an entry that [_deserialize] returns is not
    downloading, and has a [filename] only if the record's
    [downloaded] is true. *)
Theorem url_entry_round_trip (e : Entry) (url expected data : pyval) (pl : Playlist) :
  variant e = UrlFields url expected ->
  BasePlaylistEntry.is_downloaded e = true ->
  URLPlaylistEntry.json_data url expected e = ok data ->
  owners_resolve pl (meta e) ->
  (exists e',
      URLPlaylistEntry._deserialize data (Some pl) = (ok (Some e'), [])
      /\ BasePlaylistEntry.is_downloaded e' = true
      /\ filename e' = filename e
      /\ _is_downloading e' = false
      /\ _waiting_futures e' = []
      /\ variant e' = UrlFields url expected)
  /\ (forall record pl' e' lg,
        URLPlaylistEntry._deserialize record pl' = (ok (Some e'), lg) ->
        _is_downloading e' = false
        /\ (filename e' <> VNone ->
             exists d, Py.getitem record "downloaded" = ok d /\ Py.truthy d = true)).
Proof.
  intros Hvar Hready Hjson [Hch Hau].
  split.
  2:{ intros record pl' e' lg Hd.
      destruct (url_deserialize_shape _ _ _ _ Hd) as (H1 & _ & H3). done. }
  destruct (url_json_fields _ _ _ _ Hjson)
    as (m & Hm & Hurl & Htitle & Hdur & Hdown & Hfile & Hexp & Hmeta).
  assert (Htruthy : Py.truthy (filename e) = true).
  { unfold BasePlaylistEntry.is_downloaded in Hready.
    by destruct (_is_downloading e). }
  pose proof (meta_json_get _ _ Hm "channel") as Hmc.
  pose proof (meta_json_get _ _ Hm "author") as Hma.
  assert (Hload : exists meta',
    URLPlaylistEntry.load data pl =
    ok (with_is_downloading false
          (with_filename (filename e)
             (URLPlaylistEntry.__init__ pl url (title e) (duration e) expected meta')))).
  { unfold URLPlaylistEntry.load, rbind.
    rewrite Hurl, Htitle, Hdur, Hdown, Hready. cbn [Py.truthy].
    rewrite Hfile, Hexp, Hmeta. cbn [Py.contains].
    destruct (Obj.meta_get "channel" (meta e)) as [o|] eqn:Hoc.
    - destruct Hmc as (i & n & Hi & Hn & Hget). rewrite Hget.
      rewrite (stored_id_json data m "channel" o i n Hmeta Hget).
      destruct (Hch o eq_refl) as (i' & c & Hi' & Hres).
      assert (i' = i) as -> by congruence.
      rewrite Hres. cbn [URLPlaylistEntry.of_lookup Obj.meta_set].
      destruct (Obj.meta_get "author" (meta e)) as [a|] eqn:Hoa.
      + destruct Hma as (ia & na & Hia & Hna & Hgeta). rewrite Hgeta.
        destruct (Hau a eq_refl) as (o2 & i2 & c2 & ia2 & mem & Ho2 & Hi2 & Hc2 & Hia2 & Hmem).
        assert (o2 = o) as -> by congruence.
        assert (i2 = i) as -> by congruence.
        assert (c2 = c) as -> by congruence.
        assert (ia2 = ia) as -> by congruence.
        unfold URLPlaylistEntry.resolve_author, rbind.
        rewrite meta_item_head.
        rewrite (stored_id_json data m "author" a ia na Hmeta Hgeta).
        rewrite Hmem. by eexists.
      + rewrite Hma. by eexists.
    - rewrite Hmc.
      destruct (Obj.meta_get "author" (meta e)) as [a|] eqn:Hoa.
      + destruct (Hau a eq_refl) as (o2 & ? & ? & ? & ? & Ho2 & _). congruence.
      + rewrite Hma. by eexists. }
  destruct Hload as [meta' Hload].
  eexists. unfold URLPlaylistEntry._deserialize. rewrite Hload.
  split; [reflexivity|]. cbn.
  unfold BasePlaylistEntry.is_downloaded. cbn. by rewrite Htruthy.
Qed.

Lemma stream_deserialize_shape (record : pyval) (pl : option Playlist) (e' : Entry)
    (lg : list event) :
  StreamPlaylistEntry._deserialize record pl = (ok (Some e'), lg) ->
  exists u d,
    Py.getitem record "url" = ok u
    /\ Py.getitem record "direct" = ok d
    /\ variant e' = StreamFields u VNone d
    /\ filename e' = (if Py.truthy d then u else VNone)
    /\ _is_downloading e' = false
    /\ _waiting_futures e' = [].
Proof.
  unfold StreamPlaylistEntry._deserialize, URLPlaylistEntry.assert_playlist.
  destruct pl as [pl|]; [|by destruct (_bad "playlist")].
  destruct (StreamPlaylistEntry.load record pl) as [e|entry] eqn:Hload.
  { by destruct (is_Exception e). }
  intros [= <- <-]. revert Hload. unfold StreamPlaylistEntry.load, rbind.
  destruct (Py.getitem record "url") as [|u]; [done|].
  destruct (Py.getitem record "title") as [|title]; [done|].
  destruct (Py.getitem record "direct") as [|d]; [done|].
  destruct (Py.getitem record "meta") as [|m]; [done|].
  destruct (Py.contains "channel" m) as [|has_channel]; [done|].
  destruct (if has_channel then _ else _) as [|meta1]; [done|].
  destruct (Py.contains "author" m) as [|has_author]; [done|].
  destruct (if has_author then _ else _) as [|meta2]; [done|].
  intros [= <-]. exists u, d. unfold StreamPlaylistEntry.__init__.
  by destruct (Py.truthy d).
Qed.

(** C10.  The record of a [StreamPlaylistEntry] holds the version,
    the [_url] the entry was built with, the title, [direct] and the
    [meta] block, and nothing of [source_url] or [filename].  The
    entry read back from it has no [source_url]; its [filename] is
    that [_url] when [direct] is true and [None] otherwise, whatever
    [filename] and [source_url] the original had.  The same holds of
    the entry read from any record, in terms of the record's [url]
    and [direct]. *)
Theorem stream_record_forgets (e : Entry) (_url source_url direct data : pyval)
    (pl : Playlist) (e' : Entry) (lg : list event) :
  variant e = StreamFields _url source_url direct ->
  StreamPlaylistEntry.json_data _url direct e = ok data ->
  StreamPlaylistEntry._deserialize data (Some pl) = (ok (Some e'), lg) ->
  (exists m,
      data = VDict [("version", VInt 1); ("url", _url); ("title", title e);
                    ("direct", direct); ("meta", VDict m)])
  /\ variant e' = StreamFields _url VNone direct
  /\ filename e' = (if Py.truthy direct then _url else VNone)
  /\ _is_downloading e' = false
  /\ (Py.truthy direct = false -> BasePlaylistEntry.is_downloaded e' = false)
  /\ (forall record pl' e2 lg2,
        StreamPlaylistEntry._deserialize record pl' = (ok (Some e2), lg2) ->
        exists u d,
          Py.getitem record "url" = ok u
          /\ Py.getitem record "direct" = ok d
          /\ variant e2 = StreamFields u VNone d
          /\ filename e2 = (if Py.truthy d then u else VNone)
          /\ _is_downloading e2 = false).
Proof.
  intros Hvar Hjson Hload.
  assert (Hdata : exists m,
    data = VDict [("version", VInt 1); ("url", _url); ("title", title e);
                  ("direct", direct); ("meta", VDict m)]).
  { revert Hjson. unfold StreamPlaylistEntry.json_data, rbind.
    destruct (URLPlaylistEntry.meta_json (meta e)) as [|m]; [done|].
    intros [= <-]. by exists m. }
  destruct (stream_deserialize_shape _ _ _ _ Hload)
    as (u & d & Hu & Hd & Hv & Hf & Hdl & _).
  destruct Hdata as [m ->].
  assert (u = _url) as -> by (by injection Hu).
  assert (d = direct) as -> by (by injection Hd).
  split; [by exists m|]. do 3 (split; [done|]). split.
  - intros Hnd. unfold BasePlaylistEntry.is_downloaded.
    by rewrite Hdl, Hf, Hnd.
  - intros record pl' e2 lg2 H2.
    destruct (stream_deserialize_shape _ _ _ _ H2)
      as (u & d & ? & ? & ? & ? & ? & _).
    by exists u, d.
Qed.

Lemma load_batch_drop deserialize pl (before after : list pyval) (d : pyval) :
  fst (deserialize d (Some pl)) = ok None ->
  load_batch deserialize pl (before ++ d :: after)
  = load_batch deserialize pl (before ++ after).
Proof.
  intros Hd. induction before as [|r before IH]; cbn [app load_batch].
  - destruct (deserialize d (Some pl)) as [[e|[x|]] lg]; try done.
    cbn. by destruct (load_batch deserialize pl after).
  - by rewrite IH.
Qed.

Lemma load_batch_all deserialize pl (records : list pyval) :
  (forall r, r ∈ records -> exists e, fst (deserialize r (Some pl)) = ok (Some e)) ->
  exists l, load_batch deserialize pl records = ok l /\ length l = length records.
Proof.
  induction records as [|r records IH]; intros Hall; cbn [load_batch].
  - by exists [].
  - destruct (Hall r) as [e He]; [by left|].
    destruct IH as (l & Hl & Hlen).
    { intros r' Hr'. apply Hall. by right. }
    exists (e :: l).
    destruct (deserialize r (Some pl)) as [[x|[x|]] lg]; try done.
    cbn in He. injection He as ->. rewrite Hl. cbn. by rewrite Hlen.
Qed.

Ltac read_field k d :=
  let v := fresh "v" in
  let E := fresh "E" in
  destruct (Py.dict_get k d) as [v|] eqn:E; [|by eexists].

Ltac absent_field Hin :=
  repeat (apply elem_of_cons in Hin as [->|Hin]; [congruence|]);
  by apply elem_of_nil in Hin.

Lemma resolve_author_fails (data : pyval) (meta : list (string * pyobj)) (v : pyval) :
  Obj.meta_get "channel" meta = None \/ Obj.meta_get "channel" meta = Some (OVal v) ->
  exists e, URLPlaylistEntry.resolve_author data meta = raise e
            /\ is_Exception e = true.
Proof.
  unfold URLPlaylistEntry.resolve_author, Obj.meta_item, rbind.
  intros [-> | ->]; by eexists.
Qed.

Lemma url_load_rejects (pl : Playlist) (d : list (string * pyval)) :
  rejected false pl d ->
  exists e, URLPlaylistEntry.load (VDict d) pl = raise e /\ is_Exception e = true.
Proof.
  intros Hrej. unfold URLPlaylistEntry.load, URLPlaylistEntry.stored_id, rbind.
  cbn [Py.getitem].
  read_field "url" d. read_field "title" d. read_field "duration" d.
  read_field "downloaded" d.
  destruct (Py.truthy v2) eqn:Hdl.
  - read_field "filename" d. read_field "expected_filename" d. read_field "meta" d.
    destruct Hrej as [[(k & Hin & Hk) | (_ & dl & ? & ? & ?)] | (m & Hm & Hau & Hch)];
      [absent_field Hin | congruence |].
    assert (v5 = VDict m) as -> by congruence. cbn [Py.contains Py.getitem].
    destruct (Py.dict_get "author" m) as [a|] eqn:Ha; [|done].
    destruct Hch as [-> | (c & i & -> & -> & ->)].
    + destruct (resolve_author_fails (VDict d) [] VNone) as (e & -> & He);
        [by left|by exists e].
    + cbn [URLPlaylistEntry.of_lookup Obj.meta_set].
      destruct (resolve_author_fails (VDict d) [("channel", OVal VNone)] VNone)
        as (e & -> & He); [by right|by exists e].
  - read_field "expected_filename" d. read_field "meta" d.
    destruct Hrej as [[(k & Hin & Hk) | (_ & dl & ? & ? & ?)] | (m & Hm & Hau & Hch)];
      [absent_field Hin | congruence |].
    assert (v4 = VDict m) as -> by congruence. cbn [Py.contains Py.getitem].
    destruct (Py.dict_get "author" m) as [a|] eqn:Ha; [|done].
    destruct Hch as [-> | (c & i & -> & -> & ->)].
    + destruct (resolve_author_fails (VDict d) [] VNone) as (e & -> & He);
        [by left|by exists e].
    + cbn [URLPlaylistEntry.of_lookup Obj.meta_set].
      destruct (resolve_author_fails (VDict d) [("channel", OVal VNone)] VNone)
        as (e & -> & He); [by right|by exists e].
Qed.

Lemma getitem_is_exception (c : pyval) (k : string) (e : exn) :
  Py.getitem c k = raise e -> is_Exception e = true.
Proof.
  unfold Py.getitem. destruct c; try by intros [= <-].
  destruct (Py.dict_get k d); [done|]. by intros [= <-].
Qed.

Lemma stream_load_rejects (pl : Playlist) (d : list (string * pyval)) :
  rejected true pl d ->
  exists e, StreamPlaylistEntry.load (VDict d) pl = raise e /\ is_Exception e = true.
Proof.
  intros Hrej.
  unfold StreamPlaylistEntry.load, StreamPlaylistEntry.channel_or_name,
    URLPlaylistEntry.stored_id, rbind.
  cbn [Py.getitem].
  read_field "url" d. read_field "title" d. read_field "direct" d.
  read_field "meta" d.
  destruct Hrej as [[(k & Hin & Hk) | (? & _)] | (m & Hm & Hau & Hch)];
    [absent_field Hin | done |].
  assert (v2 = VDict m) as -> by congruence. cbn [Py.contains Py.getitem].
  destruct (Py.dict_get "author" m) as [a|] eqn:Ha; [|done].
  destruct Hch as [-> | (c & i & -> & -> & ->)].
  - destruct (resolve_author_fails (VDict d) [] VNone) as (e & -> & He);
      [by left|by exists e].
  - destruct (Py.getitem c "name") as [e|n] eqn:Hn.
    + exists e. split; [done|]. by eapply getitem_is_exception.
    + cbn [Obj.meta_set].
      destruct (resolve_author_fails (VDict d) [("channel", OVal n)] n)
        as (e & -> & He); [by right|by exists e].
Qed.

Ltac present_field Hreq k d :=
  let v := fresh "v" in
  let E := fresh "E" in
  destruct (Py.dict_get k d) as [v|] eqn:E;
  [|exfalso; apply (Hreq k);
    [repeat first [apply list_elem_of_here | apply list_elem_of_further]|done]].

(** What [load] reads from a complete URL record before it turns to
    the owners. *)
Lemma url_load_complete (pl : Playlist) (d m : list (string * pyval)) :
  complete_record false d m ->
  exists url title duration fname expected,
    URLPlaylistEntry.load (VDict d) pl
    = rbind (Py.contains "channel" (VDict m))
        (fun has_channel : bool =>
           rbind (if has_channel then
                    rbind (URLPlaylistEntry.stored_id (VDict d) "channel")
                      (fun id =>
                         rbind (bot_get_channel pl id)
                           (fun r =>
                              ok (Obj.meta_set "channel"
                                    (URLPlaylistEntry.of_lookup OChannel r) [])))
                  else ok [])
             (fun meta1 =>
                rbind (Py.contains "author" (VDict m))
                  (fun has_author : bool =>
                     rbind (if has_author
                            then URLPlaylistEntry.resolve_author (VDict d) meta1
                            else ok meta1)
                       (fun meta =>
                          ok (with_is_downloading false
                                (with_filename fname
                                   (URLPlaylistEntry.__init__ pl url title duration
                                      expected meta))))))).
Proof.
  intros (Hreq & Hfile & Hmeta). cbn [required_fields] in Hreq.
  unfold URLPlaylistEntry.load. cbn [Py.getitem].
  present_field Hreq "url" d. present_field Hreq "title" d.
  present_field Hreq "duration" d. present_field Hreq "downloaded" d.
  present_field Hreq "expected_filename" d.
  rewrite Hmeta. cbn [rbind].
  destruct (Py.truthy v2) eqn:Hdl.
  - destruct (Py.dict_get "filename" d) as [fname|] eqn:Hf;
      [|by destruct (Hfile eq_refl v2 eq_refl Hdl)].
    cbn [rbind]. by exists v, v0, v1, fname, v3.
  - cbn [rbind]. by exists v, v0, v1, VNone, v3.
Qed.

Lemma stream_load_complete (pl : Playlist) (d m : list (string * pyval)) :
  complete_record true d m ->
  exists url title direct,
    StreamPlaylistEntry.load (VDict d) pl
    = rbind (Py.contains "channel" (VDict m))
        (fun has_channel : bool =>
           rbind (if has_channel then
                    rbind (URLPlaylistEntry.stored_id (VDict d) "channel")
                      (fun id =>
                         rbind (bot_get_channel pl id)
                           (fun ch =>
                              rbind (StreamPlaylistEntry.channel_or_name (VDict d) ch)
                                (fun v => ok (Obj.meta_set "channel" v []))))
                  else ok [])
             (fun meta1 =>
                rbind (Py.contains "author" (VDict m))
                  (fun has_author : bool =>
                     rbind (if has_author
                            then URLPlaylistEntry.resolve_author (VDict d) meta1
                            else ok meta1)
                       (fun meta =>
                          ok (StreamPlaylistEntry.__init__ pl url title direct VNone
                                meta))))).
Proof.
  intros (Hreq & _ & Hmeta). cbn [required_fields] in Hreq.
  unfold StreamPlaylistEntry.load. cbn [Py.getitem].
  present_field Hreq "url" d. present_field Hreq "title" d.
  present_field Hreq "direct" d.
  rewrite Hmeta. cbn [rbind]. by exists v, v0, v1.
Qed.

(** The id of an owner whose block is in the record. *)
Lemma stored_id_block (d m : list (string * pyval)) (k : string) (o i : pyval) :
  Py.dict_get "meta" d = Some (VDict m) ->
  Py.dict_get k m = Some o ->
  Py.getitem o "id" = ok i ->
  URLPlaylistEntry.stored_id (VDict d) k = ok i.
Proof.
  intros Hmeta Hk Hi. unfold URLPlaylistEntry.stored_id. cbn [Py.getitem].
  rewrite Hmeta. cbn [rbind Py.getitem]. rewrite Hk. cbn [rbind]. exact Hi.
Qed.

(** C8, as the code has it.  For a record of either class that is a
    dictionary: when a field that [_deserialize] reads is absent, or
    when the record names an author and its channel is absent from
    the record or unknown to the resolver, [_deserialize] returns
    [None], raises nothing and logs one error record; a batch with
    such a record gives what the batch without it gives, so one entry
    less than it has records when all the others load.  An owner the
    resolver does not know does not by itself fail a record that has
    the fields read and a dictionary as [meta].  With a channel block
    whose id the resolver does not know and no author, a URL record
    gives an entry whose channel is [None]; a stream record gives an
    entry whose channel is the name in the block, and fails like a
    record without a field when the block has no name.  With a
    channel the resolver finds and an author block whose id the
    channel's server does not know, the record gives an entry with
    that channel and [None] as author. *)
Theorem deserialize_rejects (stream : bool) (pl : Playlist) (d : list (string * pyval)) :
  (rejected stream pl d ->
   (exists e,
       deserializer stream (VDict d) (Some pl)
       = (ok None, [Log ERROR "Could not load {}" [VStr (class_of stream)] (Some e)]))
   /\ (forall before after,
         load_batch (deserializer stream) pl (before ++ VDict d :: after)%list
         = load_batch (deserializer stream) pl (before ++ after)%list)
   /\ (forall before after,
         (forall r, r ∈ (before ++ after)%list ->
            exists e, fst (deserializer stream r (Some pl)) = ok (Some e)) ->
         exists l,
           load_batch (deserializer stream) pl (before ++ VDict d :: after)%list = ok l
           /\ S (length l) = length (before ++ VDict d :: after)%list))
  /\ (forall m c i,
        complete_record stream d m ->
        Py.dict_get "channel" m = Some c ->
        Py.getitem c "id" = ok i ->
        bot_get_channel pl i = ok None ->
        (stream = false -> Py.dict_get "author" m = None ->
         exists e,
           deserializer stream (VDict d) (Some pl) = (ok (Some e), [])
           /\ meta e = [("channel", OVal VNone)])
        /\ (forall n,
              stream = true -> Py.dict_get "author" m = None ->
              Py.getitem c "name" = ok n ->
              exists e,
                deserializer stream (VDict d) (Some pl) = (ok (Some e), [])
                /\ meta e = [("channel", OVal n)])
        /\ (forall x,
              stream = true -> Py.getitem c "name" = raise x ->
              deserializer stream (VDict d) (Some pl)
              = (ok None,
                 [Log ERROR "Could not load {}" [VStr (class_of stream)] (Some x)])))
  /\ (forall m c i ch a ia,
        complete_record stream d m ->
        Py.dict_get "channel" m = Some c ->
        Py.getitem c "id" = ok i ->
        bot_get_channel pl i = ok (Some ch) ->
        Py.dict_get "author" m = Some a ->
        Py.getitem a "id" = ok ia ->
        server_get_member ch ia = ok None ->
        exists e,
          deserializer stream (VDict d) (Some pl) = (ok (Some e), [])
          /\ meta e = [("channel", OChannel ch); ("author", OVal VNone)]).
Proof.
  split; [|split].
  - intros Hrej.
    assert (Hnone : exists e,
      deserializer stream (VDict d) (Some pl)
      = (ok None, [Log ERROR "Could not load {}" [VStr (class_of stream)] (Some e)])).
    { destruct stream; unfold deserializer, class_of.
      - destruct (stream_load_rejects pl d Hrej) as (e & He & Hexc).
        exists e. unfold StreamPlaylistEntry._deserialize. by rewrite He, Hexc.
      - destruct (url_load_rejects pl d Hrej) as (e & He & Hexc).
        exists e. unfold URLPlaylistEntry._deserialize. by rewrite He, Hexc. }
    assert (Hfst : fst (deserializer stream (VDict d) (Some pl)) = ok None).
    { destruct Hnone as [e ->]. done. }
    split; [done|]. split.
    + intros before after. by apply load_batch_drop.
    + intros before after Hall.
      destruct (load_batch_all (deserializer stream) pl (before ++ after)%list Hall)
        as (l & Hl & Hlen).
      exists l. rewrite load_batch_drop by done. split; [done|].
      rewrite Hlen, !length_app. cbn. lia.
  - intros m c i Hcomplete Hc Hi Hres.
    pose proof Hcomplete as (_ & _ & Hmeta).
    pose proof (stored_id_block d m "channel" c i Hmeta Hc Hi) as Hid.
    split; [|split].
    + intros -> Hauthor.
      destruct (url_load_complete pl d m Hcomplete)
        as (url & title & duration & fname & expected & Hload).
      eexists. unfold deserializer, URLPlaylistEntry._deserialize. rewrite Hload.
      cbn [Py.contains]. rewrite Hc, Hauthor. cbn [rbind]. rewrite Hid. cbn [rbind].
      rewrite Hres. cbn [rbind URLPlaylistEntry.of_lookup Obj.meta_set].
      split; reflexivity.
    + intros n -> Hauthor Hn.
      destruct (stream_load_complete pl d m Hcomplete) as (url & title & direct & Hload).
      eexists. unfold deserializer, StreamPlaylistEntry._deserialize. rewrite Hload.
      cbn [Py.contains]. rewrite Hc, Hauthor. cbn [rbind]. rewrite Hid. cbn [rbind].
      rewrite Hres. cbn [rbind]. unfold StreamPlaylistEntry.channel_or_name.
      cbn [Py.getitem]. rewrite Hmeta. cbn [rbind Py.getitem]. rewrite Hc.
      cbn [rbind]. rewrite Hn. cbn [rbind Obj.meta_set].
      split; [reflexivity|]. unfold StreamPlaylistEntry.__init__.
      by destruct (Py.truthy direct).
    + intros x -> Hn.
      destruct (stream_load_complete pl d m Hcomplete) as (url & title & direct & Hload).
      unfold deserializer, StreamPlaylistEntry._deserialize, class_of. rewrite Hload.
      cbn [Py.contains]. rewrite Hc. cbn [rbind]. rewrite Hid. cbn [rbind].
      rewrite Hres. cbn [rbind]. unfold StreamPlaylistEntry.channel_or_name.
      cbn [Py.getitem]. rewrite Hmeta. cbn [rbind Py.getitem]. rewrite Hc.
      cbn [rbind]. rewrite Hn. cbn [rbind].
      by rewrite (getitem_is_exception _ _ _ Hn).
  - intros m c i ch a ia Hcomplete Hc Hi Hres Ha Hia Hmem.
    pose proof Hcomplete as (_ & _ & Hmeta).
    pose proof (stored_id_block d m "channel" c i Hmeta Hc Hi) as Hid.
    pose proof (stored_id_block d m "author" a ia Hmeta Ha Hia) as Hida.
    destruct stream.
    + destruct (stream_load_complete pl d m Hcomplete) as (url & title & direct & Hload).
      eexists. unfold deserializer, StreamPlaylistEntry._deserialize. rewrite Hload.
      cbn [Py.contains]. rewrite Hc, Ha. cbn [rbind]. rewrite Hid. cbn [rbind].
      rewrite Hres. cbn [rbind StreamPlaylistEntry.channel_or_name Obj.meta_set].
      unfold URLPlaylistEntry.resolve_author. rewrite meta_item_head. cbn [rbind].
      rewrite Hida. cbn [rbind]. rewrite Hmem. cbn [rbind URLPlaylistEntry.of_lookup].
      split; [reflexivity|]. unfold StreamPlaylistEntry.__init__.
      by destruct (Py.truthy direct).
    + destruct (url_load_complete pl d m Hcomplete)
        as (url & title & duration & fname & expected & Hload).
      eexists. unfold deserializer, URLPlaylistEntry._deserialize. rewrite Hload.
      cbn [Py.contains]. rewrite Hc, Ha. cbn [rbind]. rewrite Hid. cbn [rbind].
      rewrite Hres. cbn [rbind URLPlaylistEntry.of_lookup Obj.meta_set].
      unfold URLPlaylistEntry.resolve_author. rewrite meta_item_head. cbn [rbind].
      rewrite Hida. cbn [rbind]. rewrite Hmem. cbn [rbind URLPlaylistEntry.of_lookup].
      split; reflexivity.
Qed.

End Persistence.

(** ** [StreamPlaylistEntry._download] *)

Section StreamDownload.
Context `{Environment}.

(** The whole of [StreamPlaylistEntry._download]. *)
Lemma run_stream_download (_url : pyval) (w : World) :
  let ans := extract_info _url false (fs w) in
  let called :=
    with_fs (snd ans)
      (emit (Call (ExtractInfo _url false)) (Stmt.set_is_downloading true w)) in
  run (StreamPlaylistEntry._download _url) w =
  match fst ans with
  | Raised e =>
      (raise (if is_Exception e then ExtractionError e else e),
       Stmt.set_is_downloading false called)
  | Returned r =>
      match Py.getitem r "url" with
      | inl e => (raise e, Stmt.set_is_downloading false called)
      | inr u =>
          (ok tt,
           Stmt.set_is_downloading false
             (with_self (with_filename u (self called)) called))
      end
  end.
Proof.
  intros ans called. unfold StreamPlaylistEntry._download.
  rewrite run_bind, run_modify. cbv beta iota.
  rewrite run_try_finally, run_bind, run_try_except, run_await.
  unfold answer. cbn [fs Stmt.set_is_downloading with_self emit with_log].
  fold ans. fold called.
  destruct (fst ans) as [e|r].
  - destruct (is_Exception e); [by rewrite run_throw|done].
  - rewrite run_bind, run_of_result.
    destruct (Py.getitem r "url") as [e|u]; [done|].
    by rewrite run_set_filename.
Qed.

Lemma run_download_stream (w : World) (_url source_url direct : pyval) :
  variant (self w) = StreamFields _url source_url direct ->
  run _download w = run (StreamPlaylistEntry._download _url) w.
Proof. intros Hvar. unfold run, _download. by rewrite Hvar. Qed.

Lemma run_download_url (w : World) (url expected : pyval) :
  variant (self w) = UrlFields url expected ->
  run _download w = run (URLPlaylistEntry._download url expected) w.
Proof. intros Hvar. unfold run, _download. by rewrite Hvar. Qed.

Lemma stream_download_frame (_url : pyval) (w : World) :
  let w' := snd (run (StreamPlaylistEntry._download _url) w) in
  futures w' = futures w
  /\ _waiting_futures (self w') = _waiting_futures (self w)
  /\ _is_downloading (self w') = false
  /\ scheduled w' = scheduled w
  /\ log w' = (log w ++ [Call (ExtractInfo _url false)])%list.
Proof.
  cbv zeta. rewrite run_stream_download. cbv zeta.
  destruct (fst (extract_info _url false (fs w))) as [e|r]; [done|].
  by destruct (Py.getitem r "url").
Qed.

(** C1 fails on stream entries.  A future handed out by
    [get_ready_future] for a stream entry that is not downloaded is
    still pending and still on the waiting list when the
    [_download] that was scheduled for it has finished, with a result
    or with an exception: [StreamPlaylistEntry._download] clears
    the downloading flag and notifies nobody. *)
Theorem stream_waiter_never_notified (w : World) (_url source_url direct : pyval) :
  variant (self w) = StreamFields _url source_url direct ->
  BasePlaylistEntry.is_downloaded (self w) = false ->
  let future := length (futures w) in
  let asked := snd (BasePlaylistEntry.get_ready_future w) in
  let finished := snd (run _download asked) in
  fst (BasePlaylistEntry.get_ready_future w) = ok future
  /\ scheduled asked = (scheduled w ++ [Download (self_id w)])%list
  /\ futures finished !! future = Some FPending
  /\ future ∈ _waiting_futures (self finished)
  /\ _is_downloading (self finished) = false.
Proof.
  intros Hvar Hnot future asked finished.
  assert (Hasked : BasePlaylistEntry.get_ready_future w =
    (ok future,
     with_self (with_waiting_futures (_waiting_futures (self w) ++ [future])%list (self w))
       (with_scheduled (scheduled w ++ [Download (self_id w)])%list
          (with_futures (futures w ++ [FPending])%list w)))).
  { unfold BasePlaylistEntry.get_ready_future, Fut.create.
    cbn [self with_futures]. by rewrite Hnot. }
  unfold finished, asked. rewrite Hasked. cbn [fst snd].
  split; [done|]. split; [done|].
  rewrite (run_download_stream _ _url source_url direct) by done.
  match goal with
  | |- context [run (StreamPlaylistEntry._download _url) ?w1] =>
      destruct (stream_download_frame _url w1) as (Hf & Hw & Hd & _)
  end.
  rewrite Hf, Hw, Hd. cbn [futures with_self with_scheduled with_futures self
                            _waiting_futures with_waiting_futures].
  split; [apply lookup_snoc|]. split; [|done].
  apply elem_of_app. right. by apply list_elem_of_singleton.
Qed.

(** [get_ready_future] on an entry that is not downloaded, seen from
    the loop: a pending future joins the heap and the waiting list,
    and [_download] joins the ready queue. *)
Lemma request_ready_pending (l : Loop) :
  BasePlaylistEntry.is_downloaded (self (world l)) = false ->
  scheduled (world l) = [] ->
  exists l',
    step RequestReady l = l'
    /\ world l' =
       with_self
         (with_waiting_futures
            (_waiting_futures (self (world l)) ++ [length (futures (world l))])%list
            (self (world l)))
         (with_futures (futures (world l) ++ [FPending])%list (world l))
    /\ ready l' = (ready l ++ [_download])%list
    /\ blocked l' = blocked l
    /\ finished l' = finished l.
Proof.
  intros Hnot Hs. eexists. split; [reflexivity|].
  unfold step, BasePlaylistEntry.get_ready_future, Fut.create.
  cbn [self with_futures]. rewrite Hnot. unfold collect.
  destruct l as [[i0 e0 fu0 sc0 fs0 lg0] r0 b0 f0]. cbn in *. subst. done.
Qed.

(** The loop runs a ready coroutine that suspends. *)
Lemma run_next_suspends (l : Loop) (c : coro unit) (rest : list (coro unit))
    (req : request) (w' : World) (k : response -> coro unit) :
  ready l = c :: rest ->
  c (world l) = Susp req w' k ->
  exists l',
    step RunNext l = l'
    /\ world l' = with_scheduled [] w'
    /\ ready l' = (rest ++ map start (scheduled w'))%list
    /\ blocked l' = (blocked l ++ [(req, k)])%list
    /\ finished l' = finished l.
Proof.
  intros Hr Hc. eexists. split; [reflexivity|].
  unfold step. rewrite Hr, Hc. done.
Qed.

(** A stream [_download] reaches the extractor at once, whatever the
    downloading flag says. *)
Lemma stream_download_start (w : World) (_url source_url direct : pyval) :
  variant (self w) = StreamFields _url source_url direct ->
  exists k,
    _download w =
    Susp (ExtractInfo _url false)
      (emit (Call (ExtractInfo _url false)) (Stmt.set_is_downloading true w)) k.
Proof.
  intros Hvar. unfold _download. rewrite Hvar.
  unfold StreamPlaylistEntry._download. cbn. by eexists.
Qed.

(** C2 fails on stream entries.  [StreamPlaylistEntry._download]
    calls the extractor whether or not the entry is downloading, and
    two [get_ready_future] calls on a stream entry that is not
    downloaded put two coroutines on the loop that both reach the
    extractor: two calls, two coroutines suspended at once. *)
Theorem stream_download_not_guarded (w : World) (_url source_url direct : pyval) :
  variant (self w) = StreamFields _url source_url direct ->
  BasePlaylistEntry.is_downloaded (self w) = false ->
  scheduled w = [] ->
  (extract_calls (snd (run _download w)) = S (extract_calls w))
  /\ (let l := exec [RequestReady; RequestReady; RunNext; RunNext] (idle w) in
      length (blocked l) = 2%nat
      /\ ready l = []
      /\ finished l = []
      /\ extract_calls (world l) = S (S (extract_calls w))
      /\ _is_downloading (self (world l)) = true).
Proof.
  intros Hvar Hnot Hidle. split.
  - rewrite (run_download_stream _ _url source_url direct) by done.
    destruct (stream_download_frame _url w) as (_ & _ & _ & _ & Hlog).
    unfold extract_calls. rewrite Hlog, List.filter_app, length_app. cbn. lia.
  - unfold exec. cbn [fold_left].
    destruct (request_ready_pending (idle w)) as (l1 & -> & Hw1 & Hr1 & Hb1 & Hf1);
      [done|done|].
    cbn [idle world ready blocked finished app] in Hw1, Hr1, Hb1, Hf1.
    destruct (request_ready_pending l1) as (l2 & -> & Hw2 & Hr2 & Hb2 & Hf2).
    { by rewrite Hw1. }
    { by rewrite Hw1. }
    rewrite Hr1 in Hr2. rewrite Hb1 in Hb2. rewrite Hf1 in Hf2.
    cbn [app] in Hr2.
    destruct (stream_download_start (world l2) _url source_url direct) as (k1 & Hk1).
    { by rewrite Hw2, Hw1. }
    destruct (run_next_suspends l2 _ _ _ _ _ Hr2 Hk1)
      as (l3 & -> & Hw3 & Hr3 & Hb3 & Hf3).
    rewrite Hb2 in Hb3. rewrite Hf2 in Hf3.
    assert (Hs2 : scheduled (world l2) = []) by (by rewrite Hw2, Hw1).
    cbn [scheduled emit with_log Stmt.set_is_downloading with_self] in Hr3.
    rewrite Hs2 in Hr3. cbn [map app] in Hr3.
    destruct (stream_download_start (world l3) _url source_url direct) as (k2 & Hk2).
    { by rewrite Hw3, Hw2, Hw1. }
    destruct (run_next_suspends l3 _ _ _ _ _ Hr3 Hk2)
      as (l4 & -> & Hw4 & Hr4 & Hb4 & Hf4).
    rewrite Hb3 in Hb4. rewrite Hf3 in Hf4.
    rewrite Hb4, Hr4, Hf4, Hw4, Hw3.
    cbn [scheduled emit with_log Stmt.set_is_downloading with_self with_scheduled
           self _is_downloading with_is_downloading log].
    do 3 (split; [done|]). split; [|done].
    unfold extract_calls.
    cbn [log emit with_log Stmt.set_is_downloading with_self with_scheduled].
    rewrite Hw2, Hw1. cbn [log with_self with_futures].
    rewrite !List.filter_app, !length_app. cbn. lia.
Qed.

End StreamDownload.

(** ** The properties on the small playlist *)

Section OnDemo.
#[local] Existing Instance Demo.env.

(** C3 on a downloaded track with one future already on the heap. *)
Lemma get_ready_future_downloaded_witness :
  let w :=
    Demo.in_world (with_filename (VStr "audio_cache/youtube-track.webm") Demo.named_track)
      [FPending] Demo.cache in
  BasePlaylistEntry.is_downloaded (self w) = true
  /\ fst (BasePlaylistEntry.get_ready_future w) = ok 1%nat
  /\ futures (snd (BasePlaylistEntry.get_ready_future w)) = [FPending; FResult 7]
  /\ scheduled (snd (BasePlaylistEntry.get_ready_future w)) = []
  /\ _waiting_futures (self (snd (BasePlaylistEntry.get_ready_future w))) = [].
Proof.
  intros w.
  assert (Hready : BasePlaylistEntry.is_downloaded (self w) = true) by reflexivity.
  destruct (get_ready_future_downloaded w Hready) as (H1 & _ & H3 & H4 & H5 & _).
  split; [exact Hready|]. split; [exact H1|]. split; [exact H3|].
  split; [exact H5|]. rewrite H4. reflexivity.
Defined.

(** C9 on three waiting futures, the second one cancelled. *)
Lemma for_each_future_notifies_witness :
  let w :=
    Demo.in_world (with_waiting_futures [0; 1; 2]%nat Demo.named_track)
      [FPending; FCancelled; FPending] Demo.cache in
  let w' := BasePlaylistEntry._for_each_future (Fut.set_result 7) w in
  NoDup (_waiting_futures (self w))
  /\ _waiting_futures (self w') = []
  /\ futures w' !! 0%nat = Some (FResult 7)
  /\ futures w' !! 1%nat = Some FCancelled
  /\ futures w' !! 2%nat = Some (FResult 7)
  /\ log w' = [].
Proof.
  intros w w'.
  assert (Hnd : NoDup (_waiting_futures (self w))) by compute_done.
  destruct (for_each_future_notifies (Fut.resolving (FResult 7)) w Hnd)
    as (H1 & _ & H3 & H4 & _ & H6 & _).
  split; [exact Hnd|]. split; [exact H1|].
  split; [apply (H4 0%nat FPending); [compute_done|reflexivity|discriminate]|].
  split; [apply (H3 1%nat); [compute_done|reflexivity]|].
  split; [apply (H4 2%nat FPending); [compute_done|reflexivity|discriminate]|].
  exact H6.
Defined.



(** C5 on a cache that holds the track under another extension (it is
    reused), and on an empty cache (the track is fetched, and
    [filename] is the name the extractor prepared). *)
Lemma named_extractor_cache_witness :
  let hit := Demo.in_world Demo.named_track [] Demo.cache in
  let miss := Demo.in_world Demo.named_track [] Demo.empty_cache in
  let body :=
    URLPlaylistEntry.fetch_or_reuse (VStr "http://host/track.mp3")
      (VStr "audio_cache/youtube-track.m4a") in
  PyStr.first (PyStr.split "-"%char (OsPath.basename "audio_cache/youtube-track.m4a"))
  <> "generic"
  /\ Fs.listdir "audio_cache" (fs hit)
     = ok ["generic-track-0000005a.mp3"; "youtube-track.webm"; "youtube-other.m4a"]
  /\ filename (self (snd (run body hit))) = VStr "audio_cache/youtube-track.webm"
  /\ fetch_calls (snd (run body hit)) = 0%nat
  /\ Fs.listdir "audio_cache" (fs miss) = ok []
  /\ fetch_calls (snd (run body miss)) = 1%nat
  /\ filename (self (snd (run body miss))) = VStr "audio_cache/generic-track.mp3"
  /\ Fs.lookup "audio_cache/generic-track.mp3" (fs (snd (run body miss)))
     = Some (Fs.File "hello").
Proof.
  intros hit miss body.
  assert (H1 : PyStr.first (PyStr.split "-"%char
                 (OsPath.basename "audio_cache/youtube-track.m4a")) <> "generic")
    by discriminate.
  assert (H2 : Fs.listdir (download_folder (playlist (self hit))) (fs hit)
               = ok ["generic-track-0000005a.mp3"; "youtube-track.webm";
                     "youtube-other.m4a"]) by reflexivity.
  assert (H3 : Fs.listdir (download_folder (playlist (self miss))) (fs miss) = ok [])
    by reflexivity.
  destruct (named_extractor_cache hit (VStr "http://host/track.mp3")
              "audio_cache/youtube-track.m4a" _ H1 H2) as (_ & Hdrift & _).
  destruct Hdrift as (i & name & Hi & Hn & _ & _ & Hrun & Hcalls);
    [compute_done|compute_done|].
  assert (i = 1%nat) as -> by (vm_compute in Hi; congruence).
  assert (name = "youtube-track.webm") as -> by (vm_compute in Hn; congruence).
  destruct (named_extractor_cache (H:=Demo.env) miss (VStr "http://host/track.mp3")
              "audio_cache/youtube-track.m4a" _ H1 H3) as (_ & _ & Hmiss).
  destruct Hmiss as (_ & Hcount & Hresult);
    [by intros ?%elem_of_nil|by intros ?%elem_of_nil|].
  destruct (Hresult (VDict [("url", VStr "http://host/track.mp3"); ("id", VStr "track")])
              eq_refl ltac:(discriminate)) as (_ & Hname & Hfs).
  split; [exact H1|]. split; [exact H2|].
  split; [fold body in Hrun; rewrite Hrun; reflexivity|].
  split; [exact Hcalls|]. split; [exact H3|]. split; [exact Hcount|].
  split; [exact Hname|]. fold body in Hfs. rewrite Hfs. reflexivity.
Defined.

(** C6 on an empty cache: the fetched file gets its hashed name. *)
Lemma really_download_spec_witness :
  let w := Demo.in_world Demo.generic_track [] Demo.empty_cache in
  let w' := snd (run (URLPlaylistEntry._really_download (VStr "http://host/track.mp3") true) w) in
  filename (self w') = VStr "audio_cache/generic-track-0000005a.mp3"
  /\ Fs.lookup "audio_cache/generic-track-0000005a.mp3" (fs w') = Some (Fs.File "hello")
  /\ Fs.lookup "audio_cache/generic-track.mp3" (fs w') = None
  /\ fst (run (URLPlaylistEntry._really_download (VStr "http://host/none") true) w)
     = raise (ExtractionErrorMsg "ytdl broke and hell if I know why")
  /\ fst (run (URLPlaylistEntry._really_download (VStr "http://host/gone") true) w)
     = raise (ExtractionError (Foreign "DownloadError" true)).
Proof.
  intros w w'.
  destruct (really_download_spec w (VStr "http://host/track.mp3")) as (_ & _ & Hhash).
  destruct (Hhash (VDict [("url", VStr "http://host/track.mp3"); ("id", VStr "track")])
              "audio_cache/generic-track" "mp3" "hello"
              eq_refl ltac:(discriminate) eq_refl eq_refl eq_refl) as (_ & Hrename).
  destruct (Hrename eq_refl eq_refl eq_refl eq_refl)
    as (renamed & _ & Hrun & Hnew & Hold).
  destruct (really_download_spec w (VStr "http://host/none")) as (_ & Hnone & _).
  destruct (really_download_spec w (VStr "http://host/gone")) as (Hraise & _ & _).
  unfold w'. rewrite Hrun, (Hnone true eq_refl),
    (Hraise true (Foreign "DownloadError" true) eq_refl eq_refl).
  split; [reflexivity|]. split; [exact Hnew|]. split; [exact Hold|].
  split; reflexivity.
Defined.

(** C7 on a downloaded track with a channel and an author. *)
Lemma url_entry_round_trip_witness :
  let e := with_filename (VStr "audio_cache/youtube-track.webm") Demo.named_track in
  let data :=
    VDict [("version", VInt 1); ("url", VStr "http://host/track.mp3");
           ("title", VStr "Track"); ("duration", VInt 180);
           ("downloaded", VBool true);
           ("expected_filename", VStr "audio_cache/youtube-track.m4a");
           ("filename", VStr "audio_cache/youtube-track.webm");
           ("meta", VDict Demo.known)] in
  BasePlaylistEntry.is_downloaded e = true
  /\ URLPlaylistEntry.json_data (VStr "http://host/track.mp3")
       (VStr "audio_cache/youtube-track.m4a") e = ok data
  /\ owners_resolve Demo.playlist (meta e)
  /\ exists e',
       URLPlaylistEntry._deserialize data (Some Demo.playlist) = (ok (Some e'), [])
       /\ BasePlaylistEntry.is_downloaded e' = true
       /\ filename e' = VStr "audio_cache/youtube-track.webm".
Proof.
  intros e data.
  assert (H1 : BasePlaylistEntry.is_downloaded e = true) by reflexivity.
  assert (H2 : URLPlaylistEntry.json_data (VStr "http://host/track.mp3")
                 (VStr "audio_cache/youtube-track.m4a") e = ok data) by reflexivity.
  assert (H3 : owners_resolve Demo.playlist (meta e)).
  { split.
    - intros o [= <-]. by exists (VStr "c1"), Demo.lounge.
    - intros a [= <-].
      by exists (OChannel Demo.lounge), (VStr "c1"), Demo.lounge, (VStr "m1"), Demo.alice. }
  destruct (url_entry_round_trip e _ _ data Demo.playlist eq_refl H1 H2 H3)
    as [(e' & Hd & Hr & Hf & _) _].
  split; [exact H1|]. split; [exact H2|]. split; [exact H3|].
  exists e'. split; [exact Hd|]. split; [exact Hr|exact Hf].
Defined.

(** C8 as the spec states it fails: the resolver knows no channel
    [c404] and no member [m404], yet a URL record naming that channel
    loads with [None] for the channel, a stream record naming it loads
    with the stored name for the channel, a record naming that member
    in a known channel loads with [None] for the author, and a batch
    of two records one of which names the unknown channel gives two
    entries. *)
Lemma unresolved_owner_is_kept :
  bot_get_channel Demo.playlist (VStr "c404") = ok None
  /\ server_get_member Demo.lounge (VStr "m404") = ok None
  /\ (exists e,
        URLPlaylistEntry._deserialize (VDict (Demo.url_record Demo.unknown_channel))
          (Some Demo.playlist) = (ok (Some e), [])
        /\ meta e = [("channel", OVal VNone)])
  /\ (exists e,
        StreamPlaylistEntry._deserialize (VDict (Demo.stream_record Demo.unknown_channel))
          (Some Demo.playlist) = (ok (Some e), [])
        /\ meta e = [("channel", OVal (VStr "gone"))])
  /\ (exists e,
        URLPlaylistEntry._deserialize (VDict (Demo.url_record Demo.unknown_author))
          (Some Demo.playlist) = (ok (Some e), [])
        /\ meta e = [("channel", OChannel Demo.lounge); ("author", OVal VNone)])
  /\ (exists l,
        load_batch URLPlaylistEntry._deserialize Demo.playlist
          [VDict (Demo.url_record Demo.known);
           VDict (Demo.url_record Demo.unknown_channel)] = ok l
        /\ length l = 2%nat).
Proof.
  split; [reflexivity|]. split; [reflexivity|].
  split; [eexists; split; reflexivity|].
  split; [eexists; split; reflexivity|].
  split; [eexists; split; reflexivity|].
  eexists; split; reflexivity.
Qed.

(** C8 on a record that names an author of a channel the resolver
    does not know (it is dropped from its batch), on a record that
    names only such a channel (it is kept, with no channel), and on a
    stream record whose block for such a channel has no name (it is
    dropped, with the [KeyError] logged). *)
Lemma deserialize_rejects_witness :
  let d := Demo.url_record Demo.author_of_unknown_channel in
  let k := Demo.url_record Demo.unknown_channel in
  let nameless := [("channel", VDict [("type", VStr "Channel"); ("id", VStr "c404")])] in
  let s := Demo.stream_record nameless in
  rejected false Demo.playlist d
  /\ fst (URLPlaylistEntry._deserialize (VDict d) (Some Demo.playlist)) = ok None
  /\ (exists l,
        load_batch URLPlaylistEntry._deserialize Demo.playlist
          [VDict (Demo.url_record Demo.known); VDict d; VDict k] = ok l
        /\ length l = 2%nat)
  /\ complete_record false k Demo.unknown_channel
  /\ bot_get_channel Demo.playlist (VStr "c404") = ok None
  /\ (exists e,
        URLPlaylistEntry._deserialize (VDict k) (Some Demo.playlist) = (ok (Some e), [])
        /\ meta e = [("channel", OVal VNone)])
  /\ complete_record true s nameless
  /\ StreamPlaylistEntry._deserialize (VDict s) (Some Demo.playlist)
     = (ok None,
        [Log ERROR "Could not load {}" [VStr "StreamPlaylistEntry"]
           (Some (KeyError "name"))]).
Proof.
  intros d k nameless s.
  assert (Hrej : rejected false Demo.playlist d).
  { right. exists Demo.author_of_unknown_channel.
    split; [reflexivity|]. split; [discriminate|].
    right. exists (Demo.owner "Channel" "c404" "gone"), (VStr "c404").
    split; [reflexivity|]. split; reflexivity. }
  assert (Hcomplete : complete_record false k Demo.unknown_channel).
  { split; [|split].
    - intros f Hin. cbn [required_fields] in Hin.
      repeat (apply elem_of_cons in Hin as [->|Hin]; [discriminate|]).
      by apply elem_of_nil in Hin.
    - intros _ dl [= <-]. discriminate.
    - reflexivity. }
  assert (Hstream : complete_record true s nameless).
  { split; [|split].
    - intros f Hin. cbn [required_fields] in Hin.
      repeat (apply elem_of_cons in Hin as [->|Hin]; [discriminate|]).
      by apply elem_of_nil in Hin.
    - discriminate.
    - reflexivity. }
  destruct (deserialize_rejects false Demo.playlist d) as (Hdrop & _).
  destruct (Hdrop Hrej) as ([e He] & _ & Hbatch).
  destruct (deserialize_rejects false Demo.playlist k) as (_ & Hkeep & _).
  destruct (Hkeep Demo.unknown_channel (Demo.owner "Channel" "c404" "gone")
              (VStr "c404") Hcomplete eq_refl eq_refl eq_refl) as (Hkept & _).
  destruct (Hkept eq_refl eq_refl) as (e' & He' & Hmeta).
  destruct (deserialize_rejects true Demo.playlist s) as (_ & Hname & _).
  destruct (Hname nameless (VDict [("type", VStr "Channel"); ("id", VStr "c404")])
              (VStr "c404") Hstream eq_refl eq_refl eq_refl) as (_ & _ & Hfails).
  pose proof (Hfails (KeyError "name") eq_refl eq_refl) as Hlogged.
  split; [exact Hrej|]. split.
  { change (deserializer false) with URLPlaylistEntry._deserialize in He.
    rewrite He. reflexivity. }
  split.
  { destruct (Hbatch [VDict (Demo.url_record Demo.known)] [VDict k])
      as (l & Hl & Hlen).
    + intros r Hr.
      apply elem_of_cons in Hr as [->|Hr]; [eexists; reflexivity|].
      apply elem_of_cons in Hr as [->|Hr]; [eexists; reflexivity|].
      by apply elem_of_nil in Hr.
    + exists l. split; [exact Hl|]. cbn in Hlen. congruence. }
  split; [exact Hcomplete|]. split; [reflexivity|].
  split; [exists e'; split; [exact He'|exact Hmeta]|].
  split; [exact Hstream|]. exact Hlogged.
Defined.

(** C10 on a stream that has a source URL and has been resolved. *)
Lemma stream_record_forgets_witness :
  let e :=
    with_filename (VStr "http://cdn/live.m3u8")
      (StreamPlaylistEntry.__init__ Demo.playlist (VStr "http://host/live")
         (VStr "Live") (VBool false) (VStr "http://host/page") Demo.owners) in
  let data := VDict (Demo.stream_record Demo.known) in
  StreamPlaylistEntry.json_data (VStr "http://host/live") (VBool false) e = ok data
  /\ exists e',
       StreamPlaylistEntry._deserialize data (Some Demo.playlist) = (ok (Some e'), [])
       /\ filename e' = VNone
       /\ variant e' = StreamFields (VStr "http://host/live") VNone (VBool false)
       /\ BasePlaylistEntry.is_downloaded e' = false.
Proof.
  intros e data.
  assert (H1 : StreamPlaylistEntry.json_data (VStr "http://host/live") (VBool false) e
               = ok data) by reflexivity.
  split; [exact H1|]. eexists.
  assert (H2 : StreamPlaylistEntry._deserialize data (Some Demo.playlist)
               = (ok (Some (StreamPlaylistEntry.__init__ Demo.playlist
                              (VStr "http://host/live") (VStr "Live") (VBool false)
                              VNone Demo.owners)), [])) by reflexivity.
  destruct (stream_record_forgets e _ (VStr "http://host/page") _ data Demo.playlist
              _ _ eq_refl H1 H2) as (_ & Hv & Hf & _ & Hn & _).
  split; [exact H2|]. split; [exact Hf|]. split; [exact Hv|]. exact (Hn eq_refl).
Defined.

(** C1 on the live stream: the waiter is still pending afterwards. *)
Lemma stream_waiter_never_notified_witness :
  let w := Demo.in_world Demo.live [] Demo.empty_cache in
  let asked := snd (BasePlaylistEntry.get_ready_future w) in
  let finished := snd (run _download asked) in
  BasePlaylistEntry.is_downloaded (self w) = false
  /\ fst (run _download asked) = ok tt
  /\ filename (self finished) = VStr "http://cdn/live.m3u8"
  /\ futures finished !! 0%nat = Some FPending
  /\ 0%nat ∈ _waiting_futures (self finished)
  /\ _is_downloading (self finished) = false.
Proof.
  intros w asked finished.
  destruct (stream_waiter_never_notified w (VStr "http://host/live") VNone (VBool false)
              eq_refl eq_refl) as (_ & _ & H3 & H4 & H5).
  split; [reflexivity|]. split; [reflexivity|]. split; [reflexivity|].
  split; [exact H3|]. split; [exact H4|exact H5].
Defined.

(** C2 on the live stream: two requests, two calls of the extractor. *)
Lemma stream_download_not_guarded_witness :
  let w := Demo.in_world Demo.live [] Demo.empty_cache in
  let l := exec [RequestReady; RequestReady; RunNext; RunNext] (idle w) in
  BasePlaylistEntry.is_downloaded (self w) = false
  /\ length (blocked l) = 2%nat
  /\ extract_calls (world l) = 2%nat.
Proof.
  intros w l.
  destruct (stream_download_not_guarded w (VStr "http://host/live") VNone (VBool false)
              eq_refl eq_refl eq_refl) as (_ & H1 & _ & _ & H4 & _).
  split; [reflexivity|]. split; [exact H1|exact H4].
Defined.

(** A URL entry on the loop: two requests before the loop runs give
    one call of the extractor, and both futures are resolved with the
    entry. *)
Example url_two_requests_one_fetch :
  let w := Demo.in_world Demo.generic_track [] Demo.empty_cache in
  let l := exec [RequestReady; RequestReady; RunNext; RunNext; Complete 0; RunNext]
             (idle w) in
  extract_calls (world l) = 1%nat
  /\ futures (world l) = [FResult 7; FResult 7]
  /\ _waiting_futures (self (world l)) = []
  /\ BasePlaylistEntry.is_downloaded (self (world l)) = true
  /\ finished l = [ok tt; ok tt]
  /\ blocked l = [].
Proof. vm_compute. repeat split. Qed.

(** A request that arrives after the extractor has answered and before
    the first [_download] resumes is served by that [_download], and
    the [_download] it scheduled starts once the flag is clear: after a
    failure it calls the extractor again, with nobody waiting. *)
Example url_late_request_fetches_again :
  let w := Demo.in_world Demo.gone_track [] Demo.empty_cache in
  let l := exec [RequestReady; RunNext; Complete 0; RequestReady; RunNext; RunNext]
             (idle w) in
  extract_calls (world l) = 2%nat
  /\ futures (world l)
     = [FException (ExtractionError (Foreign "DownloadError" true));
        FException (ExtractionError (Foreign "DownloadError" true))]
  /\ _waiting_futures (self (world l)) = []
  /\ length (blocked l) = 1%nat.
Proof. vm_compute. repeat split. Qed.

(** A failure after [filename] has been assigned: the extractor reports
    a result whose file is not there, [md5sum] raises, the waiter gets
    the exception, and the entry nevertheless counts as downloaded,
    with the name of a file that does not exist. *)
Example url_late_failure_leaves_filename :
  let w := Demo.in_world (with_waiting_futures [0%nat] Demo.ghost_track) [FPending]
             Demo.empty_cache in
  let w' := snd (run _download w) in
  fst (run _download w) = ok tt
  /\ futures w' = [FException OSError]
  /\ filename (self w') = VStr "audio_cache/generic-track.mp3"
  /\ BasePlaylistEntry.is_downloaded (self w') = true
  /\ Fs.lookup "audio_cache/generic-track.mp3" (fs w') = None.
Proof. vm_compute. repeat split. Qed.

End OnDemo.

(** ** Coroutines that keep a property of the world *)

Section Always.
Context `{Environment}.
Variable P : World -> Prop.

Local Abbreviation always := (always P).
Local Abbreviation keeps := (keeps P).

Lemma always_bind {A B} (r : res A) (f : A -> coro B) :
  always r -> (forall a w, P w -> always (f a w)) -> always (Coro.bind_res r f).
Proof.
  intros Hr Hf. induction r as [[e|a] w|req w k IH]; cbn in *.
  - done.
  - by apply Hf.
  - destruct Hr as [Hw Hk]. split; [done|]. intros resp w' Hw'. apply IH. by apply Hk.
Qed.

Lemma always_catch {A} (r : res A) (sel : exn -> bool) (h : exn -> coro A) :
  always r -> (forall e w, P w -> always (h e w)) -> always (Coro.catch_res r sel h).
Proof.
  intros Hr Hh. induction r as [[e|a] w|req w k IH]; cbn in *.
  - destruct (sel e); [by apply Hh|done].
  - done.
  - destruct Hr as [Hw Hk]. split; [done|]. intros resp w' Hw'. apply IH. by apply Hk.
Qed.

Lemma until_finally {A} (Q : World -> Prop) (r : res A) (fin : World -> World) :
  always r -> (forall w, P w -> Q (fin w)) -> until P Q (Coro.finally_res r fin).
Proof.
  intros Hr Hfin. induction r as [x w|req w k IH]; cbn in *.
  - by apply Hfin.
  - destruct Hr as [Hw Hk]. split; [done|]. intros resp w' Hw'. apply IH. by apply Hk.
Qed.

Lemma until_run {A} (Q : World -> Prop) (r : res A) :
  (forall w f, P w -> P (with_fs f w)) ->
  until P Q r -> Q (snd (run_res r)).
Proof.
  intros Hfs. induction r as [x w|req w k IH]; cbn; [done|].
  intros [Hw Hk]. destruct (answer req (fs w)) as [resp f]. apply IH, Hk. by apply Hfs.
Qed.

Lemma keeps_ret {A} (a : A) : keeps (Coro.ret a).
Proof. by intros w Hw. Qed.

Lemma keeps_throw {A} (e : exn) : keeps (Coro.throw (A:=A) e).
Proof. by intros w Hw. Qed.

Lemma keeps_of_result {A} (r : result A) : keeps (Coro.of_result r).
Proof. by intros w Hw. Qed.

Lemma keeps_gets {A} (f : World -> A) : keeps (Coro.gets f).
Proof. by intros w Hw. Qed.

Lemma keeps_modify (g : World -> World) :
  (forall w, P w -> P (g w)) -> keeps (Coro.modify g).
Proof. intros Hg w Hw. by apply Hg. Qed.

Lemma keeps_bind {A B} (m : coro A) (f : A -> coro B) :
  keeps m -> (forall a, keeps (f a)) -> keeps (Coro.bind m f).
Proof.
  intros Hm Hf w Hw. apply always_bind; [by apply Hm|]. intros a w' Hw'. by apply Hf.
Qed.

Lemma keeps_try_except {A} (m : coro A) (sel : exn -> bool) (h : exn -> coro A) :
  keeps m -> (forall e, keeps (h e)) -> keeps (Coro.try_except m sel h).
Proof.
  intros Hm Hh w Hw. apply always_catch; [by apply Hm|]. intros e w' Hw'. by apply Hh.
Qed.

(** What the statements of [fetch_or_reuse] may change: the file
    system, the log and [filename]. *)
Hypothesis P_fs : forall w f, P w -> P (with_fs f w).
Hypothesis P_emit : forall w ev, P w -> P (emit ev w).
Hypothesis P_filename :
  forall w v, P w -> P (with_self (with_filename v (self w)) w).

Lemma keeps_await (req : request) : keeps (Coro.await req).
Proof.
  intros w Hw. cbn. split; [by apply P_emit|].
  intros [e|v] w' Hw'; done.
Qed.

Lemma keeps_logging lvl msg args : keeps (Stmt.logging lvl msg args).
Proof. apply keeps_modify. intros w Hw. by apply P_emit. Qed.

Lemma keeps_set_filename v : keeps (Stmt.set_filename v).
Proof. apply keeps_modify. intros w Hw. by apply P_filename. Qed.

Lemma keeps_on_fs {A} (f : Fs.t -> result A) : keeps (Stmt.on_fs f).
Proof. by intros w Hw. Qed.

Lemma keeps_change_fs (f : Fs.t -> result Fs.t) : keeps (Stmt.change_fs f).
Proof.
  intros w Hw. unfold Stmt.change_fs. destruct (f (fs w)); [done|]. by apply P_fs.
Qed.

Ltac keeps_step :=
  first
    [ apply keeps_bind; [|intros ?]
    | apply keeps_try_except; [|intros ?]
    | apply keeps_ret
    | apply keeps_throw
    | apply keeps_of_result
    | apply keeps_gets
    | apply keeps_await
    | apply keeps_logging
    | apply keeps_set_filename
    | apply keeps_on_fs
    | apply keeps_change_fs
    | match goal with
      | |- keeps (if ?b then _ else _) => destruct b
      | |- keeps (match ?x with _ => _ end) => destruct x
      end ].

Lemma keeps_really_download (url : pyval) (hash : bool) :
  keeps (URLPlaylistEntry._really_download url hash).
Proof.
  unfold URLPlaylistEntry._really_download, URLPlaylistEntry.md5sum_of,
    Stmt.os_path_isfile, Stmt.os_unlink, Stmt.os_rename.
  cbv zeta. repeat keeps_step.
Qed.

Lemma keeps_fetch_or_reuse (url expected_filename : pyval) :
  keeps (URLPlaylistEntry.fetch_or_reuse url expected_filename).
Proof.
  unfold URLPlaylistEntry.fetch_or_reuse, URLPlaylistEntry.generic_branch,
    URLPlaylistEntry.named_branch, Stmt.os_path_exists, Stmt.os_makedirs,
    Stmt.os_listdir, Stmt.os_path_getsize.
  cbv zeta.
  repeat first [apply keeps_really_download | keeps_step].
Qed.

End Always.

(** ** [URLPlaylistEntry._download]: the life cycle *)

Section UrlLifeCycle.
Context `{Environment}.

Lemma fetch_or_reuse_frame (url expected_filename : pyval) (w : World) :
  same_base w (snd (run (URLPlaylistEntry.fetch_or_reuse url expected_filename) w)).
Proof.
  unfold run. apply (until_run (same_base w) (same_base w)).
  - intros w' f Hw'. exact Hw'.
  - apply keeps_fetch_or_reuse; try (intros w' ? Hw'; exact Hw').
    by repeat split.
Qed.

(** The guard: on an entry that is downloading, [_download] returns at
    once and changes nothing. *)
Lemma url_download_guard (url expected_filename : pyval) (w : World) :
  _is_downloading (self w) = true ->
  URLPlaylistEntry._download url expected_filename w = Done (ok tt) w.
Proof.
  intros Hflag. unfold URLPlaylistEntry._download, Coro.bind, Coro.gets.
  cbn [Coro.bind_res]. by rewrite Hflag.
Qed.

(** [_download] on an entry that is not downloading, in terms of what
    [fetch_or_reuse] does. *)
Lemma run_url_download (url expected_filename : pyval) (w : World) :
  _is_downloading (self w) = false ->
  run (URLPlaylistEntry._download url expected_filename) w =
  match run (URLPlaylistEntry.fetch_or_reuse url expected_filename)
          (Stmt.set_is_downloading true w) with
  | (inr _, wb) =>
      (ok tt,
       Stmt.set_is_downloading false
         (BasePlaylistEntry._for_each_future (Fut.set_result (self_id wb)) wb))
  | (inl x, wb) =>
      if is_Exception x then
        (ok tt,
         Stmt.set_is_downloading false
           (BasePlaylistEntry._for_each_future (Fut.set_exception x)
              (emit (PrintExc x) wb)))
      else (raise x, Stmt.set_is_downloading false wb)
  end.
Proof.
  intros Hflag. unfold URLPlaylistEntry._download.
  rewrite run_bind, run_gets, Hflag. cbv beta iota.
  rewrite run_bind, run_modify. cbv beta iota.
  rewrite run_try_finally, run_try_except, run_bind.
  destruct (run (URLPlaylistEntry.fetch_or_reuse url expected_filename)
              (Stmt.set_is_downloading true w)) as [[x|[]] wb].
  - destruct (is_Exception x); [|done].
    unfold URLPlaylistEntry.trigger_failed. by rewrite run_modify.
  - unfold URLPlaylistEntry.trigger_ready. by rewrite run_modify.
Qed.

Lemma for_each_future_resolves (outcome : Future) (w0 w : World) :
  NoDup (_waiting_futures (self w0)) ->
  futures w = futures w0 ->
  _waiting_futures (self w) = _waiting_futures (self w0) ->
  resolved_with outcome w0
    (Stmt.set_is_downloading false
       (BasePlaylistEntry._for_each_future (Fut.update (Fut.resolving outcome)) w)).
Proof.
  intros Hnd Hfut Hwait. unfold BasePlaylistEntry._for_each_future.
  rewrite Hwait.
  destruct (notify_spec (Fut.resolving outcome) (_waiting_futures (self w0))
              (with_self (with_waiting_futures [] (self w)) w) Hnd)
    as (H1 & _ & _ & _ & _ & H6 & H7 & H8 & _).
  cbn [futures with_self] in H6, H7, H8. rewrite Hfut in H6, H7, H8.
  unfold resolved_with. cbn [Stmt.set_is_downloading self with_self futures
                               _waiting_futures with_is_downloading].
  rewrite H1. split; [done|]. split; [|split].
  - intros f Hf Hp. by rewrite (H8 f FPending Hf Hp).
  - intros f Hf Hc. rewrite H7; [done|done|].
    unfold Fut.cancelled. cbn [futures with_self]. by rewrite Hfut, Hc.
  - exact H6.
Qed.

(** The callbacks and the [finally] leave [filename] as
    [fetch_or_reuse] set it. *)
Lemma url_download_filename (url expected_filename : pyval) (w : World) :
  _is_downloading (self w) = false ->
  filename (self (snd (run (URLPlaylistEntry._download url expected_filename) w)))
  = filename (self (snd (run (URLPlaylistEntry.fetch_or_reuse url expected_filename)
                           (Stmt.set_is_downloading true w)))).
Proof.
  intros Hflag. rewrite (run_url_download _ _ _ Hflag).
  destruct (run (URLPlaylistEntry.fetch_or_reuse url expected_filename)
              (Stmt.set_is_downloading true w)) as [[x|[]] wb].
  - destruct (is_Exception x); [|done].
    unfold BasePlaylistEntry._for_each_future, Fut.set_exception. cbn [snd].
    cbn [Stmt.set_is_downloading self with_self filename with_is_downloading].
    by destruct (notify_base (Fut.resolving (FException x))
                   (_waiting_futures (self (emit (PrintExc x) wb)))
                   (with_self (with_waiting_futures [] (self (emit (PrintExc x) wb)))
                      (emit (PrintExc x) wb))) as [-> _].
  - unfold BasePlaylistEntry._for_each_future, Fut.set_result. cbn [snd].
    cbn [Stmt.set_is_downloading self with_self filename with_is_downloading].
    by destruct (notify_base (Fut.resolving (FResult (self_id wb)))
                   (_waiting_futures (self wb))
                   (with_self (with_waiting_futures [] (self wb)) wb)) as [-> _].
Qed.

End UrlLifeCycle.

(** ** [URLPlaylistEntry]: one download at a time on the event loop *)

Section SingleFlight.
Context `{Environment}.
Variables (url expected_filename : pyval).

Local Abbreviation holding := (holding url expected_filename).
Local Abbreviation active_res := (active_res url expected_filename).
Local Abbreviation active_k := (active_k url expected_filename).
Local Abbreviation active_c := (active_c url expected_filename).
Local Abbreviation single_flight := (single_flight url expected_filename).
Local Abbreviation sf_idle := (sf_idle url expected_filename).
Local Abbreviation sf_blocked := (sf_blocked url expected_filename).
Local Abbreviation sf_ready := (sf_ready url expected_filename).

Lemma for_each_future_holding (act : Future -> result unit * Future) (b : bool)
    (w : World) :
  holding b w -> holding b (BasePlaylistEntry._for_each_future (Fut.update act) w).
Proof.
  intros (Hflag & Hvar & Hs). unfold BasePlaylistEntry._for_each_future, holding.
  destruct (notify_base act (_waiting_futures (self w))
              (with_self (with_waiting_futures [] (self w)) w)) as [-> ->].
  done.
Qed.

Lemma url_download_active (w : World) : holding false w -> active_res (_download w).
Proof.
  intros (Hflag & Hvar & Hs). unfold _download. rewrite Hvar.
  unfold URLPlaylistEntry._download, Coro.bind, Coro.gets, Coro.modify.
  cbn [Coro.bind_res]. rewrite Hflag. cbn [Coro.bind_res].
  unfold Coro.try_finally, Coro.try_except, active_res.
  apply until_finally.
  - apply always_catch.
    + apply always_bind.
      * apply keeps_fetch_or_reuse; try (intros w' ? Hw'; exact Hw'). done.
      * intros _ w' Hw'. by apply for_each_future_holding.
    + intros e w' Hw'. apply for_each_future_holding.
      destruct Hw' as (? & ? & ?). done.
  - intros w' (? & ? & ?). done.
Qed.

Lemma fresh_guarded (c : coro unit) (w : World) :
  fresh c -> holding true w -> c w = Done (ok tt) w.
Proof.
  intros -> (Hflag & Hvar & _). unfold _download. rewrite Hvar.
  by apply url_download_guard.
Qed.

Lemma all_fresh (l : list coroutine) : Forall fresh (map start l).
Proof. induction l as [|[i] l IH]; constructor; done. Qed.

Lemma holding_collected (b : bool) (w : World) :
  _is_downloading (self w) = b ->
  variant (self w) = UrlFields url expected_filename ->
  holding b (with_scheduled [] w).
Proof. done. Qed.

(** A coroutine past the guard runs or resumes: it is done, and nothing
    is past the guard, or it is suspended. *)
Lemma settle_active (l : Loop) (rest : list (coro unit)) (r : res unit) :
  active_res r -> Forall fresh rest -> blocked l = [] ->
  single_flight (settle l rest r).
Proof.
  intros Hr Hrest Hb. destruct r as [x w|req w k]; cbn in Hr; unfold settle, collect.
  - destruct Hr as (Hflag & Hvar & Hs). apply sf_idle; cbn [world ready blocked].
    + by apply holding_collected.
    + rewrite Hs. cbn. by rewrite app_nil_r.
    + done.
  - destruct Hr as [(Hflag & Hvar & Hs) Hk].
    apply (sf_blocked _ req k); cbn [world ready blocked].
    + by apply holding_collected.
    + rewrite Hs. cbn. by rewrite app_nil_r.
    + by rewrite Hb.
    + exact Hk.
Qed.

Lemma get_ready_future_holding (b : bool) (w : World) :
  holding b w ->
  let w' := snd (BasePlaylistEntry.get_ready_future w) in
  _is_downloading (self w') = b
  /\ variant (self w') = UrlFields url expected_filename.
Proof.
  intros (Hflag & Hvar & Hs). unfold BasePlaylistEntry.get_ready_future, Fut.create.
  cbn [self with_futures].
  destruct (BasePlaylistEntry.is_downloaded (self w)); [|done].
  unfold Fut.set_result, Fut.update. cbn [futures with_futures].
  by rewrite lookup_snoc.
Qed.

Lemma step_single_flight (a : action) (l : Loop) :
  single_flight l -> single_flight (step a l).
Proof.
  intros Hl. destruct a as [|i| |f]; cbn [step].
  - (* the loop runs the first ready callback *)
    destruct (ready l) as [|c rest] eqn:Hready; [done|].
    destruct Hl as [Hw Hfresh Hb|req k Hw Hfresh Hb Hk|pre c' post Hw Hr Hpre Hpost Hc Hb].
    + rewrite Hready in Hfresh. apply Forall_cons in Hfresh as [Hc Hrest].
      apply settle_active; [|done|done]. rewrite Hc. by apply url_download_active.
    + rewrite Hready in Hfresh. apply Forall_cons in Hfresh as [Hc Hrest].
      rewrite (fresh_guarded c (world l) Hc Hw). unfold settle, collect.
      destruct Hw as (Hflag & Hvar & Hs).
      apply (sf_blocked _ req k); cbn [world ready blocked]; try done.
      rewrite Hs. cbn. by rewrite app_nil_r.
    + rewrite Hready in Hr. destruct pre as [|p pre].
      * cbn in Hr. injection Hr as -> ->. apply settle_active; [|done|done].
        by apply Hc.
      * cbn in Hr. injection Hr as -> ->. apply Forall_cons in Hpre as [Hp Hpre].
        rewrite (fresh_guarded p (world l) Hp Hw). unfold settle, collect.
        destruct Hw as (Hflag & Hvar & Hs).
        apply (sf_ready _ pre c' post); cbn [world ready blocked]; try done.
        rewrite Hs. cbn. by rewrite app_nil_r.
  - (* an awaited call completes *)
    destruct (blocked l !! i) as [[req k]|] eqn:Hi; [|done].
    destruct (answer req (fs (world l))) as [resp f'].
    destruct Hl as [Hw Hfresh Hb|req' k' Hw Hfresh Hb Hk|pre c' post Hw Hr Hpre Hpost Hc Hb].
    + by rewrite Hb in Hi.
    + rewrite Hb in Hi. destruct i as [|i]; [|done]. injection Hi as -> ->.
      apply (sf_ready _ (ready l) (k resp) []); cbn [world ready blocked]; try done.
      * intros w Hw'. by apply Hk.
      * by rewrite Hb.
    + by rewrite Hb in Hi.
  - (* a consumer asks for a ready future *)
    destruct (BasePlaylistEntry.get_ready_future (world l)) as [r w] eqn:Hgrf.
    assert (Hkeep : forall b, holding b (world l) -> holding b (with_scheduled [] w)).
    { intros b Hb. pose proof (get_ready_future_holding b (world l) Hb) as Hg.
      rewrite Hgrf in Hg. destruct Hg as [Hflag Hvar]. by apply holding_collected. }
    unfold collect. cbn [world ready blocked finished].
    destruct Hl as [Hw Hfresh Hb|req k Hw Hfresh Hb Hk|pre c' post Hw Hr Hpre Hpost Hc Hb].
    + apply sf_idle; cbn [world ready blocked]; [by apply Hkeep| |done].
      apply Forall_app. split; [done|apply all_fresh].
    + apply (sf_blocked _ req k); cbn [world ready blocked]; [by apply Hkeep| |done|done].
      apply Forall_app. split; [done|apply all_fresh].
    + apply (sf_ready _ pre c' (post ++ map start (scheduled w))%list);
        cbn [world ready blocked]; [by apply Hkeep| |done| |done|done].
      * rewrite Hr, <- app_assoc. done.
      * apply Forall_app. split; [done|apply all_fresh].
  - (* a consumer cancels its handle *)
    assert (Hkeep : forall b, holding b (world l) -> holding b (Fut.cancel f (world l))).
    { intros b Hb. unfold Fut.cancel.
      destruct (futures (world l) !! f) as [[]|]; done. }
    destruct Hl as [Hw Hfresh Hb|req k Hw Hfresh Hb Hk|pre c' post Hw Hr Hpre Hpost Hc Hb].
    + apply sf_idle; cbn [world ready blocked]; [by apply Hkeep|done|done].
    + apply (sf_blocked _ req k); cbn [world ready blocked]; [by apply Hkeep|done..].
    + apply (sf_ready _ pre c' post); cbn [world ready blocked]; [by apply Hkeep|done..].
Qed.

Lemma exec_single_flight (schedule : list action) :
  forall l, single_flight l -> single_flight (exec schedule l).
Proof.
  unfold exec. induction schedule as [|a schedule IH]; intros l Hl; [done|].
  cbn [fold_left]. apply IH. by apply step_single_flight.
Qed.

(** Whatever the loop and the consumers do, from an idle loop and a URL
    entry that is not downloading: at most one [_download] is past the
    guard, so at most one coroutine is suspended at an [await]. *)
Lemma url_single_flight (w : World) (schedule : list action) :
  holding false w ->
  single_flight (exec schedule (idle w))
  /\ (length (blocked (exec schedule (idle w))) <= 1)%nat.
Proof.
  intros Hw.
  assert (Hsf : single_flight (exec schedule (idle w))).
  { apply exec_single_flight. by apply sf_idle. }
  split; [done|].
  destruct Hsf as [_ _ ->|req k _ _ -> _|pre c post _ _ _ _ _ ->]; cbn; lia.
Qed.

End SingleFlight.

(** ** [URLPlaylistEntry._download]: what the waiters are told *)

Section UrlOutcomes.
Context `{Environment}.

Lemma fetch_calls_print e (w : World) : fetch_calls (emit (PrintExc e) w) = fetch_calls w.
Proof.
  unfold fetch_calls, emit. cbn [log with_log].
  rewrite List.filter_app. cbn. by rewrite app_nil_r.
Qed.

Lemma fetch_calls_notify (act : Future -> result unit * Future) (futs : list nat) :
  forall w, fetch_calls (BasePlaylistEntry.notify (Fut.update act) futs w) = fetch_calls w.
Proof.
  induction futs as [|f futs IH]; intros w; [done|].
  cbn [BasePlaylistEntry.notify]. destruct (Fut.cancelled f w); [apply IH|].
  unfold Fut.update. destruct (futures w !! f) as [s|].
  - destruct (act s) as [[e|[]] s']; rewrite IH; [by rewrite fetch_calls_print|done].
  - rewrite IH. by rewrite fetch_calls_print.
Qed.

Lemma fs_notify (act : Future -> result unit * Future) (futs : list nat) :
  forall w, fs (BasePlaylistEntry.notify (Fut.update act) futs w) = fs w.
Proof.
  induction futs as [|f futs IH]; intros w; [done|].
  cbn [BasePlaylistEntry.notify]. destruct (Fut.cancelled f w); [apply IH|].
  unfold Fut.update. destruct (futures w !! f) as [s|].
  - destruct (act s) as [[e|[]] s']; by rewrite IH.
  - by rewrite IH.
Qed.

(** [_download] after a [fetch_or_reuse] that raised. *)
Lemma url_download_failed (url expected_filename : pyval) (w wb : World) (x : exn) :
  _is_downloading (self w) = false ->
  NoDup (_waiting_futures (self w)) ->
  run (URLPlaylistEntry.fetch_or_reuse url expected_filename)
    (Stmt.set_is_downloading true w) = (raise x, wb) ->
  is_Exception x = true ->
  let w' := snd (run (URLPlaylistEntry._download url expected_filename) w) in
  fst (run (URLPlaylistEntry._download url expected_filename) w) = ok tt
  /\ resolved_with (FException x) w w'
  /\ _is_downloading (self w') = false
  /\ filename (self w') = filename (self wb)
  /\ fs w' = fs wb
  /\ fetch_calls w' = fetch_calls wb.
Proof.
  intros Hflag Hnd Hbody Hexc. cbv zeta.
  pose proof (fetch_or_reuse_frame url expected_filename (Stmt.set_is_downloading true w))
    as (_ & Hfut & _ & _ & _ & Hwait).
  rewrite (run_url_download _ _ _ Hflag), Hbody, Hexc. rewrite Hbody in Hfut, Hwait.
  cbn [fst snd] in *.
  split; [done|]. split; [by apply for_each_future_resolves|].
  split; [done|].
  unfold BasePlaylistEntry._for_each_future, Fut.set_exception.
  cbn [Stmt.set_is_downloading self with_self filename with_is_downloading fs].
  destruct (notify_base (Fut.resolving (FException x))
              (_waiting_futures (self (emit (PrintExc x) wb)))
              (with_self (with_waiting_futures [] (self (emit (PrintExc x) wb)))
                 (emit (PrintExc x) wb))) as [-> _].
  split; [done|]. split; [by rewrite fs_notify|].
  unfold fetch_calls at 1. cbn [log with_self].
  change (fetch_calls
            (BasePlaylistEntry.notify (Fut.update (Fut.resolving (FException x)))
               (_waiting_futures (self (emit (PrintExc x) wb)))
               (with_self (with_waiting_futures [] (self (emit (PrintExc x) wb)))
                  (emit (PrintExc x) wb))) = fetch_calls wb).
  by rewrite fetch_calls_notify, fetch_calls_with_self, fetch_calls_print.
Qed.

(** [_download] after a [fetch_or_reuse] that returned. *)
Lemma url_download_succeeded (url expected_filename : pyval) (w wb : World) :
  _is_downloading (self w) = false ->
  NoDup (_waiting_futures (self w)) ->
  run (URLPlaylistEntry.fetch_or_reuse url expected_filename)
    (Stmt.set_is_downloading true w) = (ok tt, wb) ->
  let w' := snd (run (URLPlaylistEntry._download url expected_filename) w) in
  fst (run (URLPlaylistEntry._download url expected_filename) w) = ok tt
  /\ resolved_with (FResult (self_id w)) w w'
  /\ _is_downloading (self w') = false
  /\ filename (self w') = filename (self wb)
  /\ fs w' = fs wb
  /\ fetch_calls w' = fetch_calls wb.
Proof.
  intros Hflag Hnd Hbody. cbv zeta.
  pose proof (fetch_or_reuse_frame url expected_filename (Stmt.set_is_downloading true w))
    as (Hid & Hfut & _ & _ & _ & Hwait).
  rewrite (run_url_download _ _ _ Hflag), Hbody. rewrite Hbody in Hid, Hfut, Hwait.
  cbn [fst snd] in *.
  split; [done|]. split; [rewrite Hid; by apply for_each_future_resolves|].
  split; [done|].
  unfold BasePlaylistEntry._for_each_future, Fut.set_result.
  cbn [Stmt.set_is_downloading self with_self filename with_is_downloading fs].
  destruct (notify_base (Fut.resolving (FResult (self_id wb)))
              (_waiting_futures (self wb))
              (with_self (with_waiting_futures [] (self wb)) wb)) as [-> _].
  split; [done|]. split; [by rewrite fs_notify|].
  unfold fetch_calls at 1. cbn [log with_self].
  change (fetch_calls
            (BasePlaylistEntry.notify (Fut.update (Fut.resolving (FResult (self_id wb))))
               (_waiting_futures (self wb))
               (with_self (with_waiting_futures [] (self wb)) wb)) = fetch_calls wb).
  by rewrite fetch_calls_notify, fetch_calls_with_self.
Qed.

(** On a URL entry that is not downloading, [_download] ends with the
    downloading flag cleared, and what the waiting futures are told
    follows what the statements of the [try] before the callbacks
    (the cache and the fetch) have done.  When they return, [_download]
    returns, the waiting list is empty and every future that was
    pending holds the entry.  When they raise an exception that
    derives from [Exception], [_download] returns, the waiting list is
    empty and every future that was pending holds that exception.  In
    both cases a cancelled future stays cancelled and the other
    futures are untouched.  An exception that does not derive from
    [Exception] leaves [_download], and then no future is touched and
    the waiting list stays. *)
Theorem url_download_resolves (url expected_filename : pyval) (w : World) :
  _is_downloading (self w) = false ->
  NoDup (_waiting_futures (self w)) ->
  let body :=
    run (URLPlaylistEntry.fetch_or_reuse url expected_filename)
      (Stmt.set_is_downloading true w) in
  let r := fst (run (URLPlaylistEntry._download url expected_filename) w) in
  let w' := snd (run (URLPlaylistEntry._download url expected_filename) w) in
  _is_downloading (self w') = false
  /\ (fst body = ok tt ->
      r = ok tt /\ resolved_with (FResult (self_id w)) w w')
  /\ (forall x,
        fst body = raise x -> is_Exception x = true ->
        r = ok tt /\ resolved_with (FException x) w w')
  /\ (forall x,
        fst body = raise x -> is_Exception x = false ->
        r = raise x
        /\ futures w' = futures w
        /\ _waiting_futures (self w') = _waiting_futures (self w)).
Proof.
  intros Hflag Hnd. cbv zeta.
  pose proof (fetch_or_reuse_frame url expected_filename (Stmt.set_is_downloading true w))
    as (_ & Hfut & _ & _ & _ & Hwait).
  destruct (run (URLPlaylistEntry.fetch_or_reuse url expected_filename)
              (Stmt.set_is_downloading true w)) as [[x|[]] wb] eqn:Hbody;
    cbn [fst snd] in *.
  - destruct (is_Exception x) eqn:Hexc.
    + destruct (url_download_failed url expected_filename w wb x Hflag Hnd Hbody Hexc)
        as (Hr & Hres & Hdl & _).
      split; [done|]. split; [done|]. split.
      * by intros ? [= <-] _.
      * intros ? [= <-]. congruence.
    + rewrite (run_url_download _ _ _ Hflag), Hbody, Hexc. cbn [fst snd].
      split; [done|]. split; [done|]. split.
      * intros ? [= <-]. congruence.
      * by intros ? [= <-] _.
  - destruct (url_download_succeeded url expected_filename w wb Hflag Hnd Hbody)
      as (Hr & Hres & Hdl & _).
    split; [done|]. split; [done|]. split; done.
Qed.

End UrlOutcomes.

(** ** [URLPlaylistEntry]: a ready future and the download scheduled for it *)

Section UrlReady.
Context `{Environment}.

(** On a URL entry that is neither downloaded nor downloading,
    [get_ready_future] hands out a pending future and schedules
    [_download].  When that [_download] has run, the downloading flag
    is clear, and the future follows what the statements of the [try]
    before the callbacks (the cache and the fetch) have done: when
    they return, [_download] returns, nobody waits any more and the
    future holds the entry; when they raise an exception that derives
    from [Exception], [_download] returns, nobody waits any more and
    the future holds that exception; an exception that does not derive
    from [Exception] leaves [_download], and the future stays
    pending. *)
Theorem url_ready_future_resolves (url expected_filename : pyval) (w : World) :
  variant (self w) = UrlFields url expected_filename ->
  _is_downloading (self w) = false ->
  Py.truthy (filename (self w)) = false ->
  waiting_wf w ->
  let future := length (futures w) in
  let asked := snd (BasePlaylistEntry.get_ready_future w) in
  let body :=
    run (URLPlaylistEntry.fetch_or_reuse url expected_filename)
      (Stmt.set_is_downloading true asked) in
  let r := fst (run _download asked) in
  let finished := snd (run _download asked) in
  fst (BasePlaylistEntry.get_ready_future w) = ok future
  /\ scheduled asked = (scheduled w ++ [Download (self_id w)])%list
  /\ futures asked !! future = Some FPending
  /\ _is_downloading (self finished) = false
  /\ (fst body = ok tt ->
      r = ok tt
      /\ _waiting_futures (self finished) = []
      /\ futures finished !! future = Some (FResult (self_id w)))
  /\ (forall x,
        fst body = raise x -> is_Exception x = true ->
        r = ok tt
        /\ _waiting_futures (self finished) = []
        /\ futures finished !! future = Some (FException x))
  /\ (forall x,
        fst body = raise x -> is_Exception x = false ->
        r = raise x /\ futures finished !! future = Some FPending).
Proof.
  intros Hvar Hflag Hname [Hnd Hlt] future asked body r finished.
  assert (Hnot : BasePlaylistEntry.is_downloaded (self w) = false).
  { unfold BasePlaylistEntry.is_downloaded. by rewrite Hflag. }
  assert (Hasked : BasePlaylistEntry.get_ready_future w =
    (ok future,
     with_self (with_waiting_futures (_waiting_futures (self w) ++ [future])%list (self w))
       (with_scheduled (scheduled w ++ [Download (self_id w)])%list
          (with_futures (futures w ++ [FPending])%list w)))).
  { unfold BasePlaylistEntry.get_ready_future, Fut.create.
    cbn [self with_futures]. by rewrite Hnot. }
  unfold body, r, finished, asked. rewrite Hasked. cbn [fst snd].
  set (w1 := with_self _ _).
  assert (Hpending : futures w1 !! future = Some FPending) by apply lookup_snoc.
  assert (Hin : future ∈ _waiting_futures (self w1)).
  { apply elem_of_app. right. by apply list_elem_of_singleton. }
  assert (Hnd1 : NoDup (_waiting_futures (self w1))).
  { cbn. apply NoDup_app. split; [done|]. split; [|apply NoDup_singleton].
    intros f Hf ->%list_elem_of_singleton. specialize (Hlt _ Hf). unfold future in Hlt. lia. }
  split; [done|]. split; [done|]. split; [done|].
  rewrite (run_download_url w1 url expected_filename) by done.
  assert (Hflag1 : _is_downloading (self w1) = false) by done.
  pose proof (fetch_or_reuse_frame url expected_filename (Stmt.set_is_downloading true w1))
    as (_ & Hfut & _).
  destruct (run (URLPlaylistEntry.fetch_or_reuse url expected_filename)
              (Stmt.set_is_downloading true w1)) as [[x|[]] wb] eqn:Hbody;
    cbn [fst snd] in *.
  - destruct (is_Exception x) eqn:Hexc.
    + destruct (url_download_failed url expected_filename w1 wb x Hflag1 Hnd1 Hbody Hexc)
        as (Hr & (Hempty & Hres & _) & Hdl & _).
      split; [done|]. split; [done|]. split.
      * intros ? [= <-] _. split; [done|]. split; [done|]. by apply Hres.
      * intros ? [= <-]. congruence.
    + rewrite (run_url_download _ _ _ Hflag1), Hbody, Hexc. cbn [fst snd].
      split; [done|]. split; [done|]. split.
      * intros ? [= <-]. congruence.
      * intros ? [= <-] _. split; [done|].
        change (futures wb !! future = Some FPending). by rewrite Hfut.
  - destruct (url_download_succeeded url expected_filename w1 wb Hflag1 Hnd1 Hbody)
      as (Hr & (Hempty & Hres & _) & Hdl & _).
    split; [done|]. split.
    + intros _. split; [done|]. split; [done|]. by apply Hres.
    + split; done.
Qed.

End UrlReady.

(** ** [URLPlaylistEntry._download]: failures and the state they leave *)

Section UrlFailures.
Context `{Environment}.

Lemma mkdir_raises (p : string) (f : Fs.t) (e : exn) :
  Fs.mkdir p f = raise e -> e = OSError.
Proof.
  unfold Fs.mkdir. destruct (PyStr.eqb p ""); [by intros [= <-]|].
  destruct (Fs.exists_ p f); [by intros [= <-]|].
  destruct (Fs.in_directory p f); [done|by intros [= <-]].
Qed.

(** [os.makedirs] raises nothing but [OSError]. *)
Lemma makedirs_raises (p : string) (f : Fs.t) (e : exn) :
  Fs.makedirs p f = raise e -> e = OSError.
Proof.
  unfold Fs.makedirs. generalize (String.length p) as n. intros n. revert p f.
  induction n as [|n IH]; intros p f; cbn [Fs.makedirs_upto]; [apply mkdir_raises|].
  destruct (Fs.dirname p) as [head|]; [|apply mkdir_raises].
  destruct (negb (PyStr.eqb head "") && negb (Fs.exists_ head f));
    [|apply mkdir_raises].
  destruct (Fs.makedirs_upto n head f) as [x|f'] eqn:Hup.
  - intros [= <-]. by eapply IH.
  - apply mkdir_raises.
Qed.

(** [fetch_or_reuse] when [expected_filename] is not a string: the
    folder is made when it is missing, and then [os.path.basename]
    raises. *)
Lemma run_fetch_without_name (url expected_filename : pyval) (w : World) :
  (forall s, expected_filename <> VStr s) ->
  let folder := download_folder (playlist (self w)) in
  run (URLPlaylistEntry.fetch_or_reuse url expected_filename) w
  = if Fs.exists_ folder (fs w) then (raise TypeError, w)
    else match Fs.makedirs folder (fs w) with
         | inl e => (raise e, w)
         | inr f' => (raise TypeError, with_fs f' w)
         end.
Proof.
  intros Hstr folder. unfold URLPlaylistEntry.fetch_or_reuse.
  run_steps. unfold Stmt.os_path_exists. run_steps. fold folder.
  assert (Hname : Py.as_str expected_filename = raise TypeError).
  { destruct expected_filename; try done. by destruct (Hstr s). }
  destruct (Fs.exists_ folder (fs w)) eqn:Hex.
  - run_steps. by rewrite Hname.
  - unfold Stmt.os_makedirs. rewrite run_change_fs.
    destruct (Fs.makedirs folder (fs w)) as [e|f']; [done|].
    run_steps. by rewrite Hname.
Qed.

(** An entry built without [expected_filename] (the default is
    [None]), or with one that is not a string, cannot be downloaded.
    [_download] returns normally with the flag clear, the extractor is
    not called and [filename] stays as it was.  When the download
    folder is there, or is missing and [os.makedirs] makes it, every
    waiting future gets the [TypeError] of [os.path.basename]; when
    the folder is missing and [os.makedirs] raises (an empty path, a
    file in the way), every waiting future gets that [OSError], and
    the files are as they were. *)
Theorem download_without_expected_filename (url expected_filename : pyval) (w : World) :
  (forall s, expected_filename <> VStr s) ->
  _is_downloading (self w) = false ->
  NoDup (_waiting_futures (self w)) ->
  let folder := download_folder (playlist (self w)) in
  let w' := snd (run (URLPlaylistEntry._download url expected_filename) w) in
  fst (run (URLPlaylistEntry._download url expected_filename) w) = ok tt
  /\ _is_downloading (self w') = false
  /\ filename (self w') = filename (self w)
  /\ fetch_calls w' = fetch_calls w
  /\ (Fs.exists_ folder (fs w) = true ->
      resolved_with (FException TypeError) w w' /\ fs w' = fs w)
  /\ (forall f',
        Fs.exists_ folder (fs w) = false -> Fs.makedirs folder (fs w) = ok f' ->
        resolved_with (FException TypeError) w w' /\ fs w' = f')
  /\ (forall e,
        Fs.exists_ folder (fs w) = false -> Fs.makedirs folder (fs w) = raise e ->
        resolved_with (FException OSError) w w' /\ fs w' = fs w).
Proof.
  intros Hstr Hflag Hnd folder w'.
  pose proof (run_fetch_without_name url expected_filename
                (Stmt.set_is_downloading true w) Hstr) as Hbody.
  cbv zeta in Hbody.
  cbn [fs Stmt.set_is_downloading with_self self playlist with_is_downloading] in Hbody.
  fold folder in Hbody.
  destruct (Fs.exists_ folder (fs w)) eqn:Hex.
  - destruct (url_download_failed url expected_filename w _ TypeError Hflag Hnd Hbody
                eq_refl) as (Hr & Hres & Hdl & Hname & Hfs & Hcalls).
    fold w' in Hres, Hdl, Hname, Hfs, Hcalls.
    do 4 (split; [done|]). split; [done|]. split; by intros.
  - destruct (Fs.makedirs folder (fs w)) as [e|f'] eqn:Hmake.
    + assert (e = OSError) as -> by (by eapply makedirs_raises).
      destruct (url_download_failed url expected_filename w _ OSError Hflag Hnd Hbody
                  eq_refl) as (Hr & Hres & Hdl & Hname & Hfs & Hcalls).
      fold w' in Hres, Hdl, Hname, Hfs, Hcalls.
      do 4 (split; [done|]). split; [done|]. split; [done|]. by intros e _ _.
    + destruct (url_download_failed url expected_filename w _ TypeError Hflag Hnd Hbody
                  eq_refl) as (Hr & Hres & Hdl & Hname & Hfs & Hcalls).
      fold w' in Hres, Hdl, Hname, Hfs, Hcalls.
      do 4 (split; [done|]). split; [done|]. split; [|done].
      intros f'' _ [= <-]. done.
Qed.

Lemma rsplit1_whole (c : ascii) (s : string) :
  PyStr.has_char c s = false -> PyStr.rsplit1 c s = [s].
Proof.
  unfold PyStr.has_char, PyStr.rsplit1. by destruct (PyStr.rsplit_last c s).
Qed.

(** With the generic extractor, an expected file name without an
    extension makes [_download] fail before it looks at the cache:
    unpacking the base name into name and extension raises
    [ValueError], which every waiting future gets; the extractor is
    not called, and nothing else changes. *)
Theorem generic_without_extension (url : pyval) (expected : string)
    (names : list string) (w : World) :
  let folder := download_folder (playlist (self w)) in
  let w' := snd (run (URLPlaylistEntry._download url (VStr expected)) w) in
  _is_downloading (self w) = false ->
  NoDup (_waiting_futures (self w)) ->
  Fs.listdir folder (fs w) = ok names ->
  PyStr.first (PyStr.split "-"%char (OsPath.basename expected)) = "generic" ->
  PyStr.has_char "."%char (OsPath.basename expected) = false ->
  fst (run (URLPlaylistEntry._download url (VStr expected)) w) = ok tt
  /\ resolved_with (FException ValueError) w w'
  /\ _is_downloading (self w') = false
  /\ filename (self w') = filename (self w)
  /\ fs w' = fs w
  /\ fetch_calls w' = fetch_calls w.
Proof.
  intros folder w' Hflag Hnd Hdir Hgen Hext.
  assert (Hbody :
    run (URLPlaylistEntry.fetch_or_reuse url (VStr expected))
      (Stmt.set_is_downloading true w)
    = (raise ValueError, Stmt.set_is_downloading true w)).
  { rewrite (run_fetch_or_reuse _ url expected names) by done.
    rewrite Hgen, eqb_refl. unfold URLPlaylistEntry.generic_branch.
    unfold Stmt.os_listdir. rewrite run_bind, run_on_fs.
    cbn [fs Stmt.set_is_downloading with_self self playlist with_is_downloading].
    fold folder. rewrite Hdir. cbv beta iota zeta.
    rewrite run_bind, run_of_result, (rsplit1_whole _ _ Hext). done. }
  destruct (url_download_failed url (VStr expected) w _ ValueError Hflag Hnd Hbody eq_refl)
    as (Hr & Hres & Hdl & Hname & Hfs & Hcalls).
  done.
Qed.

(** The generic branch when no listed name matches. *)
Lemma run_generic_miss (url : pyval) (expected noex ext : string)
    (names : list string) (w : World) :
  let folder := download_folder (playlist (self w)) in
  Fs.listdir folder (fs w) = ok names ->
  PyStr.first (PyStr.split "-"%char (OsPath.basename expected)) = "generic" ->
  PyStr.rsplit1 "."%char (OsPath.basename expected) = [noex; ext] ->
  noex ∉ map (fun f => PyStr.first (PyStr.rsplit1 "-"%char f)) names ->
  run (URLPlaylistEntry.fetch_or_reuse url (VStr expected)) w
  = run (URLPlaylistEntry._really_download url true) w.
Proof.
  intros folder Hdir Hgen Hsplit Hno.
  rewrite (run_fetch_or_reuse w url expected names Hdir).
  rewrite Hgen, eqb_refl. unfold URLPlaylistEntry.generic_branch.
  unfold Stmt.os_listdir. rewrite run_bind, run_on_fs. fold folder. rewrite Hdir.
  cbv beta iota zeta.
  rewrite run_bind, run_of_result, Hsplit. cbn [Py.unpack2].
  cbv beta iota zeta. cbn [fst].
  destruct (PyStr.mem noex _) eqn:Hn; [by apply mem_elem_of in Hn|].
  done.
Qed.

(** The branch of the other extractors when no listed name matches. *)
Lemma run_named_miss (url : pyval) (expected : string) (ldir : list string) (w : World) :
  let folder := download_folder (playlist (self w)) in
  let base := OsPath.basename expected in
  Fs.listdir folder (fs w) = ok ldir ->
  PyStr.first (PyStr.split "-"%char base) <> "generic" ->
  base ∉ ldir ->
  PyStr.first (PyStr.rsplit1 "."%char base)
    ∉ map (fun f => PyStr.first (PyStr.rsplit1 "."%char f)) ldir ->
  run (URLPlaylistEntry.fetch_or_reuse url (VStr expected)) w
  = run (URLPlaylistEntry._really_download url false) w.
Proof.
  intros folder base Hdir Hgen Hbase Hno.
  rewrite (run_fetch_or_reuse w url expected ldir Hdir). fold base.
  apply eqb_false in Hgen as ->. unfold URLPlaylistEntry.named_branch.
  unfold Stmt.os_listdir. rewrite run_bind, run_on_fs. fold folder. rewrite Hdir.
  cbv beta iota zeta. fold base.
  destruct (PyStr.mem base ldir) eqn:Hb; [by apply mem_elem_of in Hb|].
  destruct (PyStr.mem (PyStr.first (PyStr.rsplit1 "."%char base)) _) eqn:Hn;
    [by apply mem_elem_of in Hn|].
  done.
Qed.

(** [_really_download] once the extractor has returned a result: with
    hashing and no file at the prepared name, [md5sum] raises when
    [filename] is already assigned. *)
Lemma run_really_download_ghost (url r : pyval) (w : World) :
  let ans := extract_info url true (fs w) in
  let complete :=
    emit (Log INFO "Download complete: {}" [url] None)
      (with_fs (snd ans)
         (emit (Call (ExtractInfo url true))
            (emit (Log INFO "Download started: {}" [url] None) w))) in
  fst ans = Returned r -> r <> VNone ->
  Fs.lookup (prepare_filename r) (snd ans) = None ->
  run (URLPlaylistEntry._really_download url true) w
  = (raise OSError,
     with_self (with_filename (VStr (prepare_filename r)) (self w)) complete).
Proof.
  intros ans complete Hr Hnone Hfile.
  pose proof (run_really_download w url true) as Hstart. cbv zeta in Hstart.
  fold ans in Hstart. fold complete in Hstart. rewrite Hstart, Hr.
  transitivity
    (run (Coro.bind (Stmt.set_filename (VStr (prepare_filename r)))
            (fun _ =>
               Coro.bind (URLPlaylistEntry.md5sum_of (prepare_filename r) 8)
                 (fun h =>
                    let fname :=
                      PyStr.join (PyStr.join h (PyStr.chars "-."))
                        (PyStr.rsplit1 "."%char (prepare_filename r)) in
                    Coro.bind (Stmt.set_filename (VStr fname))
                      (fun _ =>
                         Coro.bind (Stmt.os_path_isfile fname)
                           (fun isfile : bool =>
                              if isfile then Stmt.os_unlink (prepare_filename r)
                              else Stmt.os_rename (prepare_filename r) fname)))))
       complete).
  { by destruct r. }
  assert (Hfs : fs complete = snd ans) by done.
  rewrite run_bind, run_set_filename. cbv beta iota.
  unfold URLPlaylistEntry.md5sum_of.
  rewrite run_bind, run_on_fs. cbn [fs with_self].
  rewrite Hfs. unfold Fs.read. by rewrite Hfile.
Qed.

(** A download that fails after [filename] has been assigned leaves
    the entry looking downloaded.  With the generic extractor and no
    candidate in the cache, when the extractor reports a result and no
    file is at the name prepared for it: reading the file for its hash
    raises [OSError], every waiting future gets that exception, and yet
    [filename] stays the prepared name, so the entry counts as
    downloaded (the name is not empty) though no file is there. *)
Theorem failed_fetch_leaves_filename (url r : pyval) (expected noex ext : string)
    (names : list string) (w : World) :
  let folder := download_folder (playlist (self w)) in
  let ans := extract_info url true (fs w) in
  let w' := snd (run (URLPlaylistEntry._download url (VStr expected)) w) in
  _is_downloading (self w) = false ->
  NoDup (_waiting_futures (self w)) ->
  Fs.listdir folder (fs w) = ok names ->
  PyStr.first (PyStr.split "-"%char (OsPath.basename expected)) = "generic" ->
  PyStr.rsplit1 "."%char (OsPath.basename expected) = [noex; ext] ->
  noex ∉ map (fun f => PyStr.first (PyStr.rsplit1 "-"%char f)) names ->
  fst ans = Returned r -> r <> VNone ->
  Fs.lookup (prepare_filename r) (snd ans) = None ->
  fst (run (URLPlaylistEntry._download url (VStr expected)) w) = ok tt
  /\ resolved_with (FException OSError) w w'
  /\ filename (self w') = VStr (prepare_filename r)
  /\ BasePlaylistEntry.is_downloaded (self w')
     = negb (PyStr.eqb (prepare_filename r) "")
  /\ Fs.lookup (prepare_filename r) (fs w') = None.
Proof.
  intros folder ans w' Hflag Hnd Hdir Hgen Hsplit Hno Hr Hnone Hfile.
  assert (Hbody :
    exists wb,
      run (URLPlaylistEntry.fetch_or_reuse url (VStr expected))
        (Stmt.set_is_downloading true w) = (raise OSError, wb)
      /\ filename (self wb) = VStr (prepare_filename r)
      /\ fs wb = snd ans).
  { eexists. split; [|split].
    - rewrite (run_generic_miss url expected noex ext names) by done.
      by apply run_really_download_ghost.
    - done.
    - done. }
  destruct Hbody as (wb & Hbody & Hname & Hfs).
  destruct (url_download_failed url (VStr expected) w wb OSError Hflag Hnd Hbody eq_refl)
    as (Hr' & Hres & Hdl & Hname' & Hfs' & _).
  fold w' in Hres, Hdl, Hname', Hfs'.
  split; [done|]. split; [done|]. split; [congruence|]. split.
  - unfold BasePlaylistEntry.is_downloaded. by rewrite Hdl, Hname', Hname.
  - by rewrite Hfs', Hfs.
Qed.

(** The common path of a first download.  With an extractor other than
    the generic one and nothing in the cache under the expected name,
    with or without its extension, when the extractor returns a result:
    the extractor is called once, every waiting future is resolved with
    the entry, and [filename] is the name prepared for the result,
    whatever [expected_filename] says.  The files are as the extractor
    left them: nothing is hashed, renamed or removed. *)
Theorem named_miss_downloads (url r : pyval) (expected : string)
    (ldir : list string) (w : World) :
  let folder := download_folder (playlist (self w)) in
  let base := OsPath.basename expected in
  let ans := extract_info url true (fs w) in
  let w' := snd (run (URLPlaylistEntry._download url (VStr expected)) w) in
  _is_downloading (self w) = false ->
  NoDup (_waiting_futures (self w)) ->
  Fs.listdir folder (fs w) = ok ldir ->
  PyStr.first (PyStr.split "-"%char base) <> "generic" ->
  base ∉ ldir ->
  PyStr.first (PyStr.rsplit1 "."%char base)
    ∉ map (fun f => PyStr.first (PyStr.rsplit1 "."%char f)) ldir ->
  fst ans = Returned r -> r <> VNone ->
  fst (run (URLPlaylistEntry._download url (VStr expected)) w) = ok tt
  /\ resolved_with (FResult (self_id w)) w w'
  /\ _is_downloading (self w') = false
  /\ filename (self w') = VStr (prepare_filename r)
  /\ fs w' = snd ans
  /\ fetch_calls w' = S (fetch_calls w).
Proof.
  intros folder base ans w' Hflag Hnd Hdir Hgen Hbase Hno Hr Hnone.
  assert (Hbody :
    exists wb,
      run (URLPlaylistEntry.fetch_or_reuse url (VStr expected))
        (Stmt.set_is_downloading true w) = (ok tt, wb)
      /\ filename (self wb) = VStr (prepare_filename r)
      /\ fs wb = snd ans
      /\ fetch_calls wb = S (fetch_calls w)).
  { eexists. split; [|split; [|split]].
    - rewrite (run_named_miss url expected ldir) by done.
      pose proof (run_really_download (Stmt.set_is_downloading true w) url false)
        as Hstart.
      cbv zeta in Hstart. rewrite Hstart.
      cbn [fs Stmt.set_is_downloading with_self]. fold ans. rewrite Hr.
      transitivity
        (run (Coro.bind (Stmt.set_filename (VStr (prepare_filename r)))
                (fun _ => Coro.ret tt))
           (emit (Log INFO "Download complete: {}" [url] None)
              (with_fs (snd ans)
                 (emit (Call (ExtractInfo url true))
                    (emit (Log INFO "Download started: {}" [url] None)
                       (with_self (with_is_downloading true (self w)) w)))))).
      { by destruct r. }
      rewrite run_bind, run_set_filename. cbv beta iota. by rewrite run_ret.
    - done.
    - done.
    - unfold fetch_calls. cbn [log with_self emit with_log with_fs].
      rewrite !List.filter_app, !length_app. cbn. lia. }
  destruct Hbody as (wb & Hbody & Hname & Hfs & Hcalls).
  destruct (url_download_succeeded url (VStr expected) w wb Hflag Hnd Hbody)
    as (Hr' & Hres & Hdl & Hname' & Hfs' & Hcalls').
  fold w' in Hres, Hdl, Hname', Hfs', Hcalls'.
  split; [done|]. split; [done|]. split; [done|].
  split; [congruence|]. split; congruence.
Qed.

End UrlFailures.

(** ** [StreamPlaylistEntry._download]: the outcomes *)

Section StreamOutcomes.
Context `{Environment}.

(** [StreamPlaylistEntry._download] asks the extractor for the stream
    without downloading and always ends with the downloading flag
    clear.  When the result has a ['url'], that becomes [filename].
    An exception of the extractor that derives from [Exception] leaves
    as an [ExtractionError] of it.  A result without ['url'], or one
    that is no dictionary ([None] included), is not wrapped: the
    [KeyError] or [TypeError] of the subscript leaves as it is.  In
    every failure [filename] stays as it was.  The extractor is called
    once, never with [download=True], and the files are as it left
    them. *)
Theorem stream_download_outcomes (_url : pyval) (w : World) :
  let ans := extract_info _url false (fs w) in
  let r := fst (run (StreamPlaylistEntry._download _url) w) in
  let w' := snd (run (StreamPlaylistEntry._download _url) w) in
  _is_downloading (self w') = false
  /\ fs w' = snd ans
  /\ log w' = (log w ++ [Call (ExtractInfo _url false)])%list
  /\ (forall res u,
        fst ans = Returned res -> Py.getitem res "url" = ok u ->
        r = ok tt /\ filename (self w') = u)
  /\ (forall e,
        fst ans = Raised e -> is_Exception e = true ->
        r = raise (ExtractionError e) /\ filename (self w') = filename (self w))
  /\ (forall e,
        fst ans = Raised e -> is_Exception e = false ->
        r = raise e /\ filename (self w') = filename (self w))
  /\ (forall res,
        fst ans = Returned res -> (forall d, res <> VDict d) ->
        r = raise TypeError /\ filename (self w') = filename (self w))
  /\ (forall d,
        fst ans = Returned (VDict d) -> Py.dict_get "url" d = None ->
        r = raise (KeyError "url") /\ filename (self w') = filename (self w)).
Proof.
  intros ans r w'. unfold r, w'. rewrite run_stream_download. cbv zeta. fold ans.
  split; [|split; [|split]].
  - destruct (fst ans) as [e|res]; [done|]. by destruct (Py.getitem res "url").
  - destruct (fst ans) as [e|res]; [done|]. by destruct (Py.getitem res "url").
  - destruct (fst ans) as [e|res]; [done|]. by destruct (Py.getitem res "url").
  - split; [|split; [|split; [|split]]].
    + intros res u -> ->. done.
    + intros e -> ->. done.
    + intros e -> ->. done.
    + intros res -> Hd. destruct res as [| | | | |d]; try done. by destruct (Hd d).
    + intros d -> Hd. cbn [Py.getitem]. by rewrite Hd.
Qed.

End StreamOutcomes.

(** ** Properties of the world that the event loop keeps *)

Section LoopKeeps.
Context `{Environment}.
Variable P : World -> Prop.

Hypothesis P_fs : forall w f, P w -> P (with_fs f w).
Hypothesis P_emit : forall w ev, P w -> P (emit ev w).
Hypothesis P_filename :
  forall w v, P w -> P (with_self (with_filename v (self w)) w).
Hypothesis P_flag : forall w b, P w -> P (Stmt.set_is_downloading b w).
Hypothesis P_notify :
  forall w act, P w -> P (BasePlaylistEntry._for_each_future (Fut.update act) w).
Hypothesis P_scheduled : forall w l, P w -> P (with_scheduled l w).
Hypothesis P_request : forall w, P w -> P (snd (BasePlaylistEntry.get_ready_future w)).
Hypothesis P_cancel : forall w f, P w -> P (Fut.cancel f w).

Lemma keeps_url_download (url expected_filename : pyval) :
  keeps P (URLPlaylistEntry._download url expected_filename).
Proof.
  intros w Hw. unfold URLPlaylistEntry._download, Coro.bind, Coro.gets, Coro.modify.
  cbn [Coro.bind_res]. destruct (_is_downloading (self w)); [done|].
  cbn [Coro.bind_res]. unfold Coro.try_finally, Coro.try_except.
  apply until_finally; [|intros w' Hw'; by apply P_flag].
  apply always_catch.
  - apply always_bind.
    + apply keeps_fetch_or_reuse; try done. by apply P_flag.
    + intros _ w' Hw'. by apply P_notify.
  - intros e w' Hw'. apply P_notify. by apply P_emit.
Qed.

Lemma keeps_stream_download (_url : pyval) : keeps P (StreamPlaylistEntry._download _url).
Proof.
  intros w Hw. unfold StreamPlaylistEntry._download, Coro.bind, Coro.modify.
  cbn [Coro.bind_res]. unfold Coro.try_finally.
  apply until_finally; [|intros w' Hw'; by apply P_flag].
  apply always_bind.
  - apply keeps_try_except;
      [by apply keeps_await|intros e; apply keeps_throw|by apply P_flag].
  - intros res w' Hw'. apply always_bind; [by apply keeps_of_result|].
    intros u w'' Hw''. by apply keeps_set_filename.
Qed.

Lemma keeps_download : keeps P _download.
Proof.
  intros w Hw. unfold _download. destruct (variant (self w)).
  - by apply keeps_url_download.
  - by apply keeps_stream_download.
Qed.

Lemma all_keep (l : list coroutine) : Forall (keeps P) (map start l).
Proof. induction l as [|[i] l IH]; constructor; [apply keeps_download|done]. Qed.

Lemma collect_loop_keeps (l : Loop) : loop_keeps P l -> loop_keeps P (collect l).
Proof.
  intros (Hw & Hr & Hb). unfold collect, loop_keeps. cbn [world ready blocked].
  split; [by apply P_scheduled|]. split; [|done].
  apply Forall_app. split; [done|apply all_keep].
Qed.

Lemma settle_loop_keeps (l : Loop) (rest : list (coro unit)) (r : res unit) :
  always P r -> Forall (keeps P) rest ->
  Forall (fun b => forall resp, keeps P (snd b resp)) (blocked l) ->
  loop_keeps P (settle l rest r).
Proof.
  intros Hr Hrest Hb. destruct r as [x w|req w k]; cbn in Hr; unfold settle;
    apply collect_loop_keeps; unfold loop_keeps; cbn [world ready blocked].
  - done.
  - destruct Hr as [Hw Hk]. split; [done|]. split; [done|].
    apply Forall_app. split; [done|]. constructor; [|constructor].
    intros resp w' Hw'. by apply Hk.
Qed.

Lemma step_loop_keeps (a : action) (l : Loop) : loop_keeps P l -> loop_keeps P (step a l).
Proof.
  intros Hl. pose proof Hl as (Hw & Hr & Hb). destruct a as [|i| |f]; cbn [step].
  - destruct (ready l) as [|c rest] eqn:Hready; [done|].
    apply Forall_cons in Hr as [Hc Hrest].
    apply settle_loop_keeps; [by apply Hc|done|done].
  - destruct (blocked l !! i) as [[req k]|] eqn:Hi; [|done].
    destruct (answer req (fs (world l))) as [resp f'].
    unfold loop_keeps. cbn [world ready blocked].
    split; [by apply P_fs|]. split.
    + apply Forall_app. split; [done|]. constructor; [|constructor].
      apply (Forall_lookup_1 _ _ _ _ Hb Hi).
    + by apply Forall_delete.
  - pose proof (P_request _ Hw) as Hw'.
    destruct (BasePlaylistEntry.get_ready_future (world l)) as [r w].
    by apply collect_loop_keeps.
  - unfold loop_keeps. cbn [world ready blocked]. split; [by apply P_cancel|done].
Qed.

Lemma exec_loop_keeps (schedule : list action) :
  forall l, loop_keeps P l -> loop_keeps P (exec schedule l).
Proof.
  unfold exec. induction schedule as [|a schedule IH]; intros l Hl; [done|].
  cbn [fold_left]. apply IH. by apply step_loop_keeps.
Qed.

End LoopKeeps.

(** ** The waiting list on the event loop *)

Section WaitingList.
Context `{Environment}.

Lemma waiting_live_empty (w : World) : _waiting_futures (self w) = [] -> waiting_live w.
Proof.
  intros Hnil. unfold waiting_live. rewrite Hnil. split; [constructor|].
  by intros f ?%elem_of_nil.
Qed.

Lemma waiting_live_notify (w : World) (act : Future -> result unit * Future) :
  waiting_live (BasePlaylistEntry._for_each_future (Fut.update act) w).
Proof.
  apply waiting_live_empty. unfold BasePlaylistEntry._for_each_future.
  by destruct (notify_base act (_waiting_futures (self w))
                 (with_self (with_waiting_futures [] (self w)) w)) as [-> _].
Qed.

Lemma waiting_live_request (w : World) :
  waiting_live w -> waiting_live (snd (BasePlaylistEntry.get_ready_future w)).
Proof.
  intros [Hnd Hlive].
  assert (Hlt : forall f, f ∈ _waiting_futures (self w) -> (f < length (futures w))%nat).
  { intros f Hf. destruct (Hlive f Hf) as [Hl|Hl]; by apply lookup_lt_Some in Hl. }
  unfold BasePlaylistEntry.get_ready_future, Fut.create. cbn [self with_futures].
  destruct (BasePlaylistEntry.is_downloaded (self w)).
  - unfold Fut.set_result, Fut.update. cbn [futures with_futures].
    rewrite lookup_snoc. cbn. split; [done|].
    intros f Hf. cbn [futures with_futures self] in Hf |- *. specialize (Hlt f Hf).
    rewrite list_lookup_insert_ne by lia. rewrite lookup_app_l by done. by apply Hlive.
  - cbn. split.
    + apply NoDup_app. split; [done|]. split; [|apply NoDup_singleton].
      intros f Hf ->%list_elem_of_singleton. specialize (Hlt _ Hf). lia.
    + intros f [Hf| ->%list_elem_of_singleton]%elem_of_app;
        cbn [futures with_futures with_self with_scheduled].
      * rewrite lookup_app_l by (by apply Hlt). by apply Hlive.
      * left. apply lookup_snoc.
Qed.

Lemma waiting_live_cancel (w : World) (f : nat) :
  waiting_live w -> waiting_live (Fut.cancel f w).
Proof.
  intros [Hnd Hlive]. unfold Fut.cancel.
  destruct (futures w !! f) as [[]|] eqn:Hf; try done.
  split; [done|]. intros g Hg. cbn [futures with_futures].
  destruct (decide (f = g)) as [<-|Hne].
  - right. apply list_lookup_insert_eq. by eapply lookup_lt_Some.
  - rewrite list_lookup_insert_ne by done. by apply Hlive.
Qed.

(** Whatever the loop and the consumers do (the loop runs a callback,
    an awaited call completes, a consumer asks for a ready future or
    cancels one it holds), for an entry of either class: the waiting
    futures stay distinct, and each is pending or cancelled, never
    resolved already.  So resolving them raises nothing:
    [_for_each_future] has no traceback to print. *)
Theorem waiting_futures_stay_live (w : World) (schedule : list action) :
  waiting_live w ->
  let w' := world (exec schedule (idle w)) in
  waiting_live w'
  /\ (forall outcome,
        tracebacks (Fut.resolving outcome) w' (_waiting_futures (self w')) = [])
  /\ (forall outcome,
        log (BasePlaylistEntry._for_each_future (Fut.update (Fut.resolving outcome)) w')
        = log w').
Proof.
  intros Hw w'.
  assert (Hlive : waiting_live w').
  { apply (exec_loop_keeps waiting_live); try done.
    - intros w0 act _. apply waiting_live_notify.
    - apply waiting_live_request.
    - intros w0 f. apply waiting_live_cancel. }
  split; [done|].
  assert (Hquiet : forall outcome,
    tracebacks (Fut.resolving outcome) w' (_waiting_futures (self w')) = []).
  { intros outcome. destruct Hlive as [_ Hlive]. unfold tracebacks.
    induction (_waiting_futures (self w')) as [|f futs IH]; [done|].
    cbn [omap list_omap].
    rewrite IH by (intros g Hg; apply Hlive; by right).
    destruct (Hlive f) as [-> | ->]; [by left|done|done]. }
  split; [done|]. intros outcome.
  unfold BasePlaylistEntry._for_each_future.
  destruct Hlive as [Hnd _].
  destruct (notify_spec (Fut.resolving outcome) (_waiting_futures (self w'))
              (with_self (with_waiting_futures [] (self w')) w') Hnd)
    as (_ & _ & _ & _ & _ & _ & _ & _ & Hlog).
  rewrite Hlog. cbn [log with_self].
  rewrite (tracebacks_ext _ _ w') by done.
  rewrite Hquiet. by rewrite app_nil_r.
Qed.

End WaitingList.

(** ** Persistence: what a record restores, and what it cannot *)

Section Restoring.
Context `{Environment}.

Lemma stream_json_fields (_url direct : pyval) (e : Entry) (data : pyval) :
  StreamPlaylistEntry.json_data _url direct e = ok data ->
  exists m,
    URLPlaylistEntry.meta_json (meta e) = ok m
    /\ Py.getitem data "url" = ok _url
    /\ Py.getitem data "title" = ok (title e)
    /\ Py.getitem data "direct" = ok direct
    /\ Py.getitem data "meta" = ok (VDict m).
Proof.
  unfold StreamPlaylistEntry.json_data, rbind.
  destruct (URLPlaylistEntry.meta_json (meta e)) as [|m]; [done|].
  intros [= <-]. exists m. repeat split; reflexivity.
Qed.

(** The owners read back from the [meta] block of a record that
    [__json__] wrote, by the statements the two classes share; [fin]
    is what a class makes of the channel the resolver returns, and [K]
    the rest of [_deserialize]. *)
Lemma owners_restored (data : pyval) (m : list (string * pyval)) (pl : Playlist)
    (original : list (string * pyobj)) :
  Py.getitem data "meta" = ok (VDict m) ->
  URLPlaylistEntry.meta_json original = ok m ->
  owners_resolve pl original ->
  exists restored,
    restored_owners pl original restored
    /\ (forall (A : Type) (fin : option Channel -> result (list (string * pyobj)))
               (K : list (string * pyobj) -> result A),
          (forall c, fin (Some c) = ok [("channel", OChannel c)]) ->
          rbind (Py.contains "channel" (VDict m))
            (fun has_channel : bool =>
               rbind (if has_channel then
                        rbind (URLPlaylistEntry.stored_id data "channel")
                          (fun id => rbind (bot_get_channel pl id) fin)
                      else ok [])
                 (fun meta1 =>
                    rbind (Py.getitem data "meta")
                      (fun m' =>
                         rbind (Py.contains "author" m')
                           (fun has_author : bool =>
                              rbind (if has_author
                                     then URLPlaylistEntry.resolve_author data meta1
                                     else ok meta1) K))))
          = K restored).
Proof.
  intros Hmeta Hm [Hch Hau].
  pose proof (meta_json_get _ _ Hm "channel") as Hmc.
  pose proof (meta_json_get _ _ Hm "author") as Hma.
  unfold restored_owners.
  destruct (Obj.meta_get "channel" original) as [o|] eqn:Hoc.
  - destruct Hmc as (i & n & Hi & Hn & Hget).
    destruct (Hch o eq_refl) as (i' & c & Hi' & Hres).
    assert (i' = i) as -> by congruence.
    destruct (Obj.meta_get "author" original) as [a|] eqn:Hoa.
    + destruct Hma as (ia & na & Hia & Hna & Hgeta).
      destruct (Hau a eq_refl)
        as (o2 & i2 & c2 & ia2 & mem & Ho2 & Hi2 & Hc2 & Hia2 & Hmem).
      assert (o2 = o) as -> by congruence.
      assert (i2 = i) as -> by congruence.
      assert (c2 = c) as -> by congruence.
      assert (ia2 = ia) as -> by congruence.
      exists [("channel", OChannel c); ("author", OMember mem)]. split.
      { exists i, c. do 2 (split; [done|]). by exists ia, mem. }
      intros A fin K Hfin. unfold URLPlaylistEntry.resolve_author, rbind.
      cbn [Py.contains]. rewrite Hget. cbv beta iota.
      rewrite (stored_id_json data m "channel" o i n Hmeta Hget). cbv beta iota.
      rewrite Hres. cbv beta iota. rewrite Hfin. cbv beta iota.
      rewrite Hmeta. cbv beta iota. cbn [Py.contains].
      rewrite Hgeta. cbv beta iota. rewrite meta_item_head. cbv beta iota.
      rewrite (stored_id_json data m "author" a ia na Hmeta Hgeta). cbv beta iota.
      rewrite Hmem. reflexivity.
    + exists [("channel", OChannel c)]. split.
      { by exists i, c. }
      intros A fin K Hfin. unfold rbind.
      cbn [Py.contains]. rewrite Hget. cbv beta iota.
      rewrite (stored_id_json data m "channel" o i n Hmeta Hget). cbv beta iota.
      rewrite Hres. cbv beta iota. rewrite Hfin. cbv beta iota.
      rewrite Hmeta. cbv beta iota. cbn [Py.contains].
      by rewrite Hma.
  - exists []. split; [done|].
    intros A fin K Hfin. unfold rbind. cbn [Py.contains]. rewrite Hmc. cbv beta iota.
    rewrite Hmeta. cbv beta iota. cbn [Py.contains].
    destruct (Obj.meta_get "author" original) as [a|] eqn:Hoa.
    + destruct (Hau a eq_refl) as (o2 & ? & ? & ? & ? & Ho2 & _). congruence.
    + by rewrite Hma.
Qed.

(** A [URLPlaylistEntry] whose record is written and read back, with
    a resolver that finds every owner the record names, whatever state
    the entry was in: the entry read has the same url, title, duration
    and expected file name; it is downloaded exactly when the original
    was, with the same [filename] then and none otherwise; it is not
    downloading and nobody waits for it, even when the original was
    downloading with futures waiting; its owners are the channel and
    the author the resolver returns, and owners under other keys are
    gone. *)
Theorem url_record_restores (e : Entry) (url expected data : pyval) (pl : Playlist) :
  variant e = UrlFields url expected ->
  URLPlaylistEntry.json_data url expected e = ok data ->
  owners_resolve pl (meta e) ->
  exists e',
    URLPlaylistEntry._deserialize data (Some pl) = (ok (Some e'), [])
    /\ playlist e' = pl
    /\ variant e' = UrlFields url expected
    /\ title e' = title e
    /\ duration e' = duration e
    /\ filename e'
       = (if BasePlaylistEntry.is_downloaded e then filename e else VNone)
    /\ BasePlaylistEntry.is_downloaded e' = BasePlaylistEntry.is_downloaded e
    /\ _is_downloading e' = false
    /\ _waiting_futures e' = []
    /\ restored_owners pl (meta e) (meta e').
Proof.
  intros Hvar Hjson Hres.
  destruct (url_json_fields _ _ _ _ Hjson)
    as (m & Hm & Hurl & Htitle & Hdur & Hdown & Hfile & Hexp & Hmeta).
  destruct (owners_restored data m pl (meta e) Hmeta Hm Hres) as (restored & Hrest & Hk).
  exists (with_is_downloading false
            (with_filename
               (if BasePlaylistEntry.is_downloaded e then filename e else VNone)
               (URLPlaylistEntry.__init__ pl url (title e) (duration e) expected
                  restored))).
  assert (Hload :
    URLPlaylistEntry.load data pl =
    ok (with_is_downloading false
          (with_filename
             (if BasePlaylistEntry.is_downloaded e then filename e else VNone)
             (URLPlaylistEntry.__init__ pl url (title e) (duration e) expected
                restored)))).
  { unfold URLPlaylistEntry.load.
    rewrite Hurl. cbn [rbind]. rewrite Htitle. cbn [rbind]. rewrite Hdur. cbn [rbind].
    rewrite Hdown. cbn [rbind Py.truthy].
    assert (Hname :
      (if BasePlaylistEntry.is_downloaded e then Py.getitem data "filename"
       else ok VNone)
      = ok (if BasePlaylistEntry.is_downloaded e then filename e else VNone)).
    { by destruct (BasePlaylistEntry.is_downloaded e). }
    rewrite Hname. cbn [rbind]. rewrite Hexp. cbn [rbind]. rewrite Hmeta at 1.
    cbn [rbind].
    apply (Hk Entry
             (fun r => ok (Obj.meta_set "channel" (URLPlaylistEntry.of_lookup OChannel r) []))
             (fun meta0 =>
                ok (with_is_downloading false
                      (with_filename
                         (if BasePlaylistEntry.is_downloaded e then filename e
                          else VNone)
                         (URLPlaylistEntry.__init__ pl url (title e) (duration e)
                            expected meta0))))).
    done. }
  unfold URLPlaylistEntry._deserialize. rewrite Hload.
  split; [done|]. do 4 (split; [done|]). split; [done|]. split; [|done].
  unfold BasePlaylistEntry.is_downloaded at 1. cbn.
  destruct (BasePlaylistEntry.is_downloaded e) eqn:Hd; [|done].
  unfold BasePlaylistEntry.is_downloaded in Hd. by destruct (_is_downloading e).
Qed.

(** The same of a [StreamPlaylistEntry]: the entry read has the same
    [_url], title and [direct], no [source_url] (so its [url] property
    gives [_url], where the original's gave [source_url] when it had
    one), duration 0, and the owners the resolver returns. *)
Theorem stream_record_restores (e : Entry) (_url source_url direct data : pyval)
    (pl : Playlist) :
  variant e = StreamFields _url source_url direct ->
  StreamPlaylistEntry.json_data _url direct e = ok data ->
  owners_resolve pl (meta e) ->
  exists e',
    StreamPlaylistEntry._deserialize data (Some pl) = (ok (Some e'), [])
    /\ playlist e' = pl
    /\ variant e' = StreamFields _url VNone direct
    /\ title e' = title e
    /\ duration e' = VInt 0
    /\ StreamPlaylistEntry.url _url VNone = _url
    /\ (Py.truthy source_url = true ->
         StreamPlaylistEntry.url _url source_url = source_url)
    /\ BasePlaylistEntry.is_downloaded e' = Py.truthy direct && Py.truthy _url
    /\ _waiting_futures e' = []
    /\ restored_owners pl (meta e) (meta e').
Proof.
  intros Hvar Hjson Hres.
  destruct (stream_json_fields _ _ _ _ Hjson) as (m & Hm & Hurl & Htitle & Hdir & Hmeta).
  destruct (owners_restored data m pl (meta e) Hmeta Hm Hres) as (restored & Hrest & Hk).
  exists (StreamPlaylistEntry.__init__ pl _url (title e) direct VNone restored).
  assert (Hload :
    StreamPlaylistEntry.load data pl
    = ok (StreamPlaylistEntry.__init__ pl _url (title e) direct VNone restored)).
  { unfold StreamPlaylistEntry.load.
    rewrite Hurl. cbn [rbind]. rewrite Htitle. cbn [rbind]. rewrite Hdir. cbn [rbind].
    rewrite Hmeta at 1. cbn [rbind].
    apply (Hk Entry
             (fun ch =>
                rbind (StreamPlaylistEntry.channel_or_name data ch)
                  (fun v => ok (Obj.meta_set "channel" v [])))
             (fun meta0 =>
                ok (StreamPlaylistEntry.__init__ pl _url (title e) direct VNone meta0))).
    done. }
  unfold StreamPlaylistEntry._deserialize. rewrite Hload.
  split; [done|]. unfold StreamPlaylistEntry.__init__, StreamPlaylistEntry.url.
  destruct (Py.truthy direct) eqn:Hd; cbn.
  - repeat split; try done. by intros ->.
  - repeat split; try done. by intros ->.
Qed.

Lemma contains_is_exception (k : string) (c : pyval) (e : exn) :
  Py.contains k c = raise e -> is_Exception e = true.
Proof. destruct c; try done; by intros [= <-]. Qed.

Lemma stored_id_is_exception (data : pyval) (k : string) (e : exn) :
  URLPlaylistEntry.stored_id data k = raise e -> is_Exception e = true.
Proof.
  unfold URLPlaylistEntry.stored_id.
  destruct (Py.getitem data "meta") as [x|m] eqn:E1; cbn [rbind];
    [intros [= <-]; by eapply getitem_is_exception|].
  destruct (Py.getitem m k) as [x|o] eqn:E2; cbn [rbind];
    [intros [= <-]; by eapply getitem_is_exception|].
  apply getitem_is_exception.
Qed.

(** The statements of [_deserialize] from the author on; [K] builds
    the entry. *)
Lemma author_block_is_exception (data m : pyval) (meta1 : list (string * pyobj))
    (K : list (string * pyobj) -> Entry) (e : exn) :
  (forall c id x,
      Obj.meta_get "channel" meta1 = Some (OChannel c) ->
      server_get_member c id = raise x -> is_Exception x = true) ->
  rbind (Py.contains "author" m)
    (fun has_author : bool =>
       rbind (if has_author then URLPlaylistEntry.resolve_author data meta1
              else ok meta1)
         (fun meta => ok (K meta)))
  = raise e ->
  is_Exception e = true.
Proof.
  intros Hmem.
  destruct (Py.contains "author" m) as [x|has_author] eqn:E2; cbn [rbind];
    [intros [= <-]; by eapply contains_is_exception|].
  destruct has_author; [|done].
  unfold URLPlaylistEntry.resolve_author, Obj.meta_item.
  destruct (Obj.meta_get "channel" meta1) as [[v|c|mem]|] eqn:E3; cbn [rbind];
    try (by intros [= <-]).
  destruct (URLPlaylistEntry.stored_id data "author") as [x|id] eqn:E4; cbn [rbind];
    [intros [= <-]; by eapply stored_id_is_exception|].
  destruct (server_get_member c id) as [x|r] eqn:E5; cbn [rbind]; [|done].
  intros [= <-]. by eapply Hmem.
Qed.

Lemma url_load_is_exception (data : pyval) (pl : Playlist) (e : exn) :
  resolver_raises_exceptions pl ->
  URLPlaylistEntry.load data pl = raise e -> is_Exception e = true.
Proof.
  intros [Hch Hmem]. unfold URLPlaylistEntry.load.
  destruct (Py.getitem data "url") as [x|url] eqn:E1; cbn [rbind];
    [intros [= <-]; by eapply getitem_is_exception|].
  destruct (Py.getitem data "title") as [x|title] eqn:E2; cbn [rbind];
    [intros [= <-]; by eapply getitem_is_exception|].
  destruct (Py.getitem data "duration") as [x|duration] eqn:E3; cbn [rbind];
    [intros [= <-]; by eapply getitem_is_exception|].
  destruct (Py.getitem data "downloaded") as [x|downloaded] eqn:E4; cbn [rbind];
    [intros [= <-]; by eapply getitem_is_exception|].
  destruct (if Py.truthy downloaded then Py.getitem data "filename" else ok VNone)
    as [x|fname] eqn:E5; cbn [rbind].
  { intros [= <-]. destruct (Py.truthy downloaded); [|done].
    by eapply getitem_is_exception. }
  destruct (Py.getitem data "expected_filename") as [x|expected] eqn:E6; cbn [rbind];
    [intros [= <-]; by eapply getitem_is_exception|].
  destruct (Py.getitem data "meta") as [x|m] eqn:E7; cbn [rbind];
    [intros [= <-]; by eapply getitem_is_exception|].
  destruct (Py.contains "channel" m) as [x|has_channel] eqn:E8; cbn [rbind];
    [intros [= <-]; by eapply contains_is_exception|].
  destruct has_channel.
  - destruct (URLPlaylistEntry.stored_id data "channel") as [x|id] eqn:E9; cbn [rbind];
      [intros [= <-]; by eapply stored_id_is_exception|].
    destruct (bot_get_channel pl id) as [x|r] eqn:E10; cbn [rbind];
      [intros [= <-]; by eapply Hch|].
    intros Hload.
    eapply (author_block_is_exception data m
              (Obj.meta_set "channel" (URLPlaylistEntry.of_lookup OChannel r) [])
              (fun meta =>
                 with_is_downloading false
                   (with_filename fname
                      (URLPlaylistEntry.__init__ pl url title duration expected meta))));
      [|exact Hload].
    intros c id' x. cbn. destruct r as [c'|]; [|done].
    intros [= <-] Hx. by eapply Hmem.
  - intros Hload.
    eapply (author_block_is_exception data m []
              (fun meta =>
                 with_is_downloading false
                   (with_filename fname
                      (URLPlaylistEntry.__init__ pl url title duration expected meta))));
      [|exact Hload].
    done.
Qed.

Lemma stream_load_is_exception (data : pyval) (pl : Playlist) (e : exn) :
  resolver_raises_exceptions pl ->
  StreamPlaylistEntry.load data pl = raise e -> is_Exception e = true.
Proof.
  intros [Hch Hmem]. unfold StreamPlaylistEntry.load.
  destruct (Py.getitem data "url") as [x|url] eqn:E1; cbn [rbind];
    [intros [= <-]; by eapply getitem_is_exception|].
  destruct (Py.getitem data "title") as [x|title] eqn:E2; cbn [rbind];
    [intros [= <-]; by eapply getitem_is_exception|].
  destruct (Py.getitem data "direct") as [x|direct] eqn:E3; cbn [rbind];
    [intros [= <-]; by eapply getitem_is_exception|].
  destruct (Py.getitem data "meta") as [x|m] eqn:E7; cbn [rbind];
    [intros [= <-]; by eapply getitem_is_exception|].
  destruct (Py.contains "channel" m) as [x|has_channel] eqn:E8; cbn [rbind];
    [intros [= <-]; by eapply contains_is_exception|].
  destruct has_channel.
  - destruct (URLPlaylistEntry.stored_id data "channel") as [x|id] eqn:E9; cbn [rbind];
      [intros [= <-]; by eapply stored_id_is_exception|].
    destruct (bot_get_channel pl id) as [x|r] eqn:E10; cbn [rbind];
      [intros [= <-]; by eapply Hch|].
    destruct (StreamPlaylistEntry.channel_or_name data r) as [x|v] eqn:E11; cbn [rbind].
    { intros [= <-]. revert E11. unfold StreamPlaylistEntry.channel_or_name.
      destruct r as [c|]; [done|].
      rewrite E7. cbn [rbind].
      destruct (Py.getitem m "channel") as [y|o] eqn:E12; cbn [rbind];
        [intros [= <-]; by eapply getitem_is_exception|].
      destruct (Py.getitem o "name") as [y|n] eqn:E13; cbn [rbind]; [|done].
      intros [= <-]. by eapply getitem_is_exception. }
    intros Hload.
    eapply (author_block_is_exception data m (Obj.meta_set "channel" v [])
              (fun meta => StreamPlaylistEntry.__init__ pl url title direct VNone meta));
      [|exact Hload].
    intros c id' x. cbn. intros [= ->] Hx.
    revert E11. unfold StreamPlaylistEntry.channel_or_name.
    destruct r as [c'|].
    + intros [= <-]. by eapply Hmem.
    + rewrite E7. cbn [rbind].
      destruct (Py.getitem m "channel") as [y|o]; cbn [rbind]; [done|].
      by destruct (Py.getitem o "name").
  - intros Hload.
    eapply (author_block_is_exception data m []
              (fun meta => StreamPlaylistEntry.__init__ pl url title direct VNone meta));
      [|exact Hload].
    done.
Qed.

(** With a playlist whose resolver raises only exceptions that derive
    from [Exception], [_deserialize] of either class raises nothing,
    whatever it is given, a value that is no dictionary included: it
    returns an entry and logs nothing, or it returns [None] and logs
    one error record that carries the exception.  Without a playlist
    the assertion fails before anything is read, and nothing is
    logged: what [cls._bad('playlist')] raises leaves the method, or
    an [AssertionError] when [_bad] returns a message. *)
Theorem deserialize_absorbs (stream : bool) (data : pyval) (pl : Playlist) :
  resolver_raises_exceptions pl ->
  ((exists e', deserializer stream data (Some pl) = (ok (Some e'), []))
   \/ (exists e,
         is_Exception e = true
         /\ deserializer stream data (Some pl)
            = (ok None,
               [Log ERROR "Could not load {}" [VStr (class_of stream)] (Some e)])))
  /\ (exists e,
        deserializer stream data None = (raise e, [])
        /\ (forall x, _bad "playlist" = raise x -> e = x)
        /\ (forall v, _bad "playlist" = ok v -> e = AssertionError)).
Proof.
  intros Hres. split.
  2:{ destruct stream; unfold deserializer, StreamPlaylistEntry._deserialize,
        URLPlaylistEntry._deserialize, URLPlaylistEntry.assert_playlist;
        destruct (_bad "playlist") as [x|v]; eexists;
        (split; [reflexivity|]); split; congruence. }
  destruct stream; unfold deserializer, class_of.
  - unfold StreamPlaylistEntry._deserialize.
    destruct (StreamPlaylistEntry.load data pl) as [e|e'] eqn:Hload.
    + right. exists e. rewrite (stream_load_is_exception _ _ _ Hres Hload). done.
    + left. by exists e'.
  - unfold URLPlaylistEntry._deserialize.
    destruct (URLPlaylistEntry.load data pl) as [e|e'] eqn:Hload.
    + right. exists e. rewrite (url_load_is_exception _ _ _ Hres Hload). done.
    + left. by exists e'.
Qed.

Lemma url_load_unresolved (data m i : pyval) (pl : Playlist) (e' : Entry) :
  Py.getitem data "meta" = ok m ->
  Py.contains "channel" m = ok true ->
  URLPlaylistEntry.stored_id data "channel" = ok i ->
  bot_get_channel pl i = ok None ->
  URLPlaylistEntry.load data pl = ok e' ->
  meta e' = [("channel", OVal VNone)]
  /\ Py.contains "author" m = ok false
  /\ exists url expected, variant e' = UrlFields url expected.
Proof.
  intros Hmeta Hhas Hid Hres. unfold URLPlaylistEntry.load.
  destruct (Py.getitem data "url") as [x|url]; cbn [rbind]; [done|].
  destruct (Py.getitem data "title") as [x|title]; cbn [rbind]; [done|].
  destruct (Py.getitem data "duration") as [x|duration]; cbn [rbind]; [done|].
  destruct (Py.getitem data "downloaded") as [x|downloaded]; cbn [rbind]; [done|].
  destruct (if Py.truthy downloaded then Py.getitem data "filename" else ok VNone)
    as [x|fname]; cbn [rbind]; [done|].
  destruct (Py.getitem data "expected_filename") as [x|expected]; cbn [rbind]; [done|].
  rewrite Hmeta. cbn [rbind]. rewrite Hhas. cbn [rbind]. rewrite Hid. cbn [rbind].
  rewrite Hres. cbn [rbind URLPlaylistEntry.of_lookup Obj.meta_set].
  destruct (Py.contains "author" m) as [x|[]]; cbn [rbind]; [done| |].
  - unfold URLPlaylistEntry.resolve_author. rewrite meta_item_head. done.
  - intros [= <-]. split; [done|]. split; [done|]. by exists url, expected.
Qed.

Lemma stream_load_unresolved (data m i : pyval) (pl : Playlist) (e' : Entry) :
  Py.getitem data "meta" = ok m ->
  Py.contains "channel" m = ok true ->
  URLPlaylistEntry.stored_id data "channel" = ok i ->
  bot_get_channel pl i = ok None ->
  StreamPlaylistEntry.load data pl = ok e' ->
  (exists n, meta e' = [("channel", OVal n)])
  /\ Py.contains "author" m = ok false
  /\ exists _url direct, variant e' = StreamFields _url VNone direct.
Proof.
  intros Hmeta Hhas Hid Hres. unfold StreamPlaylistEntry.load.
  destruct (Py.getitem data "url") as [x|url]; cbn [rbind]; [done|].
  destruct (Py.getitem data "title") as [x|title]; cbn [rbind]; [done|].
  destruct (Py.getitem data "direct") as [x|direct]; cbn [rbind]; [done|].
  rewrite Hmeta. cbn [rbind]. rewrite Hhas. cbn [rbind]. rewrite Hid. cbn [rbind].
  rewrite Hres. cbn [rbind]. unfold StreamPlaylistEntry.channel_or_name.
  rewrite Hmeta. cbn [rbind].
  destruct (Py.getitem m "channel") as [x|o]; cbn [rbind]; [done|].
  destruct (Py.getitem o "name") as [x|n]; cbn [rbind Obj.meta_set]; [done|].
  destruct (Py.contains "author" m) as [x|[]]; cbn [rbind]; [done| |].
  - unfold URLPlaylistEntry.resolve_author. rewrite meta_item_head. done.
  - intros [= <-]. split; [|split; [done|]].
    + exists n. unfold StreamPlaylistEntry.__init__.
      by destruct (Py.truthy direct).
    + exists url, direct. unfold StreamPlaylistEntry.__init__.
      by destruct (Py.truthy direct).
Qed.

End Restoring.

(** ** Persistence: writing a restored entry again *)

Section Rewriting.
Context `{Environment}.

(** An entry read from a record whose channel the resolver does not
    know cannot be written again.  Such a record is read only when it
    names no author; the entry then carries, as its channel, [None]
    (a [URLPlaylistEntry]) or the name the record gives (a
    [StreamPlaylistEntry]), neither of which has an [id], and
    [__json__] raises [AttributeError]. *)
Theorem unresolved_channel_blocks_json (stream : bool) (data m i : pyval)
    (pl : Playlist) (e' : Entry) (lg : list event) :
  Py.getitem data "meta" = ok m ->
  Py.contains "channel" m = ok true ->
  URLPlaylistEntry.stored_id data "channel" = ok i ->
  bot_get_channel pl i = ok None ->
  deserializer stream data (Some pl) = (ok (Some e'), lg) ->
  (exists v, meta e' = [("channel", OVal v)])
  /\ Py.contains "author" m = ok false
  /\ __json__ e' = raise AttributeError.
Proof.
  intros Hmeta Hhas Hid Hres.
  destruct stream; unfold deserializer.
  - unfold StreamPlaylistEntry._deserialize.
    destruct (StreamPlaylistEntry.load data pl) as [e|entry] eqn:Hload;
      [by destruct (is_Exception e)|].
    intros [= <- <-].
    destruct (stream_load_unresolved _ _ _ _ _ Hmeta Hhas Hid Hres Hload)
      as ((n & Hn) & Hauthor & _url & direct & Hvar).
    split; [by exists n|]. split; [done|].
    unfold __json__. rewrite Hvar.
    unfold StreamPlaylistEntry.__json__, StreamPlaylistEntry.json_data.
    by rewrite Hn.
  - unfold URLPlaylistEntry._deserialize.
    destruct (URLPlaylistEntry.load data pl) as [e|entry] eqn:Hload;
      [by destruct (is_Exception e)|].
    intros [= <- <-].
    destruct (url_load_unresolved _ _ _ _ _ Hmeta Hhas Hid Hres Hload)
      as (Hn & Hauthor & url & expected & Hvar).
    split; [by exists VNone|]. split; [done|].
    unfold __json__. rewrite Hvar.
    unfold URLPlaylistEntry.__json__, URLPlaylistEntry.json_data.
    by rewrite Hn.
Qed.

End Rewriting.

(** ** The extractor is asked to download at most once *)

Section FetchesOnce.
Context `{Environment}.

Lemma fetches_bind_quiet {A B} (k : nat) (m : coro A) (f : A -> coro B) :
  fetches_at_most 0 m -> (forall a, fetches_at_most k (f a)) ->
  fetches_at_most k (Coro.bind m f).
Proof.
  intros Hm Hf w. rewrite run_bind. specialize (Hm w).
  destruct (run m w) as [[e|a] w1]; cbn [snd] in *; [lia|].
  specialize (Hf a w1). lia.
Qed.

Lemma fetches_bind_then_quiet {A B} (k : nat) (m : coro A) (f : A -> coro B) :
  fetches_at_most k m -> (forall a, fetches_at_most 0 (f a)) ->
  fetches_at_most k (Coro.bind m f).
Proof.
  intros Hm Hf w. rewrite run_bind. specialize (Hm w).
  destruct (run m w) as [[e|a] w1]; cbn [snd] in *; [lia|].
  specialize (Hf a w1). lia.
Qed.

Lemma fetches_try_except {A} (k : nat) (m : coro A) (sel : exn -> bool)
    (h : exn -> coro A) :
  fetches_at_most k m -> (forall e, fetches_at_most 0 (h e)) ->
  fetches_at_most k (Coro.try_except m sel h).
Proof.
  intros Hm Hh w. rewrite run_try_except. specialize (Hm w).
  destruct (run m w) as [[e|a] w1]; cbn [snd] in *; [|lia].
  destruct (sel e); cbn [snd]; [|lia]. specialize (Hh e w1). lia.
Qed.

Lemma fetches_try_finally {A} (k : nat) (m : coro A) (fin : World -> World) :
  fetches_at_most k m -> (forall w, fetch_calls (fin w) = fetch_calls w) ->
  fetches_at_most k (Coro.try_finally m fin).
Proof.
  intros Hm Hfin w. rewrite run_try_finally. cbn [snd]. rewrite Hfin. apply Hm.
Qed.

Lemma fetches_ret {A} (k : nat) (a : A) : fetches_at_most k (Coro.ret a).
Proof. intros w. rewrite run_ret. cbn. lia. Qed.

Lemma fetches_throw {A} (k : nat) (e : exn) : fetches_at_most k (Coro.throw (A:=A) e).
Proof. intros w. rewrite run_throw. cbn. lia. Qed.

Lemma fetches_of_result {A} (k : nat) (r : result A) :
  fetches_at_most k (Coro.of_result r).
Proof. intros w. rewrite run_of_result. cbn. lia. Qed.

Lemma fetches_gets {A} (k : nat) (f : World -> A) : fetches_at_most k (Coro.gets f).
Proof. intros w. rewrite run_gets. cbn. lia. Qed.

Lemma fetches_modify (k : nat) (g : World -> World) :
  (forall w, fetch_calls (g w) = fetch_calls w) -> fetches_at_most k (Coro.modify g).
Proof. intros Hg w. rewrite run_modify. cbn [snd]. rewrite Hg. lia. Qed.

Lemma fetches_logging (k : nat) lvl msg args :
  fetches_at_most k (Stmt.logging lvl msg args).
Proof. apply fetches_modify. intros w. apply fetch_calls_emit_log. Qed.

Lemma fetches_set_filename (k : nat) v : fetches_at_most k (Stmt.set_filename v).
Proof. by apply fetches_modify. Qed.

Lemma fetches_on_fs {A} (k : nat) (f : Fs.t -> result A) :
  fetches_at_most k (Stmt.on_fs f).
Proof. intros w. rewrite run_on_fs. cbn. lia. Qed.

Lemma fetches_change_fs (k : nat) (f : Fs.t -> result Fs.t) :
  fetches_at_most k (Stmt.change_fs f).
Proof.
  intros w. rewrite run_change_fs. destruct (f (fs w)); cbn [snd]; [lia|].
  change (fetch_calls (with_fs t w)) with (fetch_calls w). lia.
Qed.

Lemma fetches_probe (k : nat) (url : pyval) (h : string) :
  fetches_at_most k (Coro.await (GetHeader url h)).
Proof.
  intros w. rewrite run_await. cbn [snd].
  change (fetch_calls (with_fs ?f ?w0)) with (fetch_calls w0).
  rewrite fetch_calls_probe. lia.
Qed.

Lemma fetches_resolve (k : nat) (url : pyval) :
  fetches_at_most k (Coro.await (ExtractInfo url false)).
Proof.
  intros w. rewrite run_await. cbn [snd].
  change (fetch_calls (with_fs ?f ?w0)) with (fetch_calls w0).
  unfold fetch_calls, emit. cbn [log with_log].
  rewrite List.filter_app, length_app. cbn. lia.
Qed.

Lemma fetches_fetch (url : pyval) :
  fetches_at_most 1 (Coro.await (ExtractInfo url true)).
Proof.
  intros w. rewrite run_await. cbn [snd].
  change (fetch_calls (with_fs ?f ?w0)) with (fetch_calls w0).
  unfold fetch_calls, emit. cbn [log with_log].
  rewrite List.filter_app, length_app. cbn. lia.
Qed.

Ltac quiet_step :=
  first
    [ apply fetches_bind_quiet; [|intros ?]
    | apply fetches_try_except; [|intros ?]
    | apply fetches_ret
    | apply fetches_throw
    | apply fetches_of_result
    | apply fetches_gets
    | apply fetches_logging
    | apply fetches_set_filename
    | apply fetches_on_fs
    | apply fetches_change_fs
    | apply fetches_probe
    | apply fetches_resolve
    | match goal with
      | |- fetches_at_most _ (if ?b then _ else _) => destruct b
      | |- fetches_at_most _ (match ?x with _ => _ end) => destruct x
      end ].

Lemma fetches_really_download (url : pyval) (hash : bool) :
  fetches_at_most 1 (URLPlaylistEntry._really_download url hash).
Proof.
  unfold URLPlaylistEntry._really_download, URLPlaylistEntry.md5sum_of,
    Stmt.os_path_isfile, Stmt.os_unlink, Stmt.os_rename.
  cbv zeta.
  apply fetches_bind_quiet; [apply fetches_logging|intros _].
  apply fetches_bind_then_quiet.
  - apply fetches_try_except; [apply fetches_fetch|intros e; apply fetches_throw].
  - intros result. repeat quiet_step.
Qed.

Lemma fetches_fetch_or_reuse (url expected_filename : pyval) :
  fetches_at_most 1 (URLPlaylistEntry.fetch_or_reuse url expected_filename).
Proof.
  unfold URLPlaylistEntry.fetch_or_reuse, URLPlaylistEntry.generic_branch,
    URLPlaylistEntry.named_branch, Stmt.os_path_exists, Stmt.os_makedirs,
    Stmt.os_listdir, Stmt.os_path_getsize.
  cbv zeta.
  repeat first [apply fetches_really_download | quiet_step].
Qed.

Lemma fetches_notify (k : nat) (cb : World -> Future -> result unit * Future)
    (pre : World -> World) :
  (forall w, fetch_calls (pre w) = fetch_calls w) ->
  fetches_at_most k
    (Coro.modify (fun w =>
       BasePlaylistEntry._for_each_future (Fut.update (cb w)) (pre w))).
Proof.
  intros Hpre. apply fetches_modify. intros w.
  unfold BasePlaylistEntry._for_each_future.
  by rewrite fetch_calls_notify, fetch_calls_with_self.
Qed.

(** One run of [_download] asks the extractor to download at most
    once, whatever the cache holds and whatever fails, and
    [_really_download] likewise; a [StreamPlaylistEntry] never asks it
    to download. *)
Theorem download_fetches_at_most_once :
  fetches_at_most 1 _download
  /\ (forall url expected_filename,
        fetches_at_most 1 (URLPlaylistEntry._download url expected_filename))
  /\ (forall url hash, fetches_at_most 1 (URLPlaylistEntry._really_download url hash))
  /\ (forall _url, fetches_at_most 0 (StreamPlaylistEntry._download _url)).
Proof.
  assert (Hurl : forall url expected_filename,
            fetches_at_most 1 (URLPlaylistEntry._download url expected_filename)).
  { intros url expected_filename. unfold URLPlaylistEntry._download.
    apply fetches_bind_quiet; [apply fetches_gets|intros downloading].
    destruct downloading; [apply fetches_ret|].
    apply fetches_bind_quiet; [by apply fetches_modify|intros _].
    apply fetches_try_finally; [|done].
    apply fetches_try_except.
    - apply fetches_bind_then_quiet; [apply fetches_fetch_or_reuse|intros _].
      unfold URLPlaylistEntry.trigger_ready.
      apply (fetches_notify 0 (fun w => Fut.resolving (FResult (self_id w)))
               (fun w => w)). done.
    - intros e. unfold URLPlaylistEntry.trigger_failed.
      apply (fetches_notify 0 (fun _ => Fut.resolving (FException e))
               (emit (PrintExc e))).
      intros w. apply fetch_calls_print. }
  assert (Hstream : forall _url,
            fetches_at_most 0 (StreamPlaylistEntry._download _url)).
  { intros _url. unfold StreamPlaylistEntry._download.
    apply fetches_bind_quiet; [by apply fetches_modify|intros _].
    apply fetches_try_finally; [|done]. repeat quiet_step. }
  split; [|split; [done|split; [apply fetches_really_download|done]]].
  intros w. unfold run, _download.
  destruct (variant (self w)) as [url expected_filename|_url source_url direct].
  - apply Hurl.
  - pose proof (Hstream _url w) as Hs. unfold run in Hs. lia.
Qed.

End FetchesOnce.

(** ** The further properties on the small playlist *)

Section OnDemoFurther.
#[local] Existing Instance Demo.env.

(** One request for a track that is not in the cache, and the download
    scheduled for it; and the same for a track the extractor cannot
    fetch. *)
Lemma url_ready_future_resolves_witness :
  let w := Demo.in_world Demo.generic_track [] Demo.empty_cache in
  let asked := snd (BasePlaylistEntry.get_ready_future w) in
  let finished := snd (run _download asked) in
  let gone := Demo.in_world Demo.gone_track [] Demo.empty_cache in
  let failed := snd (run _download (snd (BasePlaylistEntry.get_ready_future gone))) in
  waiting_wf w
  /\ fst (BasePlaylistEntry.get_ready_future w) = ok 0%nat
  /\ futures asked !! 0%nat = Some FPending
  /\ fst (run _download asked) = ok tt
  /\ _waiting_futures (self finished) = []
  /\ futures finished !! 0%nat = Some (FResult 7)
  /\ futures failed !! 0%nat
     = Some (FException (ExtractionError (Foreign "DownloadError" true))).
Proof.
  intros w asked finished gone failed.
  assert (Hwf : waiting_wf w) by (by apply waiting_wf_init).
  assert (Hwf' : waiting_wf gone) by (by apply waiting_wf_init).
  destruct (url_ready_future_resolves (VStr "http://host/track.mp3")
              (VStr "audio_cache/generic-track.mp3") w eq_refl eq_refl eq_refl Hwf)
    as (H1 & _ & H3 & _ & Hok & _).
  destruct Hok as (Hr & Hempty & Hres); [vm_compute; reflexivity|].
  destruct (url_ready_future_resolves (VStr "http://host/gone")
              (VStr "audio_cache/generic-gone.mp3") gone eq_refl eq_refl eq_refl Hwf')
    as (_ & _ & _ & _ & _ & Hfail & _).
  destruct (Hfail (ExtractionError (Foreign "DownloadError" true)))
    as (_ & _ & Hexc); [vm_compute; reflexivity|reflexivity|].
  split; [exact Hwf|]. split; [exact H1|]. split; [exact H3|]. split; [exact Hr|].
  split; [exact Hempty|]. split; [exact Hres|exact Hexc].
Defined.

(** Three futures wait for a track the extractor cannot fetch; the
    second one has been cancelled. *)
Lemma url_download_resolves_witness :
  let w :=
    Demo.in_world (with_waiting_futures [0; 1; 2]%nat Demo.gone_track)
      [FPending; FCancelled; FPending] Demo.empty_cache in
  let body :=
    URLPlaylistEntry._download (VStr "http://host/gone")
      (VStr "audio_cache/generic-gone.mp3") in
  NoDup (_waiting_futures (self w))
  /\ fst (run body w) = ok tt
  /\ _is_downloading (self (snd (run body w))) = false
  /\ _waiting_futures (self (snd (run body w))) = []
  /\ futures (snd (run body w)) !! 0%nat
     = Some (FException (ExtractionError (Foreign "DownloadError" true)))
  /\ futures (snd (run body w)) !! 1%nat = Some FCancelled
  /\ futures (snd (run body w)) !! 2%nat
     = Some (FException (ExtractionError (Foreign "DownloadError" true))).
Proof.
  intros w body.
  assert (Hnd : NoDup (_waiting_futures (self w))) by compute_done.
  destruct (url_download_resolves (VStr "http://host/gone")
              (VStr "audio_cache/generic-gone.mp3") w eq_refl Hnd)
    as (Hdl & _ & Hfail & _).
  destruct (Hfail (ExtractionError (Foreign "DownloadError" true)))
    as (Hr & Hempty & Hpending & Hcancelled & _);
    [vm_compute; reflexivity|reflexivity|].
  split; [exact Hnd|]. split; [exact Hr|]. split; [exact Hdl|].
  split; [exact Hempty|].
  split; [apply (Hpending 0%nat); [compute_done|reflexivity]|].
  split; [apply (Hcancelled 1%nat); [compute_done|reflexivity]|].
  apply (Hpending 2%nat); [compute_done|reflexivity].
Defined.

(** Two requests, and the loop runs both downloads: one is past the
    guard. *)
Lemma url_single_flight_witness :
  let w := Demo.in_world Demo.generic_track [] Demo.empty_cache in
  let l := exec [RequestReady; RequestReady; RunNext; RunNext] (idle w) in
  holding (VStr "http://host/track.mp3") (VStr "audio_cache/generic-track.mp3") false w
  /\ (length (blocked l) <= 1)%nat.
Proof.
  intros w l.
  assert (Hw : holding (VStr "http://host/track.mp3")
                 (VStr "audio_cache/generic-track.mp3") false w)
    by (repeat split; reflexivity).
  destruct (url_single_flight (VStr "http://host/track.mp3")
              (VStr "audio_cache/generic-track.mp3") w
              [RequestReady; RequestReady; RunNext; RunNext] Hw) as [_ Hle].
  split; [exact Hw|exact Hle].
Defined.

(** An entry built without an expected file name: in a file system
    without the download folder, which is made; and with an empty
    path as download folder, which cannot be made. *)
Lemma download_without_expected_filename_witness :
  let e :=
    URLPlaylistEntry.__init__ Demo.playlist (VStr "http://host/track.mp3")
      (VStr "Track") (VInt 0) VNone [] in
  let w := Demo.in_world (with_waiting_futures [0%nat] e) [FPending] [] in
  let w' := snd (run (URLPlaylistEntry._download (VStr "http://host/track.mp3") VNone) w) in
  let nowhere :=
    {| download_folder := ""; bot_get_channel := bot_get_channel Demo.playlist |} in
  let e0 :=
    URLPlaylistEntry.__init__ nowhere (VStr "http://host/track.mp3")
      (VStr "Track") (VInt 0) VNone [] in
  let w0 := Demo.in_world (with_waiting_futures [0%nat] e0) [FPending] [] in
  let w0' := snd (run (URLPlaylistEntry._download (VStr "http://host/track.mp3") VNone) w0) in
  NoDup (_waiting_futures (self w))
  /\ Fs.makedirs "audio_cache" (fs w) = ok [("audio_cache", Fs.Dir 0)]
  /\ futures w' !! 0%nat = Some (FException TypeError)
  /\ _waiting_futures (self w') = []
  /\ fetch_calls w' = 0%nat
  /\ fs w' = [("audio_cache", Fs.Dir 0)]
  /\ Fs.makedirs "" (fs w0) = raise OSError
  /\ futures w0' !! 0%nat = Some (FException OSError)
  /\ fs w0' = [].
Proof.
  intros e w w' nowhere e0 w0 w0'.
  assert (Hnd : NoDup (_waiting_futures (self w))) by compute_done.
  assert (Hnd0 : NoDup (_waiting_futures (self w0))) by compute_done.
  destruct (download_without_expected_filename (VStr "http://host/track.mp3") VNone w
              ltac:(discriminate) eq_refl Hnd)
    as (_ & _ & _ & Hcalls & _ & Hmade & _).
  destruct (Hmade [("audio_cache", Fs.Dir 0)] eq_refl eq_refl)
    as ((Hempty & Hres & _) & Hfs).
  destruct (download_without_expected_filename (VStr "http://host/track.mp3") VNone w0
              ltac:(discriminate) eq_refl Hnd0)
    as (_ & _ & _ & _ & _ & _ & Hfailed).
  destruct (Hfailed OSError eq_refl eq_refl) as ((_ & Hres0 & _) & Hfs0).
  split; [exact Hnd|]. split; [reflexivity|].
  split; [apply (Hres 0%nat); [compute_done|reflexivity]|].
  split; [exact Hempty|]. split; [exact Hcalls|]. split; [exact Hfs|].
  split; [reflexivity|].
  split; [apply (Hres0 0%nat); [compute_done|reflexivity]|exact Hfs0].
Defined.

(** An expected name without an extension, with the generic
    extractor. *)
Lemma generic_without_extension_witness :
  let e :=
    URLPlaylistEntry.__init__ Demo.playlist (VStr "http://host/track.mp3")
      (VStr "Track") (VInt 0) (VStr "audio_cache/generic-track") [] in
  let w := Demo.in_world (with_waiting_futures [0%nat] e) [FPending] Demo.cache in
  let w' :=
    snd (run (URLPlaylistEntry._download (VStr "http://host/track.mp3")
                (VStr "audio_cache/generic-track")) w) in
  PyStr.has_char "."%char (OsPath.basename "audio_cache/generic-track") = false
  /\ futures w' !! 0%nat = Some (FException ValueError)
  /\ fetch_calls w' = 0%nat
  /\ fs w' = Demo.cache.
Proof.
  intros e w w'.
  assert (Hnd : NoDup (_waiting_futures (self w))) by compute_done.
  destruct (generic_without_extension (VStr "http://host/track.mp3")
              "audio_cache/generic-track"
              ["generic-track-0000005a.mp3"; "youtube-track.webm"; "youtube-other.m4a"]
              w eq_refl Hnd eq_refl eq_refl eq_refl)
    as (_ & (_ & Hres & _) & _ & _ & Hfs & Hcalls).
  split; [reflexivity|].
  split; [apply (Hres 0%nat); [compute_done|reflexivity]|].
  split; [exact Hcalls|exact Hfs].
Defined.

(** The extractor reports a result for [ghost] and writes no file. *)
Lemma failed_fetch_leaves_filename_witness :
  let w := Demo.in_world (with_waiting_futures [0%nat] Demo.ghost_track) [FPending]
             Demo.empty_cache in
  let w' :=
    snd (run (URLPlaylistEntry._download (VStr "http://host/ghost")
                (VStr "audio_cache/generic-ghost.mp3")) w) in
  Fs.lookup "audio_cache/generic-track.mp3"
    (snd (extract_info (VStr "http://host/ghost") true (fs w))) = None
  /\ futures w' !! 0%nat = Some (FException OSError)
  /\ filename (self w') = VStr "audio_cache/generic-track.mp3"
  /\ BasePlaylistEntry.is_downloaded (self w') = true
  /\ Fs.lookup "audio_cache/generic-track.mp3" (fs w') = None.
Proof.
  intros w w'.
  assert (Hnd : NoDup (_waiting_futures (self w))) by compute_done.
  assert (Hno : "generic-ghost"
                ∉ map (fun f => PyStr.first (PyStr.rsplit1 "-"%char f)) []).
  { by intros ?%elem_of_nil. }
  destruct (failed_fetch_leaves_filename (H:=Demo.env) (VStr "http://host/ghost")
              (VDict [("id", VStr "ghost")]) "audio_cache/generic-ghost.mp3"
              "generic-ghost" "mp3" [] w eq_refl Hnd eq_refl eq_refl eq_refl Hno
              eq_refl ltac:(discriminate) eq_refl)
    as (_ & (_ & Hres & _) & Hname & Hready & Hfile).
  split; [reflexivity|].
  split; [apply (Hres 0%nat); [compute_done|reflexivity]|].
  split; [exact Hname|]. split; [exact Hready|exact Hfile].
Defined.

(** A first download with a named extractor: the file name is the one
    the extractor prepared, not the expected one. *)
Lemma named_miss_downloads_witness :
  let w := Demo.in_world (with_waiting_futures [0%nat] Demo.named_track) [FPending]
             Demo.empty_cache in
  let w' :=
    snd (run (URLPlaylistEntry._download (VStr "http://host/track.mp3")
                (VStr "audio_cache/youtube-track.m4a")) w) in
  Fs.listdir "audio_cache" (fs w) = ok []
  /\ futures w' !! 0%nat = Some (FResult 7)
  /\ filename (self w') = VStr "audio_cache/generic-track.mp3"
  /\ Fs.lookup "audio_cache/generic-track.mp3" (fs w') = Some (Fs.File "hello")
  /\ fetch_calls w' = 1%nat.
Proof.
  intros w w'.
  assert (Hnd : NoDup (_waiting_futures (self w))) by compute_done.
  assert (Hbase : OsPath.basename "audio_cache/youtube-track.m4a" ∉ ([] : list string)).
  { by intros ?%elem_of_nil. }
  assert (Hno : PyStr.first
                  (PyStr.rsplit1 "."%char (OsPath.basename "audio_cache/youtube-track.m4a"))
                ∉ map (fun f => PyStr.first (PyStr.rsplit1 "."%char f)) []).
  { by intros ?%elem_of_nil. }
  destruct (named_miss_downloads (H:=Demo.env) (VStr "http://host/track.mp3")
              (VDict [("url", VStr "http://host/track.mp3"); ("id", VStr "track")])
              "audio_cache/youtube-track.m4a" [] w eq_refl Hnd eq_refl
              ltac:(discriminate) Hbase Hno eq_refl ltac:(discriminate))
    as (_ & (_ & Hres & _) & _ & Hname & Hfs & Hcalls).
  split; [reflexivity|].
  split; [apply (Hres 0%nat); [compute_done|reflexivity]|].
  split; [exact Hname|]. split; [|exact Hcalls].
  unfold w'. rewrite Hfs. reflexivity.
Defined.

(** The live stream resolves to its address; an extractor that
    returns [None] makes the subscript raise. *)
Lemma stream_download_outcomes_witness :
  let w := Demo.in_world Demo.live [] Demo.empty_cache in
  run (StreamPlaylistEntry._download (VStr "http://host/live")) w
  = (ok tt,
     snd (run (StreamPlaylistEntry._download (VStr "http://host/live")) w))
  /\ filename (self (snd (run (StreamPlaylistEntry._download (VStr "http://host/live")) w)))
     = VStr "http://cdn/live.m3u8"
  /\ fst (run (StreamPlaylistEntry._download (VStr "http://host/none")) w)
     = raise TypeError
  /\ fst (run (StreamPlaylistEntry._download (VStr "http://host/gone")) w)
     = raise (ExtractionError (Foreign "DownloadError" true)).
Proof.
  intros w.
  destruct (stream_download_outcomes (VStr "http://host/live") w)
    as (_ & _ & _ & Hok & _).
  destruct (Hok (VDict [("url", VStr "http://cdn/live.m3u8")])
              (VStr "http://cdn/live.m3u8") eq_refl eq_refl) as [Hr Hname].
  destruct (stream_download_outcomes (VStr "http://host/none") w)
    as (_ & _ & _ & _ & _ & _ & Hnone & _).
  destruct (Hnone VNone eq_refl ltac:(discriminate)) as [Hr2 _].
  destruct (stream_download_outcomes (VStr "http://host/gone") w)
    as (_ & _ & _ & _ & Hexc & _).
  destruct (Hexc (Foreign "DownloadError" true) eq_refl eq_refl) as [Hr3 _].
  split; [|split; [exact Hname|split; [exact Hr2|exact Hr3]]].
  rewrite <- Hr. by destruct (run _ w).
Defined.

(** Two requests, one of them cancelled, then the loop runs. *)
Lemma waiting_futures_stay_live_witness :
  let w := Demo.in_world Demo.generic_track [] Demo.empty_cache in
  let w' := world (exec [RequestReady; RequestReady; CancelFuture 0; RunNext] (idle w)) in
  waiting_live w
  /\ _waiting_futures (self w') = [0; 1]%nat
  /\ futures w' = [FCancelled; FPending]
  /\ waiting_live w'
  /\ log (BasePlaylistEntry._for_each_future (Fut.set_result 7) w') = log w'.
Proof.
  intros w w'.
  assert (Hw : waiting_live w) by (by apply waiting_live_empty).
  destruct (waiting_futures_stay_live w
              [RequestReady; RequestReady; CancelFuture 0; RunNext] Hw)
    as (Hlive & _ & Hlog).
  split; [exact Hw|]. split; [reflexivity|]. split; [reflexivity|].
  split; [exact Hlive|]. exact (Hlog (FResult 7)).
Defined.

(** A track written while it is downloading, with a future waiting,
    and read back. *)
Lemma url_record_restores_witness :
  let e :=
    with_is_downloading true
      (with_waiting_futures [0%nat]
         (with_filename (VStr "audio_cache/generic-track.mp3") Demo.generic_track)) in
  let data :=
    VDict [("version", VInt 1); ("url", VStr "http://host/track.mp3");
           ("title", VStr "Track"); ("duration", VInt 180);
           ("downloaded", VBool false);
           ("expected_filename", VStr "audio_cache/generic-track.mp3");
           ("filename", VStr "audio_cache/generic-track.mp3");
           ("meta", VDict Demo.known)] in
  URLPlaylistEntry.json_data (VStr "http://host/track.mp3")
    (VStr "audio_cache/generic-track.mp3") e = ok data
  /\ owners_resolve Demo.playlist (meta e)
  /\ exists e',
       URLPlaylistEntry._deserialize data (Some Demo.playlist) = (ok (Some e'), [])
       /\ filename e' = VNone
       /\ BasePlaylistEntry.is_downloaded e' = false
       /\ _is_downloading e' = false
       /\ _waiting_futures e' = []
       /\ meta e' = Demo.owners.
Proof.
  intros e data.
  assert (H2 : URLPlaylistEntry.json_data (VStr "http://host/track.mp3")
                 (VStr "audio_cache/generic-track.mp3") e = ok data) by reflexivity.
  assert (H3 : owners_resolve Demo.playlist (meta e)).
  { split.
    - intros o [= <-]. by exists (VStr "c1"), Demo.lounge.
    - intros a [= <-].
      by exists (OChannel Demo.lounge), (VStr "c1"), Demo.lounge, (VStr "m1"), Demo.alice. }
  destruct (url_record_restores e _ _ data Demo.playlist eq_refl H2 H3)
    as (e' & Hd & _ & _ & _ & _ & Hf & Hr & Hdl & Hw & Hm).
  split; [exact H2|]. split; [exact H3|].
  exists e'. split; [exact Hd|]. split; [exact Hf|]. split; [exact Hr|].
  split; [exact Hdl|]. split; [exact Hw|].
  destruct Hm as (i & c & Hi & Hc & ia & m & Hia & Hm & ->).
  injection Hi as <-. injection Hia as <-.
  injection Hc as <-. injection Hm as <-. reflexivity.
Defined.

(** The live stream, with a source address, written and read back. *)
Lemma stream_record_restores_witness :
  let e :=
    StreamPlaylistEntry.__init__ Demo.playlist (VStr "http://host/live") (VStr "Live")
      (VBool false) (VStr "http://page/live") Demo.owners in
  let data :=
    VDict [("version", VInt 1); ("url", VStr "http://host/live");
           ("title", VStr "Live"); ("direct", VBool false);
           ("meta", VDict Demo.known)] in
  StreamPlaylistEntry.json_data (VStr "http://host/live") (VBool false) e = ok data
  /\ owners_resolve Demo.playlist (meta e)
  /\ StreamPlaylistEntry.url (VStr "http://host/live") (VStr "http://page/live")
     = VStr "http://page/live"
  /\ exists e',
       StreamPlaylistEntry._deserialize data (Some Demo.playlist) = (ok (Some e'), [])
       /\ variant e' = StreamFields (VStr "http://host/live") VNone (VBool false)
       /\ StreamPlaylistEntry.url (VStr "http://host/live") VNone
          = VStr "http://host/live"
       /\ BasePlaylistEntry.is_downloaded e' = false.
Proof.
  intros e data.
  assert (H2 : StreamPlaylistEntry.json_data (VStr "http://host/live") (VBool false) e
               = ok data) by reflexivity.
  assert (H3 : owners_resolve Demo.playlist (meta e)).
  { split.
    - intros o [= <-]. by exists (VStr "c1"), Demo.lounge.
    - intros a [= <-].
      by exists (OChannel Demo.lounge), (VStr "c1"), Demo.lounge, (VStr "m1"), Demo.alice. }
  destruct (stream_record_restores e _ (VStr "http://page/live") _ data Demo.playlist
              eq_refl H2 H3)
    as (e' & Hd & _ & Hv & _ & _ & Hu & Hsrc & Hr & _).
  split; [exact H2|]. split; [exact H3|]. split; [exact (Hsrc eq_refl)|].
  exists e'. split; [exact Hd|]. split; [exact Hv|]. split; [exact Hu|exact Hr].
Defined.

(** A record whose channel the resolver does not know. *)
Lemma unresolved_channel_blocks_json_witness :
  let data := VDict (Demo.url_record Demo.unknown_channel) in
  let e' :=
    with_is_downloading false
      (with_filename VNone
         (URLPlaylistEntry.__init__ Demo.playlist (VStr "http://host/track.mp3")
            (VStr "Track") (VInt 180) (VStr "audio_cache/generic-track.mp3")
            [("channel", OVal VNone)])) in
  bot_get_channel Demo.playlist (VStr "c404") = ok None
  /\ URLPlaylistEntry._deserialize data (Some Demo.playlist) = (ok (Some e'), [])
  /\ __json__ e' = raise AttributeError.
Proof.
  intros data e'.
  assert (Hd : deserializer false data (Some Demo.playlist) = (ok (Some e'), []))
    by reflexivity.
  destruct (unresolved_channel_blocks_json false data (VDict Demo.unknown_channel)
              (VStr "c404") Demo.playlist e' [] eq_refl eq_refl eq_refl eq_refl Hd)
    as (_ & _ & Hjson).
  split; [reflexivity|]. split; [exact Hd|exact Hjson].
Defined.

(** The resolver of the small playlist raises nothing; a list is no
    record; and without a playlist [_bad] raises. *)
Lemma deserialize_absorbs_witness :
  resolver_raises_exceptions Demo.playlist
  /\ URLPlaylistEntry._deserialize (VList []) (Some Demo.playlist)
     = (ok None,
        [Log ERROR "Could not load {}" [VStr "URLPlaylistEntry"] (Some TypeError)])
  /\ URLPlaylistEntry._deserialize (VList []) None = (raise TypeError, []).
Proof.
  assert (Hnever : forall i e, bot_get_channel Demo.playlist i <> raise e).
  { intros i e. cbn. repeat case_match; done. }
  assert (Hlounge : forall id e, server_get_member Demo.lounge id <> raise e).
  { intros id e. cbn. repeat case_match; done. }
  assert (Hres : resolver_raises_exceptions Demo.playlist).
  { split.
    - intros i e Hi. by destruct (Hnever i e).
    - intros i c id e Hc He.
      assert (c = Demo.lounge) as ->.
      { revert Hc. cbn. repeat case_match; try done. by intros [= <-]. }
      by destruct (Hlounge id e). }
  destruct (deserialize_absorbs false (VList []) Demo.playlist Hres)
    as [[(e' & He)|(e & Hexc & He)] (x & Hnone & Hbad & _)].
  - discriminate He.
  - split; [exact Hres|]. split; [reflexivity|].
    change (deserializer false) with URLPlaylistEntry._deserialize in Hnone.
    rewrite Hnone. by rewrite (Hbad TypeError eq_refl).
Defined.

End OnDemoFurther.

(** ** The extractor whose files have no extension *)

Section OnPlain.
#[local] Existing Instance Plain.env.

(** A fetched file without an extension is removed, and [filename]
    names it. *)
Lemma really_download_no_extension_witness :
  let w := Demo.in_world Plain.track [] Demo.empty_cache in
  let w' := snd (run (URLPlaylistEntry._really_download (VStr "http://host/track") true) w) in
  PyStr.has_char "."%char "audio_cache/generic-track" = false
  /\ fst (run (URLPlaylistEntry._really_download (VStr "http://host/track") true) w) = ok tt
  /\ filename (self w') = VStr "audio_cache/generic-track"
  /\ Fs.lookup "audio_cache/generic-track" (fs w') = None.
Proof.
  intros w w'.
  destruct (really_download_no_extension (H:=Plain.env) w (VStr "http://host/track")
              (VDict [("url", VStr "http://host/track"); ("id", VStr "track")])
              "hello" eq_refl ltac:(discriminate) eq_refl eq_refl) as [Hrun Hgone].
  split; [reflexivity|]. unfold w'. rewrite Hrun.
  split; [reflexivity|]. split; [reflexivity|exact Hgone].
Defined.

End OnPlain.
